(** * Pomerium's envoy supervisor (internal/envoy/envoy.go)

    A shallow embedding of the Server type of package envoy: the bootstrap
    builder, the log relay and the process supervisor, together with the
    parts of the Go standard library and of zerolog they call.  Go strings
    are byte sequences: they are modelled by [string], one [ascii] per
    byte.  Go's [int] is the 64-bit one of the platforms the proxy runs on. *)

From Stdlib Require Import ZArith List String Ascii Bool Lia DecimalString.
Import ListNotations.

Local Open Scope string_scope.
Local Open Scope Z_scope.

(** ** Results of fallible calls *)

(** [(T, error)] of Go: [inl e] is a non-nil error, [inr v] a nil one. *)
Definition result (E A : Type) : Type := (E + A)%type.

Definition Ok {E A : Type} (a : A) : result E A := inr a.
Definition Err {E A : Type} (e : E) : result E A := inl e.

Definition isOk {E A : Type} (r : result E A) : bool :=
  match r with inr _ => true | inl _ => false end.

(** ** Bytes and strings *)

Definition byte (c : ascii) : Z := Z.of_N (N_of_ascii c).
Definition chr (z : Z) : ascii := ascii_of_N (Z.to_N (z mod 256)).

Definition dquote : ascii := "034"%char.
Definition squote : ascii := "039"%char.
Definition bquote : ascii := "096"%char.
Definition backslash : ascii := "092"%char.
Definition LF : ascii := "010"%char.
Definition CR : ascii := "013"%char.

Definition str1 (c : ascii) : string := String c EmptyString.

(** [len(s)] *)
Definition len (s : string) : Z := Z.of_nat (String.length s).

(** [s[:n]] and [s[n:]] for [0 <= n <= len(s)] *)
Fixpoint sliceTo (s : string) (n : nat) : string :=
  match n, s with
  | S n', String c t => String c (sliceTo t n')
  | _, _ => EmptyString
  end.

Fixpoint sliceFrom (s : string) (n : nat) : string :=
  match n, s with
  | S n', String _ t => sliceFrom t n'
  | _, _ => s
  end.

(** the last byte, [s[len(s)-1]] *)
Fixpoint lastByte (s : string) : option ascii :=
  match s with
  | EmptyString => None
  | String c EmptyString => Some c
  | String _ t => lastByte t
  end.

(** [s[:len(s)-1]] *)
Fixpoint dropLast (s : string) : string :=
  match s with
  | EmptyString => EmptyString
  | String _ EmptyString => EmptyString
  | String c t => String c (dropLast t)
  end.

Fixpoint containsByte (s : string) (c : ascii) : bool :=
  match s with
  | EmptyString => false
  | String d t => Ascii.eqb d c || containsByte t c
  end.

Module strings.

(** [strings.HasPrefix(s, prefix)] *)
Fixpoint HasPrefix (s prefix : string) : bool :=
  match prefix, s with
  | EmptyString, _ => true
  | String p ps, String c cs => Ascii.eqb c p && HasPrefix cs ps
  | String _ _, EmptyString => false
  end.

(** [strings.TrimPrefix(s, prefix)] *)
Definition TrimPrefix (s prefix : string) : string :=
  if HasPrefix s prefix then sliceFrom s (String.length prefix) else s.

(** [strings.Index(s, substr)]: the index of the first instance of
    [substr] in [s], or -1. *)
Fixpoint Index (s substr : string) : Z :=
  if HasPrefix s substr then 0
  else match s with
       | EmptyString => -1
       | String _ t => let i := Index t substr in
                       if i <? 0 then -1 else i + 1
       end.

(** [strings.Contains(s, substr)] *)
Definition Contains (s substr : string) : bool := 0 <=? Index s substr.

(** [strings.SplitN(s, sep, n)] for [n > 0] and a non-empty [sep]
    (genSplit): at most [n] substrings, the last one the unsplit
    remainder. *)
Fixpoint SplitN (s sep : string) (n : nat) : list string :=
  match n with
  | O => []
  | S O => [s]
  | S n' =>
      let m := Index s sep in
      if m <? 0 then [s]
      else sliceTo s (Z.to_nat m)
             :: SplitN (sliceFrom s (Z.to_nat m + String.length sep)) sep n'
  end.

(** [strings.TrimRight(s, cutset)] *)
Fixpoint TrimRight (s cutset : string) : string :=
  match s with
  | EmptyString => EmptyString
  | String c t =>
      match TrimRight t cutset with
      | EmptyString => if containsByte cutset c then EmptyString else str1 c
      | t' => String c t'
      end
  end.

End strings.

(** ** unicode/utf8 *)

Module utf8.

Definition RuneError : Z := 65533.
Definition RuneSelf : Z := 128.
Definition MaxRune : Z := 1114111.

(** The table [first]: what the first byte of a sequence announces. *)
Inductive lead : Type :=
| ASCII                              (* as *)
| Invalid                            (* xx *)
| Lead (size : nat) (lo hi : Z).     (* size and accept range of byte 2 *)

Definition first (b : Z) : lead :=
  if b <? 128 then ASCII
  else if b <? 194 then Invalid                  (* 0x80-0xC1 *)
  else if b <? 224 then Lead 2 128 191           (* 0xC2-0xDF *)
  else if b =? 224 then Lead 3 160 191           (* 0xE0 *)
  else if b <? 237 then Lead 3 128 191           (* 0xE1-0xEC *)
  else if b =? 237 then Lead 3 128 159           (* 0xED *)
  else if b <? 240 then Lead 3 128 191           (* 0xEE-0xEF *)
  else if b =? 240 then Lead 4 144 191           (* 0xF0 *)
  else if b <? 244 then Lead 4 128 191           (* 0xF1-0xF3 *)
  else if b =? 244 then Lead 4 128 143           (* 0xF4 *)
  else Invalid.                                  (* 0xF5-0xFF *)

Definition within (c : ascii) (lo hi : Z) : bool :=
  (lo <=? byte c) && (byte c <=? hi).

Definition cont (c : ascii) : bool := within c 128 191.

(** [utf8.DecodeRuneInString(s)]: the rune and its width in bytes. *)
Definition DecodeRuneInString (s : string) : Z * nat :=
  match s with
  | EmptyString => (RuneError, 0%nat)
  | String c0 t0 =>
      match first (byte c0) with
      | ASCII => (byte c0, 1%nat)
      | Invalid => (RuneError, 1%nat)
      | Lead sz lo hi =>
          if (String.length s <? sz)%nat then (RuneError, 1%nat)
          else
            match t0 with
            | EmptyString => (RuneError, 1%nat)
            | String c1 t1 =>
                if negb (within c1 lo hi) then (RuneError, 1%nat)
                else if (sz <=? 2)%nat
                then (Z.lor (Z.shiftl (Z.land (byte c0) 31) 6)
                            (Z.land (byte c1) 63), 2%nat)
                else
                  match t1 with
                  | EmptyString => (RuneError, 1%nat)
                  | String c2 t2 =>
                      if negb (cont c2) then (RuneError, 1%nat)
                      else if (sz <=? 3)%nat
                      then (Z.lor (Z.lor (Z.shiftl (Z.land (byte c0) 15) 12)
                                         (Z.shiftl (Z.land (byte c1) 63) 6))
                                  (Z.land (byte c2) 63), 3%nat)
                      else
                        match t2 with
                        | EmptyString => (RuneError, 1%nat)
                        | String c3 _ =>
                            if negb (cont c3) then (RuneError, 1%nat)
                            else
                              (Z.lor (Z.lor (Z.lor
                                 (Z.shiftl (Z.land (byte c0) 7) 18)
                                 (Z.shiftl (Z.land (byte c1) 63) 12))
                                 (Z.shiftl (Z.land (byte c2) 63) 6))
                                 (Z.land (byte c3) 63), 4%nat)
                        end
                  end
            end
      end
  end.

(** [utf8.ValidString(s)] *)
Fixpoint ValidString (s : string) : bool :=
  match s with
  | EmptyString => true
  | String c0 t0 =>
      match first (byte c0) with
      | ASCII => ValidString t0
      | Invalid => false
      | Lead sz lo hi =>
          match t0 with
          | EmptyString => false
          | String c1 t1 =>
              within c1 lo hi &&
              if (sz <=? 2)%nat then ValidString t1
              else
                match t1 with
                | EmptyString => false
                | String c2 t2 =>
                    cont c2 &&
                    if (sz <=? 3)%nat then ValidString t2
                    else
                      match t2 with
                      | EmptyString => false
                      | String c3 t3 => cont c3 && ValidString t3
                      end
                end
          end
      end
  end.

(** [utf8.EncodeRune]: the bytes of a rune; [r] is an int32, read here
    as a uint32 the way the code does. *)
Definition EncodeRune (r : Z) : string :=
  let i := r mod 2 ^ 32 in
  if i <=? 127 then str1 (chr r)
  else if i <=? 2047 then
    String (chr (Z.lor 192 (Z.shiftr r 6)))
      (str1 (chr (Z.lor 128 (Z.land r 63))))
  else
    let r3 := if (MaxRune <? i) || ((55296 <=? i) && (i <=? 57343))
              then RuneError else r in
    if (MaxRune <? i) || ((55296 <=? i) && (i <=? 57343)) || (i <=? 65535)
    then
      String (chr (Z.lor 224 (Z.shiftr r3 12)))
        (String (chr (Z.lor 128 (Z.land (Z.shiftr r3 6) 63)))
           (str1 (chr (Z.lor 128 (Z.land r3 63)))))
    else
      String (chr (Z.lor 240 (Z.shiftr r 18)))
        (String (chr (Z.lor 128 (Z.land (Z.shiftr r 12) 63)))
           (String (chr (Z.lor 128 (Z.land (Z.shiftr r 6) 63)))
              (str1 (chr (Z.lor 128 (Z.land r 63)))))).

End utf8.

(** ** strconv *)

Module strconv.

(** The two errors of the numeric parsers ([NumError.Err]); [Unquote]
    only ever returns [ErrSyntax]. *)
Inductive NumErr : Type := ErrSyntax | ErrRange.

Definition isDigit (c : ascii) : bool := (48 <=? byte c) && (byte c <=? 57).

(** The loop of [ParseUint(s, 10, bitSize)]: [n] is a uint64. *)
Fixpoint parseUintLoop (bitSize : Z) (s : string) (n : Z) : result NumErr Z :=
  match s with
  | EmptyString => Ok n
  | String c t =>
      if isDigit c then
        let d := byte c - 48 in
        let cutoff := (2 ^ 64 - 1) / 10 + 1 in
        let maxVal := 2 ^ bitSize - 1 in
        if cutoff <=? n then Err ErrRange          (* n*base overflows *)
        else
          let n10 := n * 10 in
          let n1 := (n10 + d) mod 2 ^ 64 in
          if (n1 <? n10) || (maxVal <? n1) then Err ErrRange
          else parseUintLoop bitSize t n1
      else Err ErrSyntax
  end.

(** [strconv.ParseUint(s, 10, bitSize)] *)
Definition ParseUint (s : string) (bitSize : Z) : result NumErr Z :=
  match s with
  | EmptyString => Err ErrSyntax
  | _ => parseUintLoop bitSize s 0
  end.

(** [strconv.ParseInt(s, 10, 0)] with [IntSize = 64]. *)
Definition ParseInt (s : string) : result NumErr Z :=
  match s with
  | EmptyString => Err ErrSyntax
  | String c t =>
      let neg := Ascii.eqb c "-" in
      let s' := if Ascii.eqb c "+" || neg then t else s in
      let cutoff := 2 ^ 63 in
      match ParseUint s' 64 with
      | inl ErrSyntax => Err ErrSyntax
      | inl ErrRange => Err ErrRange     (* un = maxVal >= cutoff *)
      | inr un =>
          if negb neg && (cutoff <=? un) then Err ErrRange
          else if neg && (cutoff <? un) then Err ErrRange
          else
            (* n := int64(un); if neg { n = -n } *)
            let n := (un + 2 ^ 63) mod 2 ^ 64 - 2 ^ 63 in
            Ok (if neg then (- n + 2 ^ 63) mod 2 ^ 64 - 2 ^ 63 else n)
      end
  end.

(** The fast path of [Atoi]: every byte must be a digit. *)
Fixpoint atoiFast (s : string) (n : Z) : result NumErr Z :=
  match s with
  | EmptyString => Ok n
  | String ch t =>
      let d := (byte ch - 48) mod 256 in          (* ch -= '0' on a byte *)
      if 9 <? d then Err ErrSyntax
      else atoiFast t (n * 10 + d)
  end.

(** [strconv.Atoi(s)] *)
Definition Atoi (s : string) : result NumErr Z :=
  let sLen := len s in
  if (0 <? sLen) && (sLen <? 19) then
    match s with
    | EmptyString => Err ErrSyntax
    | String c t =>
        let signed := Ascii.eqb c "-" || Ascii.eqb c "+" in
        let s' := if signed then t else s in
        if signed && (len s' <? 1) then Err ErrSyntax
        else
          match atoiFast s' 0 with
          | inl e => Err e
          | inr n => Ok (if Ascii.eqb c "-" then - n else n)
          end
    end
  else ParseInt s.

(** [strconv.Itoa(i)] *)
Definition Itoa (i : Z) : string := NilZero.string_of_int (Z.to_int i).

Definition unhex (c : ascii) : option Z :=
  let b := byte c in
  if (48 <=? b) && (b <=? 57) then Some (b - 48)
  else if (97 <=? b) && (b <=? 102) then Some (b - 97 + 10)
  else if (65 <=? b) && (b <=? 70) then Some (b - 65 + 10)
  else None.

(** int32 wrap-around of a rune computation *)
Definition rune32 (z : Z) : Z := (z + 2 ^ 31) mod 2 ^ 32 - 2 ^ 31.

(** [v = v<<4 | x] over the first [n] bytes of [s]. *)
Fixpoint hexDigits (n : nat) (s : string) (v : Z) : option (Z * string) :=
  match n with
  | O => Some (v, s)
  | S n' =>
      match s with
      | EmptyString => None
      | String c t =>
          match unhex c with
          | None => None
          | Some x => hexDigits n' t (rune32 (Z.lor (Z.shiftl v 4) x))
          end
      end
  end.

Definition octDigit (c : ascii) : option Z :=
  let x := byte c - 48 in
  if (x <? 0) || (7 <? x) then None else Some x.

(** [strconv.UnquoteChar(s, quote)]: the first character or byte of the
    escaped string [s]: its value, whether it needs a multibyte
    encoding, and the rest of the string. *)
Definition UnquoteChar (s : string) (quote : ascii)
  : result NumErr (Z * bool * string) :=
  match s with
  | EmptyString => Err ErrSyntax
  | String c t =>
      if Ascii.eqb c quote && (Ascii.eqb quote squote || Ascii.eqb quote dquote)
      then Err ErrSyntax
      else if utf8.RuneSelf <=? byte c then
        let '(r, size) := utf8.DecodeRuneInString s in
        Ok (r, true, sliceFrom s size)
      else if negb (Ascii.eqb c backslash) then Ok (byte c, false, t)
      else
        (* hard case: c is backslash *)
        match t with
        | EmptyString => Err ErrSyntax
        | String e s2 =>
            let simple v := Ok (v, false, s2) in
            if Ascii.eqb e "a" then simple 7
            else if Ascii.eqb e "b" then simple 8
            else if Ascii.eqb e "f" then simple 12
            else if Ascii.eqb e "n" then simple 10
            else if Ascii.eqb e "r" then simple 13
            else if Ascii.eqb e "t" then simple 9
            else if Ascii.eqb e "v" then simple 11
            else if Ascii.eqb e "x" || Ascii.eqb e "u" || Ascii.eqb e "U" then
              let n := if Ascii.eqb e "x" then 2%nat
                       else if Ascii.eqb e "u" then 4%nat else 8%nat in
              match hexDigits n s2 0 with
              | None => Err ErrSyntax
              | Some (v, s3) =>
                  if Ascii.eqb e "x" then Ok (v, false, s3)
                  else if utf8.MaxRune <? v then Err ErrSyntax
                  else Ok (v, true, s3)
              end
            else if (48 <=? byte e) && (byte e <=? 55) then
              match s2 with
              | String o1 (String o2 s3) =>
                  match octDigit o1, octDigit o2 with
                  | Some x1, Some x2 =>
                      let v := Z.lor (Z.shiftl
                                 (Z.lor (Z.shiftl (byte e - 48) 3) x1) 3) x2 in
                      if 255 <? v then Err ErrSyntax else Ok (v, false, s3)
                  | _, _ => Err ErrSyntax
                  end
              | _ => Err ErrSyntax
              end
            else if Ascii.eqb e backslash then simple 92
            else if Ascii.eqb e squote || Ascii.eqb e dquote then
              if negb (Ascii.eqb e quote) then Err ErrSyntax
              else simple (byte e)
            else Err ErrSyntax
        end
  end.

(** The loop of [Unquote]; each turn consumes at least one byte, so
    [String.length s] turns are enough. *)
Fixpoint unquoteLoop (fuel : nat) (quote : ascii) (s : string)
  : result NumErr string :=
  match s with
  | EmptyString => Ok EmptyString
  | String _ _ =>
      match fuel with
      | O => Err ErrSyntax
      | S fuel' =>
          match UnquoteChar s quote with
          | inl e => Err e
          | inr (c, multibyte, ss) =>
              let out := if (c <? utf8.RuneSelf) || negb multibyte
                         then str1 (chr c) else utf8.EncodeRune c in
              if Ascii.eqb quote squote && negb (String.eqb ss EmptyString)
              then Err ErrSyntax      (* single-quoted must be one character *)
              else
                match unquoteLoop fuel' quote ss with
                | inl e => Err e
                | inr rest => Ok (out ++ rest)%string
                end
          end
      end
  end.

Fixpoint removeByte (s : string) (c : ascii) : string :=
  match s with
  | EmptyString => EmptyString
  | String d t => if Ascii.eqb d c then removeByte t c
                  else String d (removeByte t c)
  end.

(** [strconv.Unquote(s)] (Go 1.16): [s] is read as a single-quoted,
    double-quoted or backquoted Go literal. *)
Definition Unquote (s : string) : result NumErr string :=
  if len s <? 2 then Err ErrSyntax
  else
    match s, lastByte s with
    | String quote t, Some l =>
        if negb (Ascii.eqb quote l) then Err ErrSyntax
        else
          let s := dropLast t in                       (* s[1 : n-1] *)
          if Ascii.eqb quote bquote then
            if containsByte s bquote then Err ErrSyntax
            else if containsByte s CR then Ok (removeByte s CR)
            else Ok s
          else if negb (Ascii.eqb quote dquote) && negb (Ascii.eqb quote squote)
          then Err ErrSyntax
          else if containsByte s LF then Err ErrSyntax
          else
            let trivial :=
              if negb (containsByte s backslash) && negb (containsByte s quote)
              then
                if Ascii.eqb quote dquote then utf8.ValidString s
                else
                  let '(r, size) := utf8.DecodeRuneInString s in
                  (size =? String.length s)%nat
                  && (negb (r =? utf8.RuneError) || negb (size =? 1)%nat)
              else false in
            if trivial then Ok s
            else unquoteLoop (String.length s) quote s
    | _, _ => Err ErrSyntax
    end.

End strconv.

(** ** net *)

Module net.

Fixpoint IndexByte (s : string) (c : ascii) : Z :=
  match s with
  | EmptyString => -1
  | String d t => if Ascii.eqb d c then 0
                  else let i := IndexByte t c in
                       if i <? 0 then -1 else i + 1
  end.

(** [last(s, b)]: index of the last [b] in [s], or -1 *)
Fixpoint last (s : string) (c : ascii) : Z :=
  match s with
  | EmptyString => -1
  | String d t => let i := last t c in
                  if 0 <=? i then i + 1
                  else if Ascii.eqb d c then 0 else -1
  end.

Inductive AddrError : Type :=
| missingPort | tooManyColons | missingBracket
| unexpectedOpen | unexpectedClose.

(** [net.SplitHostPort(hostport)] *)
Definition SplitHostPort (hostport : string)
  : result AddrError (string * string) :=
  let i := last hostport ":" in
  if i <? 0 then Err missingPort
  else
    let bracketed := match hostport with
                     | String c _ => Ascii.eqb c "["
                     | EmptyString => false
                     end in
    let r : result AddrError (string * Z * Z) :=
      if bracketed then
        let e := IndexByte hostport "]" in
        if e <? 0 then Err missingBracket
        else if e + 1 =? len hostport then Err missingPort
        else if e + 1 =? i then
          Ok (sliceFrom (sliceTo hostport (Z.to_nat e)) 1, 1, e + 1)
        else
          match sliceFrom hostport (Z.to_nat (e + 1)) with
          | String c _ => if Ascii.eqb c ":" then Err tooManyColons
                          else Err missingPort
          | EmptyString => Err missingPort
          end
      else
        let host := sliceTo hostport (Z.to_nat i) in
        if 0 <=? IndexByte host ":" then Err tooManyColons
        else Ok (host, 0, 0) in
    match r with
    | inl e => Err e
    | inr (host, j, k) =>
        if 0 <=? IndexByte (sliceFrom hostport (Z.to_nat j)) "["
        then Err unexpectedOpen
        else if 0 <=? IndexByte (sliceFrom hostport (Z.to_nat k)) "]"
        then Err unexpectedClose
        else Ok (host, sliceFrom hostport (Z.to_nat (i + 1)))
    end.

End net.

(** ** zerolog levels *)

Module zerolog.

Inductive Level : Type :=
| DebugLevel | InfoLevel | WarnLevel | ErrorLevel | FatalLevel | PanicLevel
| NoLevel | Disabled | TraceLevel.

(** [Level.String()] *)
Definition String_ (l : Level) : string :=
  match l with
  | TraceLevel => "trace"
  | DebugLevel => "debug"
  | InfoLevel => "info"
  | WarnLevel => "warn"
  | ErrorLevel => "error"
  | FatalLevel => "fatal"
  | PanicLevel => "panic"
  | NoLevel => ""
  | Disabled => ""
  end.

(** [zerolog.ParseLevel(levelStr)] (rs/zerolog, log.go): a switch over
    the names [LevelFieldMarshalFunc], which is [Level.String] unless
    overridden, gives to the levels from trace to panic and to
    [NoLevel]; anything else is an error.  (Later releases of the
    library also read the name of [Disabled] and numbers, which no line
    of the child carries.) *)
Definition ParseLevel (levelStr : string) : result string Level :=
  if String.eqb levelStr (String_ TraceLevel) then Ok TraceLevel
  else if String.eqb levelStr (String_ DebugLevel) then Ok DebugLevel
  else if String.eqb levelStr (String_ InfoLevel) then Ok InfoLevel
  else if String.eqb levelStr (String_ WarnLevel) then Ok WarnLevel
  else if String.eqb levelStr (String_ ErrorLevel) then Ok ErrorLevel
  else if String.eqb levelStr (String_ FatalLevel) then Ok FatalLevel
  else if String.eqb levelStr (String_ PanicLevel) then Ok PanicLevel
  else if String.eqb levelStr (String_ NoLevel) then Ok NoLevel
  else Err ("Unknown Level String: '" ++ levelStr ++ "', defaulting to NoLevel")%string.

End zerolog.

(** ** The log relay *)

Module LogRelay.

(** *** [fileNameAndNumberRE]

    The pattern is, in order: start of text; group 1, made of an opening
    bracket, one or more bytes of the bracket expression a-zA-Z0-9/-_. ,
    a colon, one or more digits and a closing bracket; one white-space
    byte; group 2, any bytes but a newline, up to the end of text.  It is
    matched the way Go's regexp does: leftmost, greedy repetitions
    first, backtracking into shorter ones. *)

(** The bracket expression: the ranges a-z, A-Z, 0-9 and /-_ (from the
    slash to the underscore), and the dot. *)
Definition inClass (c : ascii) : bool :=
  let b := byte c in
  ((byte "a" <=? b) && (b <=? byte "z"))
  || ((byte "A" <=? b) && (b <=? byte "Z"))
  || ((byte "0" <=? b) && (b <=? byte "9"))
  || ((byte "/" <=? b) && (b <=? byte "_"))
  || Ascii.eqb c ".".

(** The white-space class: tab, newline, form feed, carriage return,
    space *)
Definition isSpace (c : ascii) : bool :=
  let b := byte c in
  (b =? 9) || (b =? 10) || (b =? 12) || (b =? 13) || (b =? 32).

(** The pattern from inside the digits on, a first digit being read:
    more digits, the closing bracket, the white-space byte and group 2.
    Returns the rest of group 1 and group 2. *)
Fixpoint reDigits (s : string) : option (string * string) :=
  match s with
  | EmptyString => None
  | String c t =>
      if strconv.isDigit c then
        match reDigits t with
        | Some (g1, g2) => Some (String c g1, g2)
        | None => None
        end
      else if Ascii.eqb c "]" then
        match t with
        | String w r =>
            if isSpace w && negb (containsByte r LF)
            then Some ("]", r) else None
        | EmptyString => None
        end
      else None
  end.

(** The pattern from the colon on. *)
Definition reColon (s : string) : option (string * string) :=
  match s with
  | String c (String d t) =>
      if Ascii.eqb c ":" && strconv.isDigit d then
        match reDigits t with
        | Some (g1, g2) => Some (String c (String d g1), g2)
        | None => None
        end
      else None
  | _ => None
  end.

(** The pattern from inside the bracket expression on, a first class
    byte being read: one more class byte first, the colon when that
    fails. *)
Fixpoint reClass (s : string) : option (string * string) :=
  match s with
  | EmptyString => None
  | String c t =>
      if inClass c then
        match reClass t with
        | Some (g1, g2) => Some (String c g1, g2)
        | None => reColon s
        end
      else reColon s
  end.

(** [fileNameAndNumberRE.FindStringSubmatch(s)]: groups 1 and 2 *)
Definition fileNameAndNumberRE (s : string) : option (string * string) :=
  match s with
  | String o (String c t) =>
      if Ascii.eqb o "[" && inClass c then
        match reClass t with
        | Some (g1, g2) => Some (String o (String c g1), g2)
        | None => None
        end
      else None
  | _ => None
  end.

(** [fileNameAndNumberRE.ReplaceAllString] with the template made of
    group 2 between two double quotes: the pattern is anchored at both
    ends, so the one match, if any, is the whole string. *)
Definition ReplaceAllString (msg : string) : string :=
  match fileNameAndNumberRE msg with
  | Some (_, g2) => (str1 dquote ++ g2 ++ str1 dquote)%string
  | None => msg
  end.

(** *** [parseLog] *)

(** [(name, logLevel, msg)]; the three are empty unless the line has the
    shape [[LOG_FORMAT]level--name--message]. *)
Definition parseLog (line : string) : string * string * string :=
  match strings.SplitN line "--" 3 with
  | [p0; p1; p2] => (p1, strings.TrimPrefix p0 "[LOG_FORMAT]", p2)
  | _ => ("", "", "")
  end.

(** *** [handleLogs] *)

(** What [log.WithLevel(lvl)] emits with its service and name fields
    and its message. *)
Record LogRecord : Type := mkLogRecord {
  level : zerolog.Level;
  service : string;
  name : string;
  message : string
}.

(** The body of the loop for one line [ln], already trimmed: the record
    it emits, or [None] when the message is empty. *)
Definition handleLine (ln : string) : option LogRecord :=
  let '(name, logLevel, msg) := parseLog ln in
  let name := if String.eqb name "" then "envoy" else name in
  let lvl := match zerolog.ParseLevel logLevel with
             | inr x => x
             | inl _ => zerolog.DebugLevel
             end in
  let msg := if String.eqb msg "" then ln else msg in
  let msg := ReplaceAllString msg in
  let msg := match strconv.Unquote msg with
             | inr s => s
             | inl _ => msg
             end in
  (* ignore empty messages *)
  if String.eqb msg "" then None
  else Some (mkLogRecord lvl "envoy" name msg).

(** One call of [s.ReadString] up to a newline on the child's stream. *)
Inductive Read : Type :=
| ReadLine (ln : string)      (* data up to and including the newline *)
| ReadEOF (partial : string)  (* io.EOF, with the unterminated rest *)
| ReadClosed                  (* os.ErrClosed *)
| ReadFailed (err : string).  (* any other error *)

Inductive Output : Type :=
| Emit (r : LogRecord)
| FailedToRead (err : string)   (* the error log: failed to read log *)
| Sleep.                        (* time.Sleep(bo.NextBackOff()) *)

(** [handleLogs] over the successive results of [ReadString]; the loop
    ends at end of stream, and with the reads when they run out. *)
Fixpoint handleLogs (reads : list Read) : list Output :=
  match reads with
  | [] => []
  | ReadEOF _ :: _ => []
  | ReadClosed :: _ => []
  | ReadFailed err :: rest => FailedToRead err :: Sleep :: handleLogs rest
  | ReadLine ln :: rest =>
      let ln := strings.TrimRight ln (String CR (str1 LF)) in
      match handleLine ln with
      | Some r => Emit r :: handleLogs rest
      | None => handleLogs rest
      end
  end.

End LogRelay.

(** ** The data model *)

(** *** Configuration *)

(** [config.Options], declared outside this file: the fields [update] and
    [buildBootstrapConfig] read, and the tracing keys, which only
    [config.NewTracingOptions] reads. *)
Record Options : Type := mkOptions {
  Services : string;
  ProxyLogLevel : string;
  LogLevel : string;
  EnvoyAdminAddress : string;
  EnvoyAdminAccessLogPath : string;
  EnvoyAdminProfilePath : string;
  TracingKeys : list (string * string)
}.

(** [config.Config]: a snapshot handed over by the configuration source *)
Record Config : Type := mkConfig { Options_ : Options }.

(** [trace.TracingOptions], declared outside this file: the two fields
    this file reads, and the others, which it only compares. *)
Record TracingOptions : Type := mkTracingOptions {
  Provider : string;
  DatadogAddress : string;
  OtherTracing : list (string * string)
}.

Record serverOptions : Type := mkServerOptions {
  services : string;
  logLevel : string;
  tracingOptions : TracingOptions
}.

Definition pair_eqb (a b : string * string) : bool :=
  String.eqb (fst a) (fst b) && String.eqb (snd a) (snd b).

Fixpoint list_eqb {A : Type} (eqb : A -> A -> bool) (l1 l2 : list A) : bool :=
  match l1, l2 with
  | [], [] => true
  | a :: l1', b :: l2' => eqb a b && list_eqb eqb l1' l2'
  | _, _ => false
  end.

Definition TracingOptions_eqb (a b : TracingOptions) : bool :=
  String.eqb (Provider a) (Provider b)
  && String.eqb (DatadogAddress a) (DatadogAddress b)
  && list_eqb pair_eqb (OtherTracing a) (OtherTracing b).

(** [cmp.Equal(x, y, cmp.AllowUnexported(serverOptions{}))]: the two
    structs are compared field by field. *)
Definition cmp_Equal (x y : serverOptions) : bool :=
  String.eqb (services x) (services y)
  && String.eqb (logLevel x) (logLevel y)
  && TracingOptions_eqb (tracingOptions x) (tracingOptions y).

(** *** The bootstrap document (envoy's v3 API) *)

Record SocketAddress : Type := mkSocketAddress {
  sa_Address : string;
  sa_PortValue : Z                      (* uint32 *)
}.

Inductive Address : Type :=
| Address_SocketAddress (a : SocketAddress)
| Address_Pipe (path : string).

Record Node : Type := mkNode { Id : string; Cluster_ : string }.

Record Admin : Type := mkAdmin {
  AccessLogPath : string;
  ProfilePath : string;
  Address_ : Address
}.

Inductive ApiType : Type := DELTA_GRPC.
Inductive ApiVersion : Type := ApiVersion_V3.
Inductive GrpcService : Type := EnvoyGrpc (ClusterName : string).
Inductive ConfigSourceSpecifier : Type := ConfigSource_Ads.

Record ApiConfigSource : Type := mkApiConfigSource {
  ApiType_ : ApiType;
  TransportApiVersion : ApiVersion;
  GrpcServices : list GrpcService
}.

Record ConfigSource : Type := mkConfigSource {
  ResourceApiVersion : ApiVersion;
  ConfigSourceSpecifier_ : ConfigSourceSpecifier
}.

Record DynamicResources : Type := mkDynamicResources {
  AdsConfig : ApiConfigSource;
  LdsConfig : ConfigSource;
  CdsConfig : ConfigSource
}.

Record LbEndpoint : Type := mkLbEndpoint { Endpoint_Address : Address }.

Record LocalityLbEndpoints : Type := mkLocalityLbEndpoints {
  LbEndpoints : list LbEndpoint
}.

Record ClusterLoadAssignment : Type := mkClusterLoadAssignment {
  cla_ClusterName : string;
  Endpoints : list LocalityLbEndpoints
}.

Inductive DiscoveryType : Type := Cluster_STATIC.
Inductive LbPolicy : Type := Cluster_ROUND_ROBIN.

Record Cluster : Type := mkCluster {
  Name : string;
  ConnectTimeoutSeconds : Z;
  ClusterDiscoveryType : DiscoveryType;
  LbPolicy_ : LbPolicy;
  LoadAssignment : ClusterLoadAssignment;
  Http2ProtocolOptions : bool           (* set to an empty message, or unset *)
}.

Record StaticResources : Type := mkStaticResources {
  Clusters : list Cluster
}.

Record TagSpecifier : Type := mkTagSpecifier {
  TagName : string;
  FixedValue : string
}.

Record StatsConfig : Type := mkStatsConfig { StatsTags : list TagSpecifier }.

Record Bootstrap : Type := mkBootstrap {
  Node_ : Node;
  Admin_ : Admin;
  DynamicResources_ : DynamicResources;
  StaticResources_ : StaticResources;
  StatsConfig_ : StatsConfig
}.

(** *** The server *)

Record Process : Type := mkProcess { Pid : Z }.

(** [exec.Cmd]: [Process] is set by a successful [Start]. *)
Record Cmd : Type := mkCmd {
  Path : string;
  Args : list string;
  Dir : string;
  SysProcAttr : string;
  Process_ : option Process
}.

Record Server : Type := mkServer {
  wd : string;
  cmd : option Cmd;
  grpcPort : string;
  httpPort : string;
  envoyPath : string;
  restartEpoch : Z;                     (* int *)
  options : serverOptions
}.

Definition workingDirectoryName : string := ".pomerium-envoy".
Definition configFileName : string := "envoy-config.yaml".

(** The wrap-around of an [int] computation *)
Definition int64 (z : Z) : Z := (z + 2 ^ 63) mod 2 ^ 64 - 2 ^ 63.

(** [uint32(x)] *)
Definition uint32 (z : Z) : Z := z mod 2 ^ 32.

(** ** What this file takes from the rest of the program

    Functions, constants and variables the file uses and that are declared
    in other files or modules. *)
Class External : Type := mkExternal {
  (** [config.NewTracingOptions(cfg.Options)] *)
  NewTracingOptions : Options -> result string TracingOptions;
  (** [trace.DatadogTracingProviderName] *)
  DatadogTracingProviderName : string;
  (** [firstNonEmpty(args...)] *)
  firstNonEmpty : list string -> string;
  (** [ParseAddress(raw)] *)
  ParseAddress : string -> result string Address;
  (** [telemetry.ServiceName(services)] *)
  ServiceName : string -> string;
  (** [protojson.Marshal] of the bootstrap message *)
  Marshal : Bootstrap -> result string string;
  (** [baseIDPath] *)
  baseIDPath : string;
  (** [sysProcAttr] *)
  sysProcAttr : string;
  (** [Checksum], written at build time *)
  Checksum : string
}.

(** ** The bootstrap builder *)

Section Builder.

Context {X : External}.

Inductive BuildError : Type :=
| AdminAddressError (e : string)                  (* from ParseAddress *)
| InvalidControlPlanePort (e : strconv.NumErr)    (* invalid control plane port *)
| MarshalError (e : string).                      (* from protojson.Marshal *)

Definition nodeCfg : Node := mkNode "proxy" "proxy".

Definition dynamicCfg : DynamicResources :=
  mkDynamicResources
    (mkApiConfigSource DELTA_GRPC ApiVersion_V3
       [EnvoyGrpc "pomerium-control-plane-grpc"])
    (mkConfigSource ApiVersion_V3 ConfigSource_Ads)
    (mkConfigSource ApiVersion_V3 ConfigSource_Ads).

Definition staticCluster (name : string) (a : SocketAddress) (http2 : bool)
  : Cluster :=
  mkCluster name 5 Cluster_STATIC Cluster_ROUND_ROBIN
    (mkClusterLoadAssignment name
       [mkLocalityLbEndpoints [mkLbEndpoint (Address_SocketAddress a)]])
    http2.

Definition controlPlaneCluster (controlPlanePort : Z) : Cluster :=
  staticCluster "pomerium-control-plane-grpc"
    (mkSocketAddress "127.0.0.1" (uint32 controlPlanePort)) true.

(** The address of the Datadog collector: the default, then what the
    override of the tracing options changes in it. *)
Definition datadogAddr (DatadogAddress : string) : SocketAddress :=
  let addr := mkSocketAddress "127.0.0.1" 8126 in
  if negb (String.eqb DatadogAddress "") then
    match net.SplitHostPort DatadogAddress with
    | inr (a, p) =>
        let addr := mkSocketAddress a (sa_PortValue addr) in
        match strconv.ParseUint p 32 with
        | inr pv => mkSocketAddress (sa_Address addr) (uint32 pv)
        | inl _ => addr
        end
    | inl _ => addr
    end
  else addr.

Definition datadogCluster (DatadogAddress : string) : Cluster :=
  staticCluster "datadog-apm" (datadogAddr DatadogAddress) false.

Definition buildStatsConfig (srv : Server) : StatsConfig :=
  mkStatsConfig [mkTagSpecifier "service" (ServiceName (services (options srv)))].

(** [buildBootstrapConfig] up to the message [bcfg] it marshals. *)
Definition bootstrap (srv : Server) (cfg : Config) : result BuildError Bootstrap :=
  match ParseAddress (EnvoyAdminAddress (Options_ cfg)) with
  | inl e => Err (AdminAddressError e)
  | inr adminAddr =>
      let adminCfg := mkAdmin (EnvoyAdminAccessLogPath (Options_ cfg))
                              (EnvoyAdminProfilePath (Options_ cfg)) adminAddr in
      match strconv.Atoi (grpcPort srv) with
      | inl e => Err (InvalidControlPlanePort e)
      | inr controlPlanePort =>
          let staticCfg := [controlPlaneCluster controlPlanePort] in
          let staticCfg :=
            if String.eqb (Provider (tracingOptions (options srv)))
                          DatadogTracingProviderName
            then (staticCfg
                  ++ [datadogCluster (DatadogAddress (tracingOptions (options srv)))])%list
            else staticCfg in
          Ok (mkBootstrap nodeCfg adminCfg dynamicCfg
                (mkStaticResources staticCfg) (buildStatsConfig srv))
      end
  end.

Definition buildBootstrapConfig (srv : Server) (cfg : Config)
  : result BuildError string :=
  match bootstrap srv cfg with
  | inl e => Err e
  | inr bcfg =>
      match Marshal bcfg with
      | inl e => Err (MarshalError e)
      | inr jsonBytes => Ok jsonBytes
      end
  end.

End Builder.

(** ** crypto/sha256 and encoding/hex *)

Module sha256.

Definition K : list Z :=
  [1116352408; 1899447441; 3049323471; 3921009573; 961987163; 1508970993;
   2453635748; 2870763221; 3624381080; 310598401; 607225278; 1426881987;
   1925078388; 2162078206; 2614888103; 3248222580; 3835390401; 4022224774;
   264347078; 604807628; 770255983; 1249150122; 1555081692; 1996064986;
   2554220882; 2821834349; 2952996808; 3210313671; 3336571891; 3584528711;
   113926993; 338241895; 666307205; 773529912; 1294757372; 1396182291;
   1695183700; 1986661051; 2177026350; 2456956037; 2730485921; 2820302411;
   3259730800; 3345764771; 3516065817; 3600352804; 4094571909; 275423344;
   430227734; 506948616; 659060556; 883997877; 958139571; 1322822218;
   1537002063; 1747873779; 1955562222; 2024104815; 2227730452; 2361852424;
   2428436474; 2756734187; 3204031479; 3329325298].

Definition init : list Z :=
  [1779033703; 3144134277; 1013904242; 2773480762;
   1359893119; 2600822924; 528734635; 1541459225].

Definition w32 (z : Z) : Z := z mod 2 ^ 32.

(** [bits.RotateLeft32(x, -n)] *)
Definition rotr (x n : Z) : Z :=
  w32 (Z.lor (Z.shiftr x n) (Z.shiftl x (32 - n))).

Fixpoint bytesOf (s : string) : list Z :=
  match s with
  | EmptyString => []
  | String c t => byte c :: bytesOf t
  end.

(** The padding [checkSum] writes: a 0x80 byte, zeros up to 56 modulo 64,
    and the length in bits as a big-endian uint64. *)
Definition padded (msg : list Z) : list Z :=
  let l := Z.of_nat (List.length msg) in
  let zeros := Z.to_nat ((55 - l) mod 64) in
  let bits := (l * 8) mod 2 ^ 64 in
  (msg ++ 128 :: List.repeat 0 zeros
       ++ List.map (fun i => Z.shiftr bits (8 * (7 - Z.of_nat i)) mod 256)
                   (List.seq 0 8))%list.

(** A big-endian word from four bytes *)
Definition be32 (a b c d : Z) : Z :=
  Z.lor (Z.lor (Z.shiftl a 24) (Z.shiftl b 16)) (Z.lor (Z.shiftl c 8) d).

Fixpoint words (n : nat) (bs : list Z) : list Z :=
  match n, bs with
  | S n', a :: b :: c :: d :: rest => be32 a b c d :: words n' rest
  | _, _ => []
  end.

(** The message schedule, most recent word first: [rev] holds
    [w[t-1], w[t-2], ...]. *)
Fixpoint schedule (n : nat) (rev : list Z) : list Z :=
  match n with
  | O => rev
  | S n' =>
      let v1 := List.nth 1 rev 0 in
      let v2 := List.nth 14 rev 0 in
      let t1 := Z.lxor (Z.lxor (rotr v1 17) (rotr v1 19)) (Z.shiftr v1 10) in
      let t2 := Z.lxor (Z.lxor (rotr v2 7) (rotr v2 18)) (Z.shiftr v2 3) in
      schedule n'
        (w32 (t1 + List.nth 6 rev 0 + t2 + List.nth 15 rev 0) :: rev)
  end.

Definition round (st : list Z) (kw : Z * Z) : list Z :=
  match st with
  | [a; b; c; d; e; f; g; h] =>
      let t1 := h + Z.lxor (Z.lxor (rotr e 6) (rotr e 11)) (rotr e 25)
                + Z.lxor (Z.land e f) (Z.land (Z.lxor e (2 ^ 32 - 1)) g)
                + fst kw + snd kw in
      let t2 := Z.lxor (Z.lxor (rotr a 2) (rotr a 13)) (rotr a 22)
                + Z.lxor (Z.lxor (Z.land a b) (Z.land a c)) (Z.land b c) in
      [w32 (t1 + t2); a; b; c; w32 (d + t1); e; f; g]
  | _ => st
  end.

(** [block] on one 64-byte chunk *)
Definition block (h : list Z) (chunk : list Z) : list Z :=
  let w := List.rev (schedule 48 (List.rev (words 16 chunk))) in
  let st := List.fold_left round (List.combine K w) h in
  List.map (fun p => w32 (fst p + snd p)) (List.combine h st).

Fixpoint blocks (n : nat) (h : list Z) (bs : list Z) : list Z :=
  match n with
  | O => h
  | S n' => blocks n' (block h (List.firstn 64 bs)) (List.skipn 64 bs)
  end.

(** [h := sha256.New(); h.Write(bs); h.Sum(nil)]: the 32 bytes of the
    digest *)
Definition Sum (bs : string) : list Z :=
  let p := padded (bytesOf bs) in
  let h := blocks (List.length p / 64) init p in
  List.flat_map (fun x => [Z.shiftr x 24 mod 256; Z.shiftr x 16 mod 256;
                           Z.shiftr x 8 mod 256; x mod 256]) h.

End sha256.

Module hex.

Definition hextable : string := "0123456789abcdef".

Definition digit (z : Z) : ascii :=
  match String.get (Z.to_nat z) hextable with
  | Some c => c
  | None => "0"%char
  end.

(** [hex.EncodeToString(src)] *)
Fixpoint EncodeToString (src : list Z) : string :=
  match src with
  | [] => EmptyString
  | v :: rest =>
      String (digit (Z.shiftr v 4)) (String (digit (Z.land v 15))
                                            (EncodeToString rest))
  end.

End hex.

(** ** The supervisor

    [update] and [Close] hold [srv.mu] from beginning to end, so the calls
    on one server follow one another; each is a function from the server
    before the call to the server after it and the events of the call.
    The log events keep the level and the message of a log line. *)

(** Go's [error] values are kept as their messages. *)
Definition error : Type := string.

(** What the server does to the world around it, in the order it does it. *)
Inductive Event : Type :=
| Log (lvl : zerolog.Level) (msg : string)
| MkdirAll (path : string) (err : option error)
| ExtractEmbeddedEnvoy (r : result error string)
| LookPath (file : string) (r : result error string)
| ReadFile (path : string) (r : result error string)
| GoRunProcessCollector
| OnConfigChange                        (* the callback is registered *)
| WriteFile (path : string) (data : string) (err : option error)
| ReadBaseID (r : option Z)
| Command (name : string) (args : list string)
| StderrPipe (err : option error)
| StdoutPipe (err : option error)
| GoHandleLogs
| Start (c : Cmd) (r : result error Process)
| Release (p : Process) (err : option error)
| Kill (p : Process) (err : option error).

(** The answers of the operating system to one call of [run]. *)
Record RunOS : Type := mkRunOS {
  os_readBaseID : option Z;             (* readBaseID() *)
  os_CommandLookPath : result error string;
                                        (* exec.LookPath, when exec.Command
                                           calls it *)
  os_StderrPipe : option error;
  os_StdoutPipe : option error;
  os_Start : result error Process;      (* cmd.Start(), whatever makes it
                                           fail, a failed lookup included *)
  os_Release : option error
}.

(** ... to one call of [update] *)
Record UpdateOS : Type := mkUpdateOS {
  os_WriteFile : option error;          (* atomic.WriteFile *)
  os_run : RunOS
}.

(** ... to one call of [Close] *)
Record CloseOS : Type := mkCloseOS { os_Kill : option error }.

(** ... and to [NewServer] *)
Record NewServerOS : Type := mkNewServerOS {
  os_TempDir : string;
  os_MkdirAll : option error;
  os_extractEmbeddedEnvoy : result error string;
  os_LookPath : string -> result error string;
  os_ReadFile : string -> result error string;
  os_update : UpdateOS
}.

(** [filepath.Join(dir, name)] for two clean, non-empty elements *)
Definition filepath_Join (dir name : string) : string :=
  (dir ++ "/" ++ name)%string.

(** What follows the last slash of [s], and [s] when it holds none *)
Fixpoint lastElement (s : string) : string :=
  match s with
  | EmptyString => EmptyString
  | String c t =>
      if containsByte t "/" then lastElement t
      else if Ascii.eqb c "/" then t else s
  end.

(** [filepath.Base(path)], the separator being the slash *)
Definition filepath_Base (path : string) : string :=
  if String.eqb path "" then "."
  else
    (* strip trailing slashes *)
    let path := strings.TrimRight path "/" in
    (* find the last element *)
    let path := lastElement path in
    (* if empty now, it had only slashes *)
    if String.eqb path "" then "/" else path.

(** [exec.Command(name, arg...)] (Go 1.16): [Args] holds the name, then
    the arguments; [Path] is the name, and what [exec.LookPath] finds for
    it when the name has no directory part and the lookup succeeds.  When
    the lookup fails its error is kept in the command for [cmd.Start] to
    return. *)
Definition exec_Command (lookPath : result error string) (name : string)
  (arg : list string) : Cmd :=
  let path :=
    if String.eqb (filepath_Base name) name then
      match lookPath with
      | inl _ => name                   (* cmd.lookPathErr = err *)
      | inr lp => lp                    (* cmd.Path = lp *)
      end
    else name in
  mkCmd path (name :: arg) "" "" None.

Section Supervisor.

Context {X : External}.

Definition set_cmd (srv : Server) (c : option Cmd) : Server :=
  mkServer (wd srv) c (grpcPort srv) (httpPort srv) (envoyPath srv)
           (restartEpoch srv) (options srv).

Definition set_restartEpoch (srv : Server) (e : Z) : Server :=
  mkServer (wd srv) (cmd srv) (grpcPort srv) (httpPort srv) (envoyPath srv)
           e (options srv).

Definition set_options (srv : Server) (o : serverOptions) : Server :=
  mkServer (wd srv) (cmd srv) (grpcPort srv) (httpPort srv) (envoyPath srv)
           (restartEpoch srv) o.

(** The arguments [run] builds, and the server with its epoch advanced
    when a base id was read. *)
Definition runArgs (srv : Server) (baseID : option Z) : list string * Server :=
  let args := ["-c"; configFileName;
               "--log-level"; logLevel (options srv);
               "--log-format"; "[LOG_FORMAT]%l--%n--%v";
               "--log-format-escaped"] in
  match baseID with
  | Some baseID =>
      ((args ++ ["--base-id"; strconv.Itoa baseID;
                 "--restart-epoch"; strconv.Itoa (restartEpoch srv)])%list,
       set_restartEpoch srv (int64 (restartEpoch srv + 1)))
  | None =>
      ((args ++ ["--use-dynamic-base-id"; "--base-id-path"; baseIDPath])%list,
       srv)
  end.

(** The release of the previous process, when there is one. *)
Definition releasePrevious (srv : Server) (os : RunOS) : list Event :=
  match cmd srv with
  | Some old =>
      match Process_ old with
      | Some p =>
          [Log zerolog.InfoLevel "envoy: releasing envoy process for hot-reload";
           Release p (os_Release os)]
          ++ match os_Release os with
             | Some _ => [Log zerolog.WarnLevel
                            "envoy: failed to release envoy process for hot-reload"]
             | None => []
             end
      | None => []
      end
  | None => []
  end%list.

(** [srv.run()]: the server afterwards, the error returned, the events. *)
Definition run (srv : Server) (os : RunOS)
  : Server * option error * list Event :=
  let '(args, srv) := runArgs srv (os_readBaseID os) in
  let c := exec_Command (os_CommandLookPath os) (envoyPath srv) args in
  let c := mkCmd (Path c) (Args c) (wd srv) (SysProcAttr c) (Process_ c) in
  let t := [ReadBaseID (os_readBaseID os); Command (envoyPath srv) args] in
  match os_StderrPipe os with
  | Some err =>
      (srv, Some ("error creating stderr pipe for envoy: " ++ err)%string,
       t ++ [StderrPipe (Some err)])%list
  | None =>
      let t := (t ++ [StderrPipe None; GoHandleLogs])%list in
      match os_StdoutPipe os with
      | Some err =>
          (srv, Some ("error creating stderr pipe for envoy: " ++ err)%string,
           t ++ [StdoutPipe (Some err)])%list
      | None =>
          let t := (t ++ [StdoutPipe None; GoHandleLogs])%list in
          (* make sure envoy is killed if we're killed *)
          let c := mkCmd (Path c) (Args c) (Dir c) sysProcAttr None in
          match os_Start os with
          | inl err =>
              (srv, Some ("error starting envoy: " ++ err)%string,
               t ++ [Start c (Err err)])%list
          | inr p =>
              (* release the previous process so we can hot-reload *)
              (set_cmd srv
                 (Some (mkCmd (Path c) (Args c) (Dir c) (SysProcAttr c) (Some p))),
               None,
               t ++ [Start c (Ok p)] ++ releasePrevious srv os)%list
          end
      end
  end.

(** [srv.writeConfig(cfg)] *)
Definition writeConfig (srv : Server) (cfg : Config) (os : UpdateOS)
  : option BuildError * option error * list Event :=
  match buildBootstrapConfig srv cfg with
  | inl e => (Some e, None, [])
  | inr confBytes =>
      let cfgPath := filepath_Join (wd srv) configFileName in
      (None, os_WriteFile os,
       [Log zerolog.DebugLevel "wrote config file to location";
        WriteFile cfgPath confBytes (os_WriteFile os)])
  end.

(** The projection of a configuration snapshot [update] computes. *)
Definition serverOptionsOf (cfg : Config) : result error serverOptions :=
  match NewTracingOptions (Options_ cfg) with
  | inl err => Err err
  | inr tracingOptions =>
      Ok (mkServerOptions
            (Services (Options_ cfg))
            (firstNonEmpty [ProxyLogLevel (Options_ cfg);
                            LogLevel (Options_ cfg); "debug"])
            tracingOptions)
  end.

(** [srv.update(cfg)], which is all [onConfigChange] does. *)
Definition update (srv : Server) (cfg : Config) (os : UpdateOS)
  : Server * list Event :=
  match serverOptionsOf cfg with
  | inl _ => (srv, [Log zerolog.ErrorLevel "invalid tracing config"])
  | inr options_ =>
      if cmp_Equal (options srv) options_
      then (srv, [Log zerolog.DebugLevel "envoy: no config changes detected"])
      else
        let srv := set_options srv options_ in
        match writeConfig srv cfg os with
        | (None, None, t) =>
            let t := (t ++ [Log zerolog.InfoLevel "envoy: starting envoy process"])%list in
            match run srv (os_run os) with
            | (srv, Some _, t') =>
                (srv, t ++ t' ++ [Log zerolog.ErrorLevel
                                    "envoy: failed to run envoy process"])%list
            | (srv, None, t') => (srv, t ++ t')%list
            end
        | (_, _, t) =>
            (srv, t ++ [Log zerolog.ErrorLevel
                          "envoy: failed to write envoy config"])%list
        end
  end.

Definition onConfigChange := update.

(** [srv.Close()] *)
Definition Close (srv : Server) (os : CloseOS)
  : Server * option error * list Event :=
  match cmd srv with
  | Some c =>
      match Process_ c with
      | Some p =>
          (set_cmd srv None, os_Kill os,
           Kill p (os_Kill os)
           :: match os_Kill os with
              | Some _ => [Log zerolog.ErrorLevel
                             "envoy: failed to kill process on close"]
              | None => []
              end)
      | None => (srv, None, [])
      end
  | None => (srv, None, [])
  end.

(** [NewServer(src, grpcPort, httpPort)], with [cfg] the configuration
    [src.GetConfig()] returns. *)
Definition NewServer (os : NewServerOS) (cfg : Config) (grpcPort httpPort : string)
  : result error Server * list Event :=
  let wd := filepath_Join (os_TempDir os) workingDirectoryName in
  let t := [MkdirAll wd (os_MkdirAll os)] in
  match os_MkdirAll os with
  | Some err =>
      (Err ("error creating temporary working directory for envoy: " ++ err)%string, t)
  | None =>
      let t := (t ++ [ExtractEmbeddedEnvoy (os_extractEmbeddedEnvoy os)])%list in
      let '(envoyPath, t) :=
        match os_extractEmbeddedEnvoy os with
        | inr path => (path, t)
        | inl err => ("envoy", t ++ [Log zerolog.WarnLevel err])%list
        end in
      let t := (t ++ [LookPath envoyPath (os_LookPath os envoyPath)])%list in
      match os_LookPath os envoyPath with
      | inl err => (Err ("no envoy binary found: " ++ err)%string, t)
      | inr fullEnvoyPath =>
          (* Checksum is written at build time, if it's not empty we verify
             the binary *)
          let verified : result error unit * list Event :=
            if negb (String.eqb Checksum "") then
              let t := (t ++ [ReadFile fullEnvoyPath
                                (os_ReadFile os fullEnvoyPath)])%list in
              match os_ReadFile os fullEnvoyPath with
              | inl err =>
                  (Err ("error reading envoy binary for checksum verification: "
                        ++ err)%string, t)
              | inr bs =>
                  let s := hex.EncodeToString (sha256.Sum bs) in
                  if negb (String.eqb Checksum s) then
                    (Err ("invalid envoy binary, expected " ++ Checksum
                          ++ " but got " ++ s)%string, t)
                  else (Ok tt, t)
              end
            else
              (Ok tt,
               t ++ [Log zerolog.InfoLevel
                       "no checksum defined, envoy binary will not be verified!"])%list
          in
          match verified with
          | (inl err, t) => (Err err, t)
          | (inr _, t) =>
              let srv := mkServer wd None grpcPort httpPort envoyPath 0
                           (mkServerOptions "" "" (mkTracingOptions "" "" [])) in
              let t := (t ++ [GoRunProcessCollector; OnConfigChange])%list in
              let '(srv, t') := onConfigChange srv cfg (os_update os) in
              (Ok srv, t ++ t' ++ [Log zerolog.InfoLevel "running envoy"])%list
          end
      end
  end.

(** What happens to a server once it is built: the configuration source
    calls the registered callback, the owner calls [Close]. *)
Inductive Op : Type :=
| ConfigChange (cfg : Config) (os : UpdateOS)
| CloseServer (os : CloseOS).

Definition step (srv : Server) (op : Op) : Server * list Event :=
  match op with
  | ConfigChange cfg os => onConfigChange srv cfg os
  | CloseServer os => let '(srv, _, t) := Close srv os in (srv, t)
  end.

Fixpoint serve (srv : Server) (ops : list Op) : Server * list Event :=
  match ops with
  | [] => (srv, [])
  | op :: rest =>
      let '(srv, t) := step srv op in
      let '(srv, t') := serve srv rest in
      (srv, t ++ t')%list
  end.

(** A whole lifetime: construction, then, if a server was built, the
    calls made on it. *)
Definition lifetime (os : NewServerOS) (cfg : Config) (grpcPort httpPort : string)
  (ops : list Op) : list Event :=
  match NewServer os cfg grpcPort httpPort with
  | (inl _, t) => t
  | (inr srv, t) => (t ++ snd (serve srv ops))%list
  end.

End Supervisor.

(** ** Observations on traces *)

Definition isRelease (e : Event) : bool :=
  match e with Release _ _ => true | _ => false end.

Definition isKill (e : Event) : bool :=
  match e with Kill _ _ => true | _ => false end.

(** a call of [cmd.Start()], whatever its outcome *)
Definition isStart (e : Event) : bool :=
  match e with Start _ _ => true | _ => false end.

Definition isWriteFile (e : Event) : bool :=
  match e with WriteFile _ _ _ => true | _ => false end.

Definition isErrorLog (e : Event) : bool :=
  match e with Log zerolog.ErrorLevel _ => true | _ => false end.

(** a step of [run] that failed *)
Definition isRunFailure (e : Event) : bool :=
  match e with
  | StderrPipe (Some _) | StdoutPipe (Some _) | Start _ (inl _) => true
  | _ => false
  end.

(** The number of calls of [cmd.Start()] in a trace *)
Definition spawns (t : list Event) : nat := List.length (List.filter isStart t).

(** The arguments that follow the seven common ones *)
Definition idArgs (args : list string) : list string := List.skipn 7 args.

(** The value of [--restart-epoch] in the arguments [run] builds. *)
Definition restartEpochArg (args : list string) : option string :=
  match idArgs args with
  | [_; _; flag; v] => if String.eqb flag "--restart-epoch" then Some v else None
  | _ => None
  end.

Definition optList {A : Type} (o : option A) : list A :=
  match o with Some a => [a] | None => [] end.

(** The epochs of the command lines built, in order *)
Definition epochsBuilt (t : list Event) : list string :=
  List.flat_map (fun e => match e with
                          | Command _ args => optList (restartEpochArg args)
                          | _ => []
                          end) t.

(** The epochs passed to the children that were started, in order *)
Definition epochsSpawned (t : list Event) : list string :=
  List.flat_map (fun e => match e with
                          | Start c (inr _) => optList (restartEpochArg (List.tl (Args c)))
                          | _ => []
                          end) t.

(** The number of runs in which a persisted base id was found *)
Definition baseIDRuns (t : list Event) : nat :=
  List.length (List.filter (fun e => match e with
                                     | ReadBaseID (Some _) => true
                                     | _ => false
                                     end) t).

(** The binary [NewServer] looks up *)
Definition resolvedName (os : NewServerOS) : string :=
  match os_extractEmbeddedEnvoy os with
  | inr path => path
  | inl _ => "envoy"
  end.

(** The port of the first endpoint of a cluster *)
Definition clusterAddress (c : Cluster) : option Address :=
  match Endpoints (LoadAssignment c) with
  | l :: _ => match LbEndpoints l with
              | e :: _ => Some (Endpoint_Address e)
              | [] => None
              end
  | [] => None
  end.

(** a process was started *)
Definition isStarted (e : Event) : bool :=
  match e with Start _ (inr _) => true | _ => false end.

Definition isReadFile (e : Event) : bool :=
  match e with ReadFile _ _ => true | _ => false end.

Definition logNoChecksum : Event :=
  Log zerolog.InfoLevel "no checksum defined, envoy binary will not be verified!".

(** The epochs [e], [e+1], ..., [e+m-1] as [strconv.Itoa] prints them *)
Definition epochStrings (e : Z) (m : nat) : list string :=
  List.map (fun k => strconv.Itoa (e + Z.of_nat k)) (List.seq 0 m).

(** What a trace that begins at epoch [e] and ends at epoch [e'] does with
    the epochs, when at most [n] runs happen in it: each run that finds a
    base id puts the next epoch on its command line, and the children
    started are given these epochs when no run fails. *)
Definition EpochsFrom (e : Z) (n : nat) (t : list Event) (e' : Z) : Prop :=
  (baseIDRuns t <= n)%nat
  /\ e' = e + Z.of_nat (baseIDRuns t)
  /\ epochsBuilt t = epochStrings e (baseIDRuns t)
  /\ (List.existsb isRunFailure t = false -> epochsSpawned t = epochsBuilt t).

(** A trace in which no run takes place *)
Definition Quiet (t : list Event) : Prop :=
  baseIDRuns t = 0%nat /\ epochsBuilt t = [] /\ epochsSpawned t = [].

(** The port of the control-plane endpoint, in the first static cluster *)
Definition controlPlanePortOf (b : Bootstrap) : option Z :=
  match Clusters (StaticResources_ b) with
  | c :: _ =>
      match clusterAddress c with
      | Some (Address_SocketAddress a) => Some (sa_PortValue a)
      | _ => None
      end
  | [] => None
  end.

(** The events [update] logs *)
Definition logWrote : Event :=
  Log zerolog.DebugLevel "wrote config file to location".
Definition logStarting : Event :=
  Log zerolog.InfoLevel "envoy: starting envoy process".
Definition logInvalidTracing : Event :=
  Log zerolog.ErrorLevel "invalid tracing config".
Definition logWriteFailed : Event :=
  Log zerolog.ErrorLevel "envoy: failed to write envoy config".
Definition logRunFailed : Event :=
  Log zerolog.ErrorLevel "envoy: failed to run envoy process".

Section UpdatePaths.

Context {X : External}.

(** The ways through [update]. *)
Inductive UpdatePath (srv : Server) (cfg : Config) (os : UpdateOS)
  : Server -> list Event -> Prop :=
| InvalidTracing : forall e,
    serverOptionsOf cfg = Err e ->
    UpdatePath srv cfg os srv [logInvalidTracing]
| NoChange : forall o,
    serverOptionsOf cfg = Ok o ->
    cmp_Equal (options srv) o = true ->
    UpdatePath srv cfg os srv
      [Log zerolog.DebugLevel "envoy: no config changes detected"]
| BuildFailed : forall o e,
    serverOptionsOf cfg = Ok o ->
    cmp_Equal (options srv) o = false ->
    buildBootstrapConfig (set_options srv o) cfg = Err e ->
    UpdatePath srv cfg os (set_options srv o) [logWriteFailed]
| WriteFailed : forall o confBytes e,
    serverOptionsOf cfg = Ok o ->
    cmp_Equal (options srv) o = false ->
    buildBootstrapConfig (set_options srv o) cfg = Ok confBytes ->
    os_WriteFile os = Some e ->
    UpdatePath srv cfg os (set_options srv o)
      [logWrote;
       WriteFile (filepath_Join (wd srv) configFileName) confBytes (Some e);
       logWriteFailed]
| Ran : forall o confBytes srv' err t,
    serverOptionsOf cfg = Ok o ->
    cmp_Equal (options srv) o = false ->
    buildBootstrapConfig (set_options srv o) cfg = Ok confBytes ->
    os_WriteFile os = None ->
    run (set_options srv o) (os_run os) = (srv', err, t) ->
    UpdatePath srv cfg os srv'
      ([logWrote;
        WriteFile (filepath_Join (wd srv) configFileName) confBytes None;
        logStarting]
         ++ t ++ match err with Some _ => [logRunFailed] | None => [] end).

End UpdatePaths.

(** ** Observations on log lines *)

Import LogRelay.

(** The message after the pattern replacement and the unquoting *)
Definition postProcess (msg : string) : string :=
  let msg := ReplaceAllString msg in
  match strconv.Unquote msg with
  | inr s => s
  | inl _ => msg
  end.

(** The level a level field is logged at *)
Definition levelOf (logLevel : string) : zerolog.Level :=
  match zerolog.ParseLevel logLevel with
  | inr x => x
  | inl _ => zerolog.DebugLevel
  end.

(** The message [handleLogs] ends up with for a line *)
Definition finalMessage (ln : string) : string :=
  let '(_, _, msg) := parseLog ln in
  postProcess (if String.eqb msg "" then ln else msg).

Definition q : string := str1 dquote.

(** ** A concrete environment

    One choice of the external functions and of the operating system's
    answers, on which the model is run.  The general properties below
    hold for every choice of the external functions; only the runs on
    concrete inputs use this one. *)
Module Sample.

Fixpoint lookup (k : string) (l : list (string * string)) : string :=
  match l with
  | [] => ""
  | (k', v) :: rest => if String.eqb k k' then v else lookup k rest
  end.

(** Modelled from the spec: [config.NewTracingOptions] belongs to package
    config, and the spec says of it only that invalid tracing options are
    a recoverable failure.  Here no provider and the Datadog provider are
    valid, with the address of the collector taken from the options, and
    any other provider is invalid. *)
Definition newTracingOptions (o : Options) : result string TracingOptions :=
  let provider := lookup "tracing_provider" (TracingKeys o) in
  if String.eqb provider "" then Ok (mkTracingOptions "" "" [])
  else if String.eqb provider "datadog" then
    Ok (mkTracingOptions provider (lookup "tracing_datadog_address" (TracingKeys o)) [])
  else Err ("config: provider " ++ provider ++ " unknown")%string.

(** Modelled from the spec: [firstNonEmpty] is declared in another file
    of the package; it gives the log verbosity of the projection, the
    first of its arguments that is not empty. *)
Fixpoint firstNonEmpty (args : list string) : string :=
  match args with
  | [] => ""
  | a :: rest => if String.eqb a "" then firstNonEmpty rest else a
  end.

(** Modelled from the spec: [ParseAddress] is declared in another file of
    the package; a malformed admin address is a hard error.  Here an address is a host
    and a numeric port. *)
Definition parseAddress (raw : string) : result string Address :=
  match net.SplitHostPort raw with
  | inr (host, portstr) =>
      match strconv.Atoi portstr with
      | inr port => Ok (Address_SocketAddress (mkSocketAddress host (uint32 port)))
      | inl _ => Err ("unknown address format: " ++ raw)%string
      end
  | inl _ => Err ("unknown address format: " ++ raw)%string
  end.

(** Modelled from the spec: [protojson.Marshal] renders the document; only
    the names of the static clusters are rendered here. *)
Definition marshal (b : Bootstrap) : result string string :=
  Ok (String.concat "," (List.map Name (Clusters (StaticResources_ b)))).

(** The external functions for a build with the given [Checksum];
    [telemetry.ServiceName] is the identity here. *)
Definition ext (checksum : string) : External :=
  mkExternal newTracingOptions "datadog" firstNonEmpty parseAddress
    (fun s => s) marshal "/tmp/envoy-base-id" "pdeathsig" checksum.

Definition opts (logLevel : string) (tracing : list (string * string)) : Options :=
  mkOptions "all" "" logLevel "127.0.0.1:9901" "/tmp/admin_access.log"
    "/dev/null" tracing.

Definition cfgInfo : Config := mkConfig (opts "info" []).
Definition cfgWarn : Config := mkConfig (opts "warn" []).
Definition cfgBadTracing : Config :=
  mkConfig (opts "warn" [("tracing_provider", "nope")]).
Definition cfgBadAdmin : Config :=
  mkConfig (mkOptions "all" "" "warn" "nowhere" "" "" []).

Definition optionsInfo : serverOptions :=
  mkServerOptions "all" "info" (mkTracingOptions "" "" []).

Definition oldCmd : Cmd :=
  mkCmd "/usr/local/bin/envoy" ["envoy"; "-c"; "envoy-config.yaml"]
    "/tmp/.pomerium-envoy" "pdeathsig" (Some (mkProcess 100)).

(** A server that supervises process 100. *)
Definition running : Server :=
  mkServer "/tmp/.pomerium-envoy" (Some oldCmd) "5443" "443" "envoy" 1
    optionsInfo.

Definition runOk (baseID : option Z) (pid : Z) : RunOS :=
  mkRunOS baseID (Ok "/usr/local/bin/envoy") None None (Ok (mkProcess pid)) None.

Definition runSpawnFails (baseID : option Z) : RunOS :=
  mkRunOS baseID (Ok "/usr/local/bin/envoy") None None
    (Err "fork/exec envoy: resource temporarily unavailable") None.

Definition updOk (baseID : option Z) (pid : Z) : UpdateOS :=
  mkUpdateOS None (runOk baseID pid).

Definition updWriteFails : UpdateOS :=
  mkUpdateOS (Some "no space left on device") (runOk None 101).

Definition updSpawnFails (baseID : option Z) : UpdateOS :=
  mkUpdateOS None (runSpawnFails baseID).

Definition newServerOS (binary : string) (first : UpdateOS) : NewServerOS :=
  mkNewServerOS "/tmp" None (Ok "/tmp/pomerium-embedded/envoy")
    (fun p => Ok p) (fun _ => Ok binary) first.

Definition datadogServer (override : string) : Server :=
  mkServer "/tmp/.pomerium-envoy" None "5443" "443" "envoy" 0
    (mkServerOptions "all" "info" (mkTracingOptions "datadog" override [])).

End Sample.

(** ** The process metrics collector *)

Module Collector.

(** What [runProcessCollector] does, in order. *)
Inductive Event : Type :=
| NewProcessCollector (name : string)
| Register (err : option error)          (* view.Register(pc.Views()...) *)
| LogError (msg : string)
| Measure (pid : Z) (err : option error). (* pc.Measure(ctx, pid) *)

(** The pid a tick reads under the lock: that of the current process, and
    zero when there is none. *)
Definition currentPid (srv : Server) : Z :=
  match cmd srv with
  | Some c => match Process_ c with
              | Some p => Pid p
              | None => 0
              end
  | None => 0
  end.

(** One turn of the loop over [ticker.C]: [srv] is the server as the tick
    finds it, [measure] the answer of [pc.Measure] should it be called. *)
Definition tick (srv : Server) (measure : option error) : list Event :=
  let pid := currentPid srv in
  if 0 <? pid then
    Measure pid measure
      :: match measure with
         | Some _ => [LogError "failed to measure envoy process metrics"]
         | None => []
         end
  else [].

(** [srv.runProcessCollector()] for the ticks that come while the program
    lives: [GOOS] is [runtime.GOOS], [register] the answer of
    [view.Register]. *)
Definition runProcessCollector (GOOS : string) (register : option error)
  (ticks : list (Server * option error)) : list Event :=
  (* macos is not supported *)
  if negb (String.eqb GOOS "linux") then []
  else
    (NewProcessCollector "envoy"
       :: Register register
       :: match register with
          | Some _ => [LogError "failed to register envoy process metric views"]
          | None => []
          end
       ++ List.flat_map (fun t => tick (fst t) (snd t)) ticks)%list.

(** The pids measured, in order *)
Definition measured (t : list Event) : list Z :=
  List.flat_map (fun e => match e with Measure pid _ => [pid] | _ => [] end) t.

End Collector.

(** ** The processes a trace leaves alive *)

(** The process of the current handle *)
Definition currentProcess (srv : Server) : option Process :=
  match cmd srv with
  | Some c => Process_ c
  | None => None
  end.

Definition Process_eqb (p p' : Process) : bool := Pid p =? Pid p'.

(** The supervised processes while a trace unfolds: the current one, and
    the one a new process has just replaced, until it is released. *)
Definition Handles : Type := (option Process * option Process)%type.

(** One event seen by an observer of the hand-over protocol; [None] when
    the event breaks it: a start while the replaced process is still held,
    a release of anything but the replaced process, a kill of anything but
    the current process. *)
Definition handoffStep (h : Handles) (e : Event) : option Handles :=
  let '(cur, replaced) := h in
  match e with
  | Start _ (inr p) =>
      match replaced with
      | None => Some (Some p, cur)
      | Some _ => None
      end
  | Release p _ =>
      match replaced with
      | Some p' => if Process_eqb p p' then Some (cur, None) else None
      | None => None
      end
  | Kill p _ =>
      match replaced, cur with
      | None, Some p' => if Process_eqb p p' then Some (None, None) else None
      | _, _ => None
      end
  | _ => Some h
  end.

Fixpoint handoff (h : Handles) (t : list Event) : option Handles :=
  match t with
  | [] => Some h
  | e :: t' =>
      match handoffStep h e with
      | Some h' => handoff h' t'
      | None => None
      end
  end.

(** A handle, when there is one, holds a process. *)
Definition HandleHasProcess (srv : Server) : Prop :=
  forall c, cmd srv = Some c -> Process_ c <> None.

(** The number of configuration changes among the calls on a server *)
Definition changes (ops : list Op) : nat :=
  List.length (List.filter (fun op => match op with
                                      | ConfigChange _ _ => true
                                      | CloseServer _ => false
                                      end) ops).

Definition isGoHandleLogs (e : Event) : bool :=
  match e with GoHandleLogs => true | _ => false end.

(** [os] with another answer to [Process.Release] *)
Definition withRelease (os : RunOS) (r : option error) : RunOS :=
  mkRunOS (os_readBaseID os) (os_CommandLookPath os) (os_StderrPipe os)
          (os_StdoutPipe os) (os_Start os) r.

(** The events of [NewServer] before the first configuration is applied *)
Definition isSetup (e : Event) : bool :=
  match e with
  | Log _ _ | MkdirAll _ _ | ExtractEmbeddedEnvoy _ | LookPath _ _
  | ReadFile _ _ | GoRunProcessCollector | OnConfigChange => true
  | _ => false
  end.

(** ** The log format *)

(** The line the child prints for a level, a logger name and an escaped
    message under the [--log-format] that [run] passes,
    [[LOG_FORMAT]%l--%n--%v]. *)
Definition formatLine (lvl name msg : string) : string :=
  ("[LOG_FORMAT]" ++ lvl ++ "--" ++ name ++ "--" ++ msg)%string.

(** A part of a line that cannot be mistaken for the separator: it holds
    no [--] and does not end with a hyphen. *)
Definition noSeparator (s : string) : bool :=
  negb (strings.Contains (s ++ "-") "--").

Fixpoint allBytes (p : ascii -> bool) (s : string) : bool :=
  match s with
  | EmptyString => true
  | String c t => p c && allBytes p t
  end.

(** What the pattern [fileNameAndNumberRE] says of a string [s] and its
    two groups: [s] is an opening bracket, one or more bytes of the
    bracket expression, a colon, one or more digits, a closing bracket,
    which make group 1, then one white-space byte, then group 2, which
    holds no newline. *)
Definition MatchesFileNameAndNumber (s g1 g2 : string) : Prop :=
  exists cls digits w,
    cls <> ""
    /\ allBytes LogRelay.inClass cls = true
    /\ digits <> ""
    /\ allBytes strconv.isDigit digits = true
    /\ LogRelay.isSpace w = true
    /\ containsByte g2 LF = false
    /\ g1 = ("[" ++ cls ++ ":" ++ digits ++ "]")%string
    /\ s = (g1 ++ String w g2)%string.

(** The reads [handleLogs] gets to: those before the end of the stream *)
Fixpoint untilEnd (reads : list LogRelay.Read) : list LogRelay.Read :=
  match reads with
  | [] => []
  | LogRelay.ReadEOF _ :: _ => []
  | LogRelay.ReadClosed :: _ => []
  | r :: rest => r :: untilEnd rest
  end.

(** What [handleLogs] does with one read that is not the end *)
Definition relayed (r : LogRelay.Read) : list LogRelay.Output :=
  match r with
  | LogRelay.ReadLine ln =>
      match LogRelay.handleLine (strings.TrimRight ln (String CR (str1 LF))) with
      | Some rec => [LogRelay.Emit rec]
      | None => []
      end
  | LogRelay.ReadFailed err => [LogRelay.FailedToRead err; LogRelay.Sleep]
  | _ => []
  end.

Definition emitted (out : list LogRelay.Output) : list LogRelay.LogRecord :=
  List.flat_map (fun o => match o with LogRelay.Emit r => [r] | _ => [] end) out.

Definition isReadFailed (r : LogRelay.Read) : bool :=
  match r with LogRelay.ReadFailed _ => true | _ => false end.

(** The server [NewServer] builds before the first configuration is
    applied to it *)
Definition freshServer (os : NewServerOS) (grpcPort httpPort : string) : Server :=
  mkServer (filepath_Join (os_TempDir os) workingDirectoryName) None
    grpcPort httpPort (resolvedName os) 0
    (mkServerOptions "" "" (mkTracingOptions "" "" [])).

(** The events of [run] up to the call of [cmd.Start] *)
Definition beforeStart {X : External} (srv : Server) (os : RunOS) : list Event :=
  [ReadBaseID (os_readBaseID os);
   Command (envoyPath srv) (fst (runArgs srv (os_readBaseID os)));
   StderrPipe None; GoHandleLogs; StdoutPipe None; GoHandleLogs].

(** The command [update] starts for [Sample.running] and [Sample.cfgWarn]
    when no base id is found *)
Definition sampleStarted : Cmd :=
  mkCmd "/usr/local/bin/envoy"
    ["envoy"; "-c"; "envoy-config.yaml"; "--log-level"; "warn";
     "--log-format"; "[LOG_FORMAT]%l--%n--%v"; "--log-format-escaped";
     "--use-dynamic-base-id"; "--base-id-path"; "/tmp/envoy-base-id"]
    "/tmp/.pomerium-envoy" "pdeathsig" None.

(** ** The shape of the bootstrap document *)

(** The clusters the ADS configuration names *)
Definition adsClusters (b : Bootstrap) : list string :=
  List.map (fun g => match g with EnvoyGrpc n => n end)
    (GrpcServices (AdsConfig (DynamicResources_ b))).

(** A static cluster with one endpoint, a socket address with a port that
    fits a uint32, and a load assignment under the name of the cluster *)
Definition wellFormedCluster (c : Cluster) : Prop :=
  cla_ClusterName (LoadAssignment c) = Name c
  /\ ConnectTimeoutSeconds c = 5
  /\ exists a,
      Endpoints (LoadAssignment c)
      = [mkLocalityLbEndpoints [mkLbEndpoint (Address_SocketAddress a)]]
      /\ 0 <= sa_PortValue a < 2 ^ 32.

(** ** Reading the stream *)

(** The cut set of [handleLogs], carriage return and newline *)
Definition lineEnd : string := String CR (str1 LF).

(** The reads that hand over a line *)
Definition isReadLine (r : LogRelay.Read) : bool :=
  match r with LogRelay.ReadLine _ => true | _ => false end.

(** What the loop of [handleLogs] does with a line, terminator removed *)
Definition relayLine (ln : string) : list LogRelay.Output :=
  match LogRelay.handleLine ln with
  | Some rec => [LogRelay.Emit rec]
  | None => []
  end.

(** ** Observations on the collector *)

Definition isLogError (e : Collector.Event) : bool :=
  match e with Collector.LogError _ => true | _ => false end.

(** The measures that failed among the ticks that measure *)
Definition failedMeasures (ticks : list (Server * option error)) : nat :=
  List.length
    (List.filter (fun t => (0 <? Collector.currentPid (fst t))
                           && match snd t with Some _ => true | None => false end)
       ticks).

(** * Properties *)

(** ** The library models on known values *)

Example sha256_empty :
  hex.EncodeToString (sha256.Sum "")
  = "e3b0c44298fc1c149afbf4c8996fb92427ae41e4649b934ca495991b7852b855".
Proof. vm_compute. reflexivity. Qed.

Example sha256_abc :
  hex.EncodeToString (sha256.Sum "abc")
  = "ba7816bf8f01cfea414140de5dae2223b00361a396177a9cb410ff61f20015ad".
Proof. vm_compute. reflexivity. Qed.

(** Two blocks: 56 bytes, so that the padding spills over. *)
Example sha256_two_blocks :
  hex.EncodeToString
    (sha256.Sum "abcdbcdecdefdefgefghfghighijhijkijkljklmklmnlmnomnopnopq")
  = "248d6a61d20638b8e5c026930c3e6039a33ce45964ff2167f6ecedd419db06c1".
Proof. vm_compute. reflexivity. Qed.

Example Atoi_values :
  strconv.Atoi "5443" = Ok 5443
  /\ strconv.Atoi "-1" = Ok (-1)
  /\ strconv.Atoi "+7" = Ok 7
  /\ strconv.Atoi "9223372036854775807" = Ok 9223372036854775807
  /\ strconv.Atoi "9223372036854775808" = Err strconv.ErrRange
  /\ strconv.Atoi "-9223372036854775808" = Ok (-9223372036854775808)
  /\ strconv.Atoi "" = Err strconv.ErrSyntax
  /\ strconv.Atoi "-" = Err strconv.ErrSyntax
  /\ strconv.Atoi "12a" = Err strconv.ErrSyntax
  /\ strconv.Atoi "1_000" = Err strconv.ErrSyntax.
Proof. repeat split. Qed.

Example ParseUint_values :
  strconv.ParseUint "8126" 32 = Ok 8126
  /\ strconv.ParseUint "4294967295" 32 = Ok 4294967295
  /\ strconv.ParseUint "4294967296" 32 = Err strconv.ErrRange
  /\ strconv.ParseUint "-1" 32 = Err strconv.ErrSyntax
  /\ strconv.ParseUint "" 32 = Err strconv.ErrSyntax.
Proof. repeat split. Qed.

Example Itoa_values :
  strconv.Itoa 0 = "0" /\ strconv.Itoa 12 = "12" /\ strconv.Itoa (-7) = "-7".
Proof. repeat split. Qed.

Example SplitHostPort_values :
  net.SplitHostPort "127.0.0.1:8126" = Ok ("127.0.0.1", "8126")
  /\ net.SplitHostPort "[::1]:80" = Ok ("::1", "80")
  /\ net.SplitHostPort ":80" = Ok ("", "80")
  /\ net.SplitHostPort "host:" = Ok ("host", "")
  /\ net.SplitHostPort "host" = Err net.missingPort
  /\ net.SplitHostPort "::1:80" = Err net.tooManyColons
  /\ net.SplitHostPort "[::1]" = Err net.missingPort
  /\ net.SplitHostPort "[::1:80" = Err net.missingBracket
  /\ net.SplitHostPort "a[b:80" = Err net.unexpectedOpen
  /\ net.SplitHostPort "ab]:80" = Err net.unexpectedClose.
Proof. repeat split. Qed.

Example ParseLevel_values :
  zerolog.ParseLevel "warn" = Ok zerolog.WarnLevel
  /\ zerolog.ParseLevel "" = Ok zerolog.NoLevel
  /\ isOk (zerolog.ParseLevel "warning") = false
  /\ isOk (zerolog.ParseLevel "critical") = false.
Proof. repeat split. Qed.

Example filepath_Base_values :
  filepath_Base "envoy" = "envoy"
  /\ filepath_Base "/tmp/pomerium-embedded/envoy" = "envoy"
  /\ filepath_Base "./envoy" = "envoy"
  /\ filepath_Base "bin/" = "bin"
  /\ filepath_Base "/" = "/"
  /\ filepath_Base "//" = "/"
  /\ filepath_Base "" = ".".
Proof. repeat split. Qed.

(** A bare name is looked up; a name with a directory part is taken as
    it is, and so is a bare name that is not found. *)
Example exec_Command_values :
  exec_Command (Ok "/usr/local/bin/envoy") "envoy" ["-c"; "x"]
  = mkCmd "/usr/local/bin/envoy" ["envoy"; "-c"; "x"] "" "" None
  /\ exec_Command (Ok "/usr/local/bin/envoy") "/opt/envoy" []
     = mkCmd "/opt/envoy" ["/opt/envoy"] "" "" None
  /\ exec_Command (Err "executable file not found in $PATH") "envoy" []
     = mkCmd "envoy" ["envoy"] "" "" None.
Proof. repeat split. Qed.

Example SplitN_values :
  strings.SplitN "a--b--c--d" "--" 3 = ["a"; "b"; "c--d"]
  /\ strings.SplitN "a--b" "--" 3 = ["a"; "b"]
  /\ strings.SplitN "a---" "--" 3 = ["a"; "-"]
  /\ strings.SplitN "" "--" 3 = [""].
Proof. repeat split. Qed.

(** A stream of the child: a line in the log format, a read error, an
    empty line, a line that is not in the format, and the end. *)
Example handleLogs_stream :
  handleLogs
    [ReadLine ("[LOG_FORMAT]info--main--[source/server/server.cc:255] starting"
               ++ String CR (str1 LF));
     ReadFailed "read |0: i/o timeout";
     ReadLine (str1 LF);
     ReadLine ("plain" ++ str1 LF);
     ReadEOF "left over";
     ReadLine ("never read" ++ str1 LF)]
  = [Emit (mkLogRecord zerolog.InfoLevel "envoy" "main" "starting");
     FailedToRead "read |0: i/o timeout"; Sleep;
     Emit (mkLogRecord zerolog.NoLevel "envoy" "envoy" "plain")].
Proof. vm_compute. reflexivity. Qed.

(** ** Traces *)

Lemma split_after_prefix :
  forall (l1 l2 pre post : list Event) (x : Event),
    (l1 ++ l2 = pre ++ x :: post)%list ->
    ~ In x l1 ->
    exists k, pre = (l1 ++ k)%list.
Proof.
  induction l1 as [|a l1 IH]; intros l2 pre post x H Hn.
  - exists pre. reflexivity.
  - destruct pre as [|b pre]; simpl in H.
    + injection H as Ha _. exfalso. apply Hn. left. exact Ha.
    + injection H as Ha H. subst b.
      destruct (IH l2 pre post x H) as [k Hk].
      * intro Hin. apply Hn. right. exact Hin.
      * exists k. simpl. now rewrite Hk.
Qed.

Lemma releasePrevious_handle :
  forall (srv : Server) (os : RunOS) (p : Process) (r : option error),
    In (Release p r) (releasePrevious srv os) ->
    exists old, cmd srv = Some old /\ Process_ old = Some p.
Proof.
  intros srv os p r. unfold releasePrevious.
  destruct (cmd srv) as [old|]; [|intros []].
  destruct (Process_ old) as [p0|] eqn:Hp; [|intros []].
  intros [H|[H|H]].
  - discriminate H.
  - injection H as -> _. exists old. auto.
  - destruct (os_Release os); simpl in H; intuition discriminate.
Qed.

Section RunFacts.

Context {X : External}.

Lemma runArgs_cmd :
  forall srv b, cmd (snd (runArgs srv b)) = cmd srv.
Proof. intros srv [b|]; reflexivity. Qed.

Lemma runArgs_options :
  forall srv b, options (snd (runArgs srv b)) = options srv.
Proof. intros srv [b|]; reflexivity. Qed.

(** [run] either fails, leaving the handle alone and releasing nothing,
    or starts a process and then releases the previous one. *)
Lemma run_outcome :
  forall (srv srv' : Server) (os : RunOS) (err : option error) (t : list Event),
    run srv os = (srv', err, t) ->
    (exists msg, err = Some msg /\ cmd srv' = cmd srv
                 /\ List.forallb (fun e => negb (isRelease e)) t = true
                 /\ (forall c p, ~ In (Start c (Ok p)) t)
                 /\ (forall c e, In (Start c (Err e)) t ->
                                 msg = ("error starting envoy: " ++ e)%string))
    \/ (exists c p t0,
           err = None /\ os_Start os = Ok p
           /\ cmd srv' = Some c /\ Process_ c = Some p
           /\ t = (t0 ++ [Start (mkCmd (Path c) (Args c) (Dir c) (SysProcAttr c) None)
                            (Ok p)] ++ releasePrevious srv os)%list
           /\ List.forallb (fun e => negb (isRelease e) && negb (isStart e)) t0 = true).
Proof.
  intros srv srv' os err t H. unfold run in H.
  destruct (runArgs srv (os_readBaseID os)) as [args srv1] eqn:Hargs.
  assert (Hc : cmd srv1 = cmd srv)
    by (change srv1 with (snd (args, srv1)); rewrite <- Hargs; apply runArgs_cmd).
  destruct (os_StderrPipe os) as [e1|].
  { injection H as <- <- <-. left. eexists. repeat split; auto.
    - intros c p [Hi|[Hi|[Hi|[]]]]; discriminate Hi.
    - intros c e [Hi|[Hi|[Hi|[]]]]; discriminate Hi. }
  destruct (os_StdoutPipe os) as [e2|].
  { injection H as <- <- <-. left. eexists. repeat split; auto.
    - intros c p Hi. simpl in Hi. intuition discriminate.
    - intros c e Hi. simpl in Hi. intuition discriminate. }
  destruct (os_Start os) as [e3|p] eqn:Hs.
  { injection H as <- <- <-. left. eexists. repeat split; auto.
    - intros c p Hi. simpl in Hi. intuition discriminate.
    - intros c e Hi. simpl in Hi.
      repeat (destruct Hi as [Hi|Hi]; try discriminate Hi).
      + injection Hi as _ ->. reflexivity.
      + destruct Hi. }
  injection H as <- <- <-. right.
  eexists. exists p.
  exists [ReadBaseID (os_readBaseID os); Command (envoyPath srv1) args;
          StderrPipe None; GoHandleLogs; StdoutPipe None; GoHandleLogs].
  assert (Hr : releasePrevious srv1 os = releasePrevious srv os)
    by (unfold releasePrevious; now rewrite Hc).
  repeat split. simpl. now rewrite Hr.
Qed.

End RunFacts.

(** C1. In [run], the previous process handle is released only strictly
    after the spawn call for the new process has returned success: every
    release in the trace of [run] comes after a successful [Start], and
    what is released is the handle that was current.  Whenever the spawn
    call fails, [run] returns the error of the spawn, releases nothing
    and leaves [srv.cmd] as it was. *)
Theorem run_releases_only_after_spawn :
  forall (X : External) (srv srv' : Server) (os : RunOS)
         (err : option error) (t : list Event),
    run srv os = (srv', err, t) ->
    (forall pre p r post,
        t = (pre ++ Release p r :: post)%list ->
        (exists c p', In (Start c (Ok p')) pre)
        /\ exists old, cmd srv = Some old /\ Process_ old = Some p)
    /\ (forall c e,
           In (Start c (Err e)) t ->
           err = Some ("error starting envoy: " ++ e)%string
           /\ (forall p r, ~ In (Release p r) t)
           /\ cmd srv' = cmd srv).
Proof.
  intros X srv srv' os err t H.
  assert (Hno : forall l, List.forallb (fun e => negb (isRelease e)) l = true ->
                          forall p r, ~ In (Release p r) l).
  { intros l Hl p r Hin. rewrite List.forallb_forall in Hl.
    specialize (Hl _ Hin). discriminate Hl. }
  destruct (run_outcome srv srv' os err t H)
    as [(msg & -> & Hc & Hrel & Hok & Hmsg)
       |(c & p & t0 & -> & Hs & Hc & Hp & -> & Ht0)].
  - split.
    + intros pre p r post Ht. exfalso. apply (Hno _ Hrel p r).
      rewrite Ht. apply List.in_or_app. right. left. reflexivity.
    + intros c e Hin. rewrite (Hmsg c e Hin). repeat split; auto.
  - split.
    + intros pre p0 r post Ht.
      rewrite List.app_assoc in Ht.
      destruct (split_after_prefix _ _ _ _ _ Ht) as [k Hk].
      * intro Hin. apply List.in_app_or in Hin. destruct Hin as [Hin|[Hin|[]]].
        -- rewrite List.forallb_forall in Ht0. specialize (Ht0 _ Hin).
           discriminate Ht0.
        -- discriminate Hin.
      * split.
        -- eexists. exists p. rewrite Hk. apply List.in_or_app. left.
           apply List.in_or_app. right. left. reflexivity.
        -- apply releasePrevious_handle with (os := os) (r := r).
           rewrite Hk in Ht. rewrite <- !List.app_assoc in Ht.
           apply List.app_inv_head in Ht. simpl in Ht.
           injection Ht as Ht. rewrite Ht.
           apply List.in_or_app. right. left. reflexivity.
    + intros c0 e Hin. exfalso.
      apply List.in_app_or in Hin. destruct Hin as [Hin|Hin].
      * rewrite List.forallb_forall in Ht0. specialize (Ht0 _ Hin).
        discriminate Ht0.
      * destruct Hin as [Hin|Hin]; [discriminate Hin|].
        unfold releasePrevious in Hin.
        destruct (cmd srv) as [old|]; [|destruct Hin].
        destruct (Process_ old); [|destruct Hin].
        destruct (os_Release os); simpl in Hin; intuition discriminate.
Qed.

Lemma run_releases_only_after_spawn_witness :
  let '(srv', err, t) :=
    run (X := Sample.ext "") Sample.running (Sample.runSpawnFails None) in
  err = Some "error starting envoy: fork/exec envoy: resource temporarily unavailable"
  /\ (forall p r, ~ In (Release p r) t)
  /\ cmd srv' = cmd Sample.running.
Proof.
  pose proof (run_releases_only_after_spawn (Sample.ext "") Sample.running _
                (Sample.runSpawnFails None) _ _ eq_refl) as [_ H].
  simpl. eapply H. simpl. do 6 right. left. reflexivity.
Defined.

(** ** Equality of server options *)

Lemma list_eqb_pair_eq :
  forall l1 l2 : list (string * string),
    list_eqb pair_eqb l1 l2 = true <-> l1 = l2.
Proof.
  induction l1 as [|[a b] l1 IH]; intros [|[c d] l2]; simpl; split;
    try discriminate; try reflexivity.
  - intro H. apply andb_true_iff in H. destruct H as [H1 H2].
    unfold pair_eqb in H1. simpl in H1. apply andb_true_iff in H1.
    destruct H1 as [Ha Hb].
    apply String.eqb_eq in Ha. apply String.eqb_eq in Hb.
    apply IH in H2. congruence.
  - intro H. injection H as -> -> ->.
    unfold pair_eqb. simpl. rewrite !String.eqb_refl. simpl.
    apply IH. reflexivity.
Qed.

(** [cmp.Equal] on server options holds exactly of equal options. *)
Lemma cmp_Equal_eq :
  forall x y : serverOptions, cmp_Equal x y = true <-> x = y.
Proof.
  intros [s1 l1 [p1 d1 o1]] [s2 l2 [p2 d2 o2]].
  unfold cmp_Equal, TracingOptions_eqb. simpl. split.
  - intro H.
    repeat match goal with
           | E : (_ && _)%bool = true |- _ =>
               apply andb_true_iff in E; destruct E
           | E : String.eqb _ _ = true |- _ => apply String.eqb_eq in E
           | E : list_eqb _ _ _ = true |- _ => apply list_eqb_pair_eq in E
           end.
    congruence.
  - intro H. injection H as -> -> -> -> ->.
    rewrite !String.eqb_refl. simpl. apply list_eqb_pair_eq. reflexivity.
Qed.

Lemma cmp_Equal_refl : forall x, cmp_Equal x x = true.
Proof. intro x. apply cmp_Equal_eq. reflexivity. Qed.

Section UpdateFacts.

Context {X : External}.

Lemma spawns_app :
  forall t1 t2, spawns (t1 ++ t2) = (spawns t1 + spawns t2)%nat.
Proof.
  intros. unfold spawns. rewrite List.filter_app. apply List.length_app.
Qed.

Lemma spawns_releasePrevious :
  forall srv os, spawns (releasePrevious srv os) = 0%nat.
Proof.
  intros srv os. unfold releasePrevious.
  destruct (cmd srv) as [old|]; [|reflexivity].
  destruct (Process_ old); [|reflexivity].
  destruct (os_Release os); reflexivity.
Qed.

Lemma run_spawns :
  forall srv os, (spawns (snd (run srv os)) <= 1)%nat.
Proof.
  intros srv os. unfold run.
  destruct (runArgs srv (os_readBaseID os)) as [args srv1].
  destruct (os_StderrPipe os); [unfold spawns; simpl; lia|].
  destruct (os_StdoutPipe os); [unfold spawns; simpl; lia|].
  destruct (os_Start os); [unfold spawns; simpl; lia|].
  cbn [snd]. rewrite !spawns_app, spawns_releasePrevious.
  unfold spawns. simpl. lia.
Qed.

Lemma run_options :
  forall srv os, options (fst (fst (run srv os))) = options srv.
Proof.
  intros srv os. unfold run.
  destruct (runArgs srv (os_readBaseID os)) as [args srv1] eqn:Hargs.
  assert (Ho : options srv1 = options srv)
    by (change srv1 with (snd (args, srv1)); rewrite <- Hargs;
        apply runArgs_options).
  destruct (os_StderrPipe os); [exact Ho|].
  destruct (os_StdoutPipe os); [exact Ho|].
  destruct (os_Start os); exact Ho.
Qed.

(** After [update], the current options are the projection of the
    snapshot, whenever it has one. *)
Lemma update_options :
  forall srv cfg os o,
    serverOptionsOf cfg = Ok o ->
    options (fst (update srv cfg os)) = o.
Proof.
  intros srv cfg os o Ho. unfold update. rewrite Ho. unfold Ok.
  destruct (cmp_Equal (options srv) o) eqn:He.
  - apply cmp_Equal_eq in He. exact He.
  - destruct (writeConfig (set_options srv o) cfg os) as [[[b|] [w|]] t];
      try reflexivity.
    pose proof (run_options (set_options srv o) (os_run os)) as Hr.
    destruct (run (set_options srv o) (os_run os)) as [[srv2 [e|]] t'];
      simpl in *; exact Hr.
Qed.

Lemma writeConfig_spawns :
  forall srv cfg os, spawns (snd (writeConfig srv cfg os)) = 0%nat.
Proof.
  intros srv cfg os. unfold writeConfig.
  destruct (buildBootstrapConfig srv cfg); reflexivity.
Qed.

Lemma update_spawns :
  forall srv cfg os, (spawns (snd (update srv cfg os)) <= 1)%nat.
Proof.
  intros srv cfg os. unfold update.
  destruct (serverOptionsOf cfg) as [e|o]; [unfold spawns; simpl; lia|].
  destruct (cmp_Equal (options srv) o); [unfold spawns; simpl; lia|].
  pose proof (writeConfig_spawns (set_options srv o) cfg os) as Hw.
  destruct (writeConfig (set_options srv o) cfg os) as [[[b|] [w|]] t];
    simpl in Hw; cbn [snd]; rewrite ?spawns_app, ?Hw;
    try (unfold spawns; simpl; lia).
  pose proof (run_spawns (set_options srv o) (os_run os)) as Hr.
  destruct (run (set_options srv o) (os_run os)) as [[srv2 [e|]] t'];
    simpl in Hr; cbn [snd]; rewrite ?spawns_app, ?Hw;
    change (spawns [Log zerolog.InfoLevel "envoy: starting envoy process"])
      with 0%nat;
    try change (spawns [Log zerolog.ErrorLevel "envoy: failed to run envoy process"])
      with 0%nat; lia.
Qed.

(** A snapshot whose projection is the current options changes nothing. *)
Lemma update_unchanged :
  forall srv cfg os,
    serverOptionsOf cfg = Ok (options srv) ->
    update srv cfg os
    = (srv, [Log zerolog.DebugLevel "envoy: no config changes detected"]).
Proof.
  intros srv cfg os Ho. unfold update. rewrite Ho. unfold Ok.
  now rewrite cmp_Equal_refl.
Qed.

End UpdateFacts.

(** C2. For two configuration snapshots that project to equal
    serverOptions, the change handler called with the second after the
    first is a no-op: the server is unchanged and the only event is the
    debug log that no change was detected, so nothing is built, written
    or started; the two calls together start at most one process. *)
Theorem update_twice_restarts_once :
  forall (X : External) (srv : Server) (cfg1 cfg2 : Config)
         (os1 os2 : UpdateOS) (o : serverOptions),
    serverOptionsOf cfg1 = Ok o ->
    serverOptionsOf cfg2 = Ok o ->
    let '(srv1, t1) := update srv cfg1 os1 in
    let '(srv2, t2) := update srv1 cfg2 os2 in
    srv2 = srv1
    /\ t2 = [Log zerolog.DebugLevel "envoy: no config changes detected"]
    /\ List.filter isWriteFile t2 = []
    /\ (spawns t2 = 0)%nat
    /\ (spawns (t1 ++ t2) <= 1)%nat.
Proof.
  intros X srv cfg1 cfg2 os1 os2 o H1 H2.
  pose proof (update_options srv cfg1 os1 o H1) as Ho.
  pose proof (update_spawns srv cfg1 os1) as Hs.
  destruct (update srv cfg1 os1) as [srv1 t1]. simpl in Ho, Hs.
  rewrite <- Ho in H2.
  rewrite (update_unchanged srv1 cfg2 os2 H2).
  repeat split. rewrite spawns_app.
  change (spawns [Log zerolog.DebugLevel "envoy: no config changes detected"])
    with 0%nat. lia.
Qed.

Lemma update_twice_restarts_once_witness :
  let '(srv1, t1) := update (X := Sample.ext "") Sample.running Sample.cfgWarn
                       (Sample.updOk None 101) in
  let '(srv2, t2) := update (X := Sample.ext "") srv1 Sample.cfgWarn
                       (Sample.updOk None 102) in
  srv2 = srv1
  /\ t2 = [Log zerolog.DebugLevel "envoy: no config changes detected"]
  /\ List.filter isWriteFile t2 = []
  /\ (spawns t2 = 0)%nat
  /\ (spawns (t1 ++ t2) <= 1)%nat.
Proof.
  exact (update_twice_restarts_once (Sample.ext "") Sample.running
           Sample.cfgWarn Sample.cfgWarn (Sample.updOk None 101)
           (Sample.updOk None 102) _ eq_refl eq_refl).
Defined.

(** ** The change handler, case by case *)

Section UpdateCases.

Context {X : External}.

Lemma update_path :
  forall srv cfg os,
    UpdatePath srv cfg os (fst (update srv cfg os)) (snd (update srv cfg os)).
Proof.
  intros srv cfg os. unfold update.
  destruct (serverOptionsOf cfg) as [e|o] eqn:Ho.
  { eapply InvalidTracing. exact Ho. }
  destruct (cmp_Equal (options srv) o) eqn:He.
  { eapply NoChange; eauto. }
  unfold writeConfig.
  destruct (buildBootstrapConfig (set_options srv o) cfg) as [e|bs] eqn:Hb.
  { cbn [fst snd app]. eapply BuildFailed; eauto. }
  destruct (os_WriteFile os) as [e|] eqn:Hw.
  { cbn [fst snd app]. change (wd (set_options srv o)) with (wd srv).
    eapply WriteFailed; eauto. }
  destruct (run (set_options srv o) (os_run os)) as [[srv' [e|]] t] eqn:Hr.
  - cbn [fst snd]. rewrite <- List.app_assoc.
    change (wd (set_options srv o)) with (wd srv).
    eapply (Ran srv cfg os o bs srv' (Some e) t); eauto.
  - cbn [fst snd].
    change (wd (set_options srv o)) with (wd srv).
    pose proof (Ran srv cfg os o bs srv' None t Ho He Hb Hw Hr) as P.
    rewrite List.app_nil_r in P. exact P.
Qed.

Lemma run_no_error_log :
  forall srv os,
    List.existsb isErrorLog (snd (run srv os)) = false
    /\ List.existsb isKill (snd (run srv os)) = false.
Proof.
  intros srv os. unfold run.
  destruct (runArgs srv (os_readBaseID os)) as [args srv1].
  destruct (os_StderrPipe os); [split; reflexivity|].
  destruct (os_StdoutPipe os); [split; reflexivity|].
  destruct (os_Start os); [split; reflexivity|].
  cbn [snd]. rewrite !List.existsb_app. unfold releasePrevious.
  destruct (cmd srv1) as [old|]; [|split; reflexivity].
  destruct (Process_ old); [|split; reflexivity].
  destruct (os_Release os); split; reflexivity.
Qed.

End UpdateCases.

(** C3, as the code has it.  When an invocation of the change handler
    fails (an error is logged), the current process handle is the same
    after as before, and no process was started, released or killed.
    With invalid tracing options the whole server state is unchanged.
    When the bootstrap build or the write of the configuration file
    fails, the handle and the restart epoch are unchanged, nothing is
    spawned, and the current serverOptions are already the projection of
    the new snapshot.  When the run fails, the current serverOptions are
    the projection of the new snapshot as well. *)
Theorem update_failure_keeps_handle :
  forall (X : External) (srv srv' : Server) (cfg : Config) (os : UpdateOS)
         (t : list Event),
    update srv cfg os = (srv', t) ->
    List.existsb isErrorLog t = true ->
    cmd srv' = cmd srv
    /\ List.existsb (fun e => isStarted e || isRelease e || isKill e) t = false
    /\ (In logInvalidTracing t -> srv' = srv)
    /\ (In logWriteFailed t ->
        exists o, serverOptionsOf cfg = Ok o /\ srv' = set_options srv o
                  /\ spawns t = 0%nat)
    /\ (In logRunFailed t ->
        exists o, serverOptionsOf cfg = Ok o /\ options srv' = o).
Proof.
  intros X srv srv' cfg os t H Herr.
  pose proof (update_path srv cfg os) as P. rewrite H in P. cbn [fst snd] in P.
  clear H. destruct P as [e Ho|o Ho He|o e Ho He Hb|o bs e Ho He Hb Hw
                         |o bs srv2 err t2 Ho He Hb Hw Hr].
  - repeat split; auto; intros [Hi|[]]; discriminate Hi.
  - discriminate Herr.
  - repeat split; auto.
    + intros [Hi|[]]; discriminate Hi.
    + intros _. exists o. auto.
    + intros [Hi|[]]; discriminate Hi.
  - repeat split; auto.
    + intros Hi. simpl in Hi. intuition discriminate.
    + intros _. exists o. auto.
    + intros Hi. simpl in Hi. intuition discriminate.
  - pose proof (run_no_error_log (set_options srv o) (os_run os)) as [Hne Hnk].
    pose proof (run_options (set_options srv o) (os_run os)) as Hopt.
    rewrite Hr in Hne, Hnk, Hopt. cbn [fst snd] in Hne, Hnk, Hopt.
    destruct (run_outcome _ _ _ _ _ Hr)
      as [(msg & -> & Hc & Hrel & Hok & _)
         |(c & p & t0 & -> & _)].
    2:{ exfalso. rewrite !List.existsb_app in Herr. rewrite Hne in Herr.
        discriminate Herr. }
    assert (Hin : forall e, In e t2 ->
                            (isStarted e || isRelease e || isKill e)%bool = false).
    { intros e Hi.
      rewrite List.forallb_forall in Hrel. specialize (Hrel e Hi).
      assert (Hk : isKill e = false).
      { destruct (isKill e) eqn:Hk; auto.
        assert (List.existsb isKill t2 = true)
          by (apply List.existsb_exists; eauto).
        congruence. }
      destruct e; try reflexivity; try discriminate Hrel; try discriminate Hk.
      destruct r; [reflexivity|]. exfalso. eapply Hok. exact Hi. }
    assert (Hex : List.existsb (fun e => isStarted e || isRelease e || isKill e) t2
                  = false).
    { destruct (List.existsb (fun e => isStarted e || isRelease e || isKill e) t2)
        eqn:Hx; auto.
      apply List.existsb_exists in Hx. destruct Hx as (e & Hi & He').
      cbv beta in He'. rewrite (Hin e Hi) in He'. discriminate He'. }
    repeat split.
    + exact Hc.
    + rewrite !List.existsb_app, Hex. reflexivity.
    + intro Hi. exfalso. apply List.in_app_or in Hi.
      destruct Hi as [Hi|Hi]; [simpl in Hi; intuition discriminate|].
      apply List.in_app_or in Hi. destruct Hi as [Hi|[Hi|[]]]; [|discriminate Hi].
      assert (List.existsb isErrorLog t2 = true)
        by (apply List.existsb_exists; eexists; split; [exact Hi|reflexivity]).
      congruence.
    + intro Hi. exfalso. apply List.in_app_or in Hi.
      destruct Hi as [Hi|Hi]; [simpl in Hi; intuition discriminate|].
      apply List.in_app_or in Hi. destruct Hi as [Hi|[Hi|[]]]; [|discriminate Hi].
      assert (List.existsb isErrorLog t2 = true)
        by (apply List.existsb_exists; eexists; split; [exact Hi|reflexivity]).
      congruence.
    + intros _. exists o. split; auto.
Qed.

Lemma update_failure_keeps_handle_witness :
  let '(srv', t) := update (X := Sample.ext "") Sample.running Sample.cfgWarn
                      Sample.updWriteFails in
  cmd srv' = cmd Sample.running
  /\ List.existsb (fun e => isStarted e || isRelease e || isKill e) t = false.
Proof.
  pose proof (update_failure_keeps_handle (Sample.ext "") Sample.running _
                Sample.cfgWarn Sample.updWriteFails _ eq_refl eq_refl)
    as (H1 & H2 & _).
  split; [exact H1|exact H2].
Defined.

(** C3 as stated fails: after a failed write of the configuration file,
    a failed bootstrap build or a failed spawn, the current serverOptions
    are no longer those from before the invocation, and after the failed
    spawn of a run that found a persisted base id the restart epoch has
    moved as well. *)
Lemma update_failure_changes_state :
  (let '(srv', t) := update (X := Sample.ext "") Sample.running Sample.cfgWarn
                       Sample.updWriteFails in
   In logWriteFailed t /\ options srv' <> options Sample.running)
  /\ (let '(srv', t) := update (X := Sample.ext "") Sample.running
                          Sample.cfgBadAdmin (Sample.updOk None 101) in
      In logWriteFailed t /\ options srv' <> options Sample.running)
  /\ (let '(srv', t) := update (X := Sample.ext "") Sample.running Sample.cfgWarn
                          (Sample.updSpawnFails (Some 7)) in
      In logRunFailed t
      /\ options srv' <> options Sample.running
      /\ restartEpoch srv' <> restartEpoch Sample.running).
Proof.
  repeat split; try (vm_compute; tauto); try discriminate.
Qed.

(** ** Close *)

(** C4, as the code has it.  [Close] kills the current child process and
    clears the current process handle, leaving the rest of the server as
    it was; it returns the error of the kill.  There is no closed state:
    after [Close], a configuration-change notification whose projection
    differs from the current serverOptions, and whose bootstrap builds,
    is written and spawns, starts a new process and makes it current,
    with nothing to release; one whose projection equals the current
    serverOptions does nothing. *)
Theorem Close_kills_and_clears :
  forall (X : External) (srv : Server) (c : Cmd) (p : Process) (os : CloseOS),
    cmd srv = Some c ->
    Process_ c = Some p ->
    let '(srv', err, t) := Close srv os in
    srv' = set_cmd srv None
    /\ err = os_Kill os
    /\ (exists rest, t = Kill p (os_Kill os) :: rest
                     /\ List.existsb (fun e => isStarted e || isRelease e || isKill e)
                          rest = false)
    /\ (forall cfg uos o confBytes p',
           serverOptionsOf cfg = Ok o ->
           cmp_Equal (options srv) o = false ->
           buildBootstrapConfig (set_options srv' o) cfg = Ok confBytes ->
           os_WriteFile uos = None ->
           os_StderrPipe (os_run uos) = None ->
           os_StdoutPipe (os_run uos) = None ->
           os_Start (os_run uos) = Ok p' ->
           let '(srv'', t') := update srv' cfg uos in
           (exists c', In (Start c' (Ok p')) t'
                       /\ cmd srv'' = Some (mkCmd (Path c') (Args c') (Dir c')
                                              (SysProcAttr c') (Some p')))
           /\ List.existsb isRelease t' = false)
    /\ (forall cfg uos,
           serverOptionsOf cfg = Ok (options srv) ->
           update srv' cfg uos
           = (srv', [Log zerolog.DebugLevel "envoy: no config changes detected"])).
Proof.
  intros X srv c p os Hc Hp. unfold Close. rewrite Hc, Hp.
  split; [reflexivity|]. split; [reflexivity|]. split; [|split].
  - eexists. split; [reflexivity|]. destruct (os_Kill os); reflexivity.
  - intros cfg uos o bs p' Ho He Hb Hw H1 H2 H3.
    unfold update. rewrite Ho. unfold Ok.
    change (options (set_cmd srv None)) with (options srv). rewrite He.
    unfold writeConfig. unfold Ok in Hb. rewrite Hb, Hw.
    unfold run, runArgs. rewrite H1, H2, H3.
    destruct (os_readBaseID (os_run uos)); simpl.
    + split; [|reflexivity]. eexists. split.
      * repeat (first [left; reflexivity | right]).
      * reflexivity.
    + split; [|reflexivity]. eexists. split.
      * repeat (first [left; reflexivity | right]).
      * reflexivity.
  - intros cfg uos Ho. apply update_unchanged. exact Ho.
Qed.

Lemma Close_kills_and_clears_witness :
  let '(srv', err, t) := Close Sample.running (mkCloseOS None) in
  srv' = set_cmd Sample.running None
  /\ t = [Kill (mkProcess 100) None]
  /\ let '(srv'', t') := update (X := Sample.ext "") srv' Sample.cfgWarn
                           (Sample.updOk None 101) in
     (exists c', In (Start c' (Ok (mkProcess 101))) t'
                 /\ cmd srv'' = Some (mkCmd (Path c') (Args c') (Dir c')
                                        (SysProcAttr c') (Some (mkProcess 101))))
     /\ List.existsb isRelease t' = false.
Proof.
  pose proof (Close_kills_and_clears (Sample.ext "") Sample.running _ _
                (mkCloseOS None) eq_refl eq_refl) as H.
  cbn [Close Sample.running cmd Process_ Sample.oldCmd] in H |- *.
  destruct H as (H1 & _ & _ & H4 & _).
  split; [exact H1|]. split; [reflexivity|].
  exact (H4 Sample.cfgWarn (Sample.updOk None 101) _ _ _
            eq_refl eq_refl eq_refl eq_refl eq_refl eq_refl eq_refl).
Defined.

(** C4 as stated fails: the server has no terminal state.  After [Close]
    has killed process 100 and cleared the handle, the next
    configuration-change notification with new options starts
    process 101. *)
Lemma Close_is_not_terminal :
  let '(srv', t) :=
    serve (X := Sample.ext "") Sample.running
      [CloseServer (mkCloseOS None);
       ConfigChange Sample.cfgWarn (Sample.updOk None 101)] in
  (exists c pre post,
      t = (Kill (mkProcess 100) None :: pre
             ++ Start c (Ok (mkProcess 101)) :: post)%list)
  /\ exists c, cmd srv' = Some c /\ Process_ c = Some (mkProcess 101).
Proof.
  vm_compute. split.
  - eexists. eexists [_; _; _; _; _; _; _; _; _]. eexists. reflexivity.
  - eexists. split; reflexivity.
Qed.

(** ** Restart epochs *)

Lemma map_seq_from_zero :
  forall (A : Type) (n start : nat) (f : nat -> A),
    List.map f (List.seq start n)
    = List.map (fun k => f (start + k)%nat) (List.seq 0 n).
Proof.
  intros A n. induction n as [|n IH]; intros start f; [reflexivity|].
  cbn [List.seq List.map]. f_equal.
  - f_equal. lia.
  - rewrite (IH (S start) f), (IH 1%nat (fun k => f (start + k)%nat)).
    apply List.map_ext. intro k. f_equal. lia.
Qed.

Lemma epochStrings_app :
  forall e m1 m2,
    epochStrings e (m1 + m2)
    = (epochStrings e m1 ++ epochStrings (e + Z.of_nat m1) m2)%list.
Proof.
  intros e m1 m2. unfold epochStrings.
  rewrite List.seq_app, List.map_app. f_equal.
  rewrite map_seq_from_zero.
  apply List.map_ext. intro k. f_equal. lia.
Qed.

Lemma baseIDRuns_app :
  forall t1 t2, baseIDRuns (t1 ++ t2) = (baseIDRuns t1 + baseIDRuns t2)%nat.
Proof.
  intros. unfold baseIDRuns. rewrite List.filter_app. apply List.length_app.
Qed.

Lemma EpochsFrom_app :
  forall e n1 t1 e1 n2 t2 e2,
    EpochsFrom e n1 t1 e1 ->
    EpochsFrom e1 n2 t2 e2 ->
    EpochsFrom e (n1 + n2) (t1 ++ t2) e2.
Proof.
  intros e n1 t1 e1 n2 t2 e2 (Hn1 & He1 & Hb1 & Hs1) (Hn2 & He2 & Hb2 & Hs2).
  unfold EpochsFrom. rewrite baseIDRuns_app. repeat split.
  - lia.
  - lia.
  - unfold epochsBuilt in *. rewrite List.flat_map_app, Hb1, Hb2.
    rewrite epochStrings_app. now rewrite <- He1.
  - rewrite List.existsb_app. intro Hf. apply orb_false_iff in Hf.
    destruct Hf as [Hf1 Hf2].
    unfold epochsSpawned, epochsBuilt in *. rewrite !List.flat_map_app.
    now rewrite Hs1, Hs2.
Qed.

Lemma EpochsFrom_quiet :
  forall e t,
    baseIDRuns t = 0%nat -> epochsBuilt t = [] -> epochsSpawned t = [] ->
    EpochsFrom e 0 t e.
Proof.
  intros e t H1 H2 H3. unfold EpochsFrom. rewrite H1, H2, H3.
  repeat split; auto. lia.
Qed.

Section Epochs.

Context {X : External}.

Lemma runArgs_epoch :
  forall srv b,
    restartEpochArg (fst (runArgs srv b))
    = match b with
      | Some _ => Some (strconv.Itoa (restartEpoch srv))
      | None => None
      end
    /\ restartEpoch (snd (runArgs srv b))
       = match b with
         | Some _ => int64 (restartEpoch srv + 1)
         | None => restartEpoch srv
         end
    /\ envoyPath (snd (runArgs srv b)) = envoyPath srv.
Proof. intros srv [b|]; repeat split. Qed.

Lemma releasePrevious_quiet :
  forall srv os,
    baseIDRuns (releasePrevious srv os) = 0%nat
    /\ epochsBuilt (releasePrevious srv os) = []
    /\ epochsSpawned (releasePrevious srv os) = []
    /\ List.existsb isRunFailure (releasePrevious srv os) = false.
Proof.
  intros srv os. unfold releasePrevious.
  destruct (cmd srv) as [old|]; [|repeat split].
  destruct (Process_ old); [|repeat split].
  destruct (os_Release os); repeat split.
Qed.

(** One run: a base id found uses up the current epoch. *)
Lemma run_epochs :
  forall srv os,
    -2 ^ 63 <= restartEpoch srv + 1 < 2 ^ 63 ->
    EpochsFrom (restartEpoch srv) 1 (snd (run srv os))
               (restartEpoch (fst (fst (run srv os)))).
Proof.
  intros srv os Hrange. unfold run.
  destruct (runArgs_epoch srv (os_readBaseID os)) as (Ha & He & _).
  destruct (runArgs srv (os_readBaseID os)) as [args srv1].
  cbn [fst snd] in Ha, He.
  assert (Hi : int64 (restartEpoch srv + 1) = restartEpoch srv + 1).
  { unfold int64. rewrite Z.mod_small; lia. }
  rewrite Hi in He. clear Hi.
  destruct (releasePrevious_quiet srv1 os) as (R1 & R2 & R3 & R4).
  unfold EpochsFrom.
  destruct (os_StderrPipe os) as [e1|];
    [|destruct (os_StdoutPipe os) as [e2|];
      [|destruct (os_Start os) as [e3|p]]];
    cbn [fst snd]; unfold restartEpoch at 1;
    rewrite ?baseIDRuns_app, ?R1;
    unfold epochsBuilt, epochsSpawned;
    rewrite ?List.flat_map_app, ?List.existsb_app;
    fold (epochsBuilt (releasePrevious srv1 os));
    fold (epochsSpawned (releasePrevious srv1 os));
    rewrite ?R2, ?R3, ?R4;
    destruct (os_readBaseID os) as [b|]; cbn; rewrite ?Ha; cbn;
    rewrite ?Z.add_0_r; repeat split; auto; try lia; try discriminate.
Qed.

Lemma update_epochs :
  forall srv cfg os,
    -2 ^ 63 <= restartEpoch srv + 1 < 2 ^ 63 ->
    EpochsFrom (restartEpoch srv) 1 (snd (update srv cfg os))
               (restartEpoch (fst (update srv cfg os))).
Proof.
  intros srv cfg os Hrange.
  assert (Hq : forall t, baseIDRuns t = 0%nat -> epochsBuilt t = [] ->
                         epochsSpawned t = [] ->
                         EpochsFrom (restartEpoch srv) 1 t (restartEpoch srv)).
  { intros t H1 H2 H3.
    pose proof (EpochsFrom_quiet (restartEpoch srv) t H1 H2 H3) as (A & B & C & D).
    repeat split; auto; lia. }
  destruct (update_path srv cfg os)
    as [e Ho|o Ho He|o e Ho He Hb|o bs e Ho He Hb Hw
       |o bs srv2 err t2 Ho He Hb Hw Hr]; try (apply Hq; reflexivity).
  pose proof (run_epochs (set_options srv o) (os_run os) Hrange) as Hrun.
  rewrite Hr in Hrun. cbn [fst snd] in Hrun.
  change (restartEpoch (set_options srv o)) with (restartEpoch srv) in Hrun.
  apply (EpochsFrom_app _ 0 _ (restartEpoch srv) 1).
  { apply EpochsFrom_quiet; reflexivity. }
  replace 1%nat with (1 + 0)%nat by reflexivity.
  eapply EpochsFrom_app; [exact Hrun|].
  destruct err; apply EpochsFrom_quiet; reflexivity.
Qed.

Lemma step_epochs :
  forall srv op,
    -2 ^ 63 <= restartEpoch srv + 1 < 2 ^ 63 ->
    EpochsFrom (restartEpoch srv) 1 (snd (step srv op))
               (restartEpoch (fst (step srv op))).
Proof.
  intros srv [cfg os|os] Hrange.
  - apply update_epochs. exact Hrange.
  - unfold step, Close.
    destruct (cmd srv) as [c|]; [destruct (Process_ c)|];
      [destruct (os_Kill os)| |]; cbn [fst snd];
      (pose proof (EpochsFrom_quiet (restartEpoch srv)) as Q;
       unfold EpochsFrom in *; cbn; repeat split; auto; lia).
Qed.

Lemma EpochsFrom_range :
  forall e n t e', EpochsFrom e n t e' -> e <= e' <= e + Z.of_nat n.
Proof. intros e n t e' (H1 & H2 & _). lia. Qed.

Lemma serve_epochs :
  forall ops srv,
    0 <= restartEpoch srv ->
    restartEpoch srv + Z.of_nat (List.length ops) < 2 ^ 63 ->
    EpochsFrom (restartEpoch srv) (List.length ops) (snd (serve srv ops))
               (restartEpoch (fst (serve srv ops))).
Proof.
  induction ops as [|op ops IH]; intros srv H0 Hn.
  - apply EpochsFrom_quiet; reflexivity.
  - cbn [serve].
    assert (Hs : -2 ^ 63 <= restartEpoch srv + 1 < 2 ^ 63)
      by (cbn [List.length] in Hn; lia).
    pose proof (step_epochs srv op Hs) as H1.
    pose proof (EpochsFrom_range _ _ _ _ H1) as Hr.
    destruct (step srv op) as [srv1 t1]. cbn [fst snd] in H1, Hr.
    assert (H2 : EpochsFrom (restartEpoch srv1) (List.length ops)
                            (snd (serve srv1 ops))
                            (restartEpoch (fst (serve srv1 ops)))).
    { apply IH; cbn [List.length] in Hn; lia. }
    destruct (serve srv1 ops) as [srv2 t2]. cbn [fst snd] in H2 |- *.
    change (List.length (op :: ops)) with (1 + List.length ops)%nat.
    eapply EpochsFrom_app; eauto.
Qed.

End Epochs.

Lemma Quiet_app : forall t1 t2, Quiet t1 -> Quiet t2 -> Quiet (t1 ++ t2).
Proof.
  intros t1 t2 (A1 & B1 & C1) (A2 & B2 & C2). unfold Quiet.
  rewrite baseIDRuns_app. unfold epochsBuilt, epochsSpawned in *.
  rewrite !List.flat_map_app, A1, A2, B1, B2, C1, C2. repeat split.
Qed.

Lemma EpochsFrom_Quiet_l :
  forall e n t1 t2 e',
    Quiet t1 -> EpochsFrom e n t2 e' -> EpochsFrom e n (t1 ++ t2) e'.
Proof.
  intros e n t1 t2 e' (A & B & C) H.
  change n with (0 + n)%nat. eapply EpochsFrom_app; [|exact H].
  apply EpochsFrom_quiet; assumption.
Qed.

Lemma EpochsFrom_Quiet_r :
  forall e n t1 t2 e',
    EpochsFrom e n t1 e' -> Quiet t2 -> EpochsFrom e n (t1 ++ t2) e'.
Proof.
  intros e n t1 t2 e' H (A & B & C).
  replace n with (n + 0)%nat by lia. eapply EpochsFrom_app; [exact H|].
  apply EpochsFrom_quiet; assumption.
Qed.

Lemma Quiet_EpochsFrom : forall e n t, Quiet t -> EpochsFrom e n t e.
Proof.
  intros e n t (A & B & C).
  destruct (EpochsFrom_quiet e t A B C) as (H1 & H2 & H3 & H4).
  repeat split; auto. lia.
Qed.

Section LifetimeEpochs.

Context {X : External}.

Lemma NewServer_epochs :
  forall os cfg grpcPort httpPort,
    EpochsFrom 0 1 (snd (NewServer os cfg grpcPort httpPort))
      match fst (NewServer os cfg grpcPort httpPort) with
      | inl _ => 0
      | inr srv => restartEpoch srv
      end.
Proof.
  intros os cfg gp hp. unfold NewServer.
  destruct (os_MkdirAll os);
    [apply Quiet_EpochsFrom; repeat split|].
  set (name := match os_extractEmbeddedEnvoy os with
               | inr path => (path, _)
               | inl err => ("envoy", _)
               end).
  assert (Hname : Quiet (snd name))
    by (subst name; destruct (os_extractEmbeddedEnvoy os); repeat split).
  destruct name as [envoyPath t0]. cbn [snd] in Hname.
  destruct (os_LookPath os envoyPath) as [e|full].
  { cbn [fst snd]. apply Quiet_EpochsFrom.
    apply Quiet_app; [exact Hname|repeat split]. }
  set (t1 := (t0 ++ [LookPath envoyPath (inr full)])%list).
  assert (Ht1 : Quiet t1) by (apply Quiet_app; [exact Hname|repeat split]).
  clearbody t1.
  set (verified := if negb (Checksum =? "")%string then _ else _).
  assert (Hv : Quiet (snd verified)).
  { subst verified. destruct (negb (Checksum =? "")%string).
    - destruct (os_ReadFile os full) as [e|bs].
      + apply Quiet_app; [exact Ht1|repeat split].
      + destruct (negb (Checksum =? _)%string);
          (apply Quiet_app; [exact Ht1|repeat split]).
    - apply Quiet_app; [exact Ht1|repeat split]. }
  destruct verified as [[e|u] t2]; cbn [snd] in Hv.
  { cbn [fst snd]. apply Quiet_EpochsFrom. exact Hv. }
  set (srv0 := mkServer _ None gp hp envoyPath 0 _).
  pose proof (update_epochs srv0 cfg (os_update os)) as Hu.
  unfold onConfigChange.
  destruct (update srv0 cfg (os_update os)) as [srv1 tu].
  cbn [fst snd] in Hu |- *.
  apply EpochsFrom_Quiet_l.
  { apply Quiet_app; [exact Hv|repeat split]. }
  apply EpochsFrom_Quiet_r; [|repeat split].
  apply Hu. cbn. lia.
Qed.

Lemma lifetime_epochs :
  forall os cfg grpcPort httpPort ops,
    Z.of_nat (List.length ops) + 1 < 2 ^ 63 ->
    exists e',
      EpochsFrom 0 (1 + List.length ops)
        (lifetime os cfg grpcPort httpPort ops) e'.
Proof.
  intros os cfg gp hp ops Hn. unfold lifetime.
  pose proof (NewServer_epochs os cfg gp hp) as H1.
  pose proof (EpochsFrom_range _ _ _ _ H1) as Hr.
  destruct (NewServer os cfg gp hp) as [[e|srv] t]; cbn [fst snd] in H1, Hr.
  - exists 0. destruct H1 as (A & B & C & D). repeat split; auto. lia.
  - pose proof (serve_epochs ops srv) as H2.
    exists (restartEpoch (fst (serve srv ops))).
    eapply EpochsFrom_app; [exact H1|]. apply H2; lia.
Qed.

End LifetimeEpochs.

(** C5, as the code has it.  In one Server lifetime, the runs in which a
    persisted base id is found put the epochs 0, 1, 2, ... on their
    command lines, one more on each such run, whether or not the run
    goes on to start its child; when no run of the lifetime fails, these
    are the epochs passed to the children started, so that the epoch
    starts at 0 and grows by exactly 1 from one successful run to the
    next.  When no persisted base id is found, the child is started with
    --use-dynamic-base-id and --base-id-path instead, without a
    --restart-epoch argument, and the epoch is left as it is. *)
Theorem restart_epoch_counts_runs_with_base_id :
  forall (X : External) (os : NewServerOS) (cfg : Config)
         (grpcPort httpPort : string) (ops : list Op),
    Z.of_nat (List.length ops) + 1 < 2 ^ 63 ->
    let t := lifetime os cfg grpcPort httpPort ops in
    epochsBuilt t = epochStrings 0 (baseIDRuns t)
    /\ (List.existsb isRunFailure t = false ->
        epochsSpawned t = epochStrings 0 (baseIDRuns t))
    /\ (forall srv ros,
           os_readBaseID ros = None ->
           let '(srv', _, t') := run srv ros in
           let args := ["-c"; configFileName;
                        "--log-level"; logLevel (options srv);
                        "--log-format"; "[LOG_FORMAT]%l--%n--%v";
                        "--log-format-escaped";
                        "--use-dynamic-base-id"; "--base-id-path"; baseIDPath] in
           restartEpoch srv' = restartEpoch srv
           /\ restartEpochArg args = None
           /\ forall c r, In (Start c r) t' -> Args c = envoyPath srv :: args).
Proof.
  intros X os cfg gp hp ops Hn t.
  destruct (lifetime_epochs os cfg gp hp ops Hn) as (e' & _ & _ & Hb & Hs).
  fold t in Hb, Hs. split; [exact Hb|]. split.
  - intro Hf. rewrite (Hs Hf). exact Hb.
  - intros srv ros Hid. unfold run, runArgs. rewrite Hid.
    destruct (os_StderrPipe ros) as [e1|];
      [|destruct (os_StdoutPipe ros) as [e2|];
        [|destruct (os_Start ros) as [e3|p]]];
      (split; [reflexivity|]; split; [reflexivity|]);
      intros c r Hin; simpl in Hin;
      repeat (destruct Hin as [Hin|Hin]; try discriminate Hin);
      try (injection Hin as <- _; reflexivity); try (destruct Hin; fail).
    exfalso. unfold releasePrevious in Hin. cbn [cmd] in Hin.
    destruct (cmd srv) as [old|]; [|destruct Hin].
    destruct (Process_ old); [|destruct Hin].
    destruct (os_Release ros); simpl in Hin; intuition discriminate.
Qed.

Lemma restart_epoch_counts_runs_with_base_id_witness :
  let t := lifetime (X := Sample.ext "")
             (Sample.newServerOS "envoy binary" (Sample.updOk (Some 7) 100))
             Sample.cfgInfo "5443" "443"
             [ConfigChange Sample.cfgWarn (Sample.updOk (Some 7) 101);
              ConfigChange Sample.cfgInfo (Sample.updOk (Some 7) 102)] in
  epochsBuilt t = ["0"; "1"; "2"] /\ epochsSpawned t = ["0"; "1"; "2"].
Proof.
  assert (Hn : Z.of_nat (List.length
                 [ConfigChange Sample.cfgWarn (Sample.updOk (Some 7) 101);
                  ConfigChange Sample.cfgInfo (Sample.updOk (Some 7) 102)]) + 1
               < 2 ^ 63) by (simpl; lia).
  destruct (restart_epoch_counts_runs_with_base_id (Sample.ext "")
              (Sample.newServerOS "envoy binary" (Sample.updOk (Some 7) 100))
              Sample.cfgInfo "5443" "443" _ Hn) as (H1 & H2 & _).
  split; [exact H1|exact (H2 eq_refl)].
Defined.

(** C5 as stated fails: the first run of this lifetime finds the base id
    7 and fails to spawn; the second run finds it too and is the first
    successful one, and its child is given --restart-epoch 1. *)
Lemma first_successful_epoch_not_zero :
  let t := lifetime (X := Sample.ext "")
             (Sample.newServerOS "envoy binary" (Sample.updSpawnFails (Some 7)))
             Sample.cfgInfo "5443" "443"
             [ConfigChange Sample.cfgWarn (Sample.updOk (Some 7) 101)] in
  List.length (List.filter isStarted t) = 1%nat
  /\ epochsSpawned t = ["1"]
  /\ epochsSpawned t <> ["0"].
Proof. vm_compute. repeat split. discriminate. Qed.

(** ** The checksum of the binary *)

Ltac destruct_scrutinee :=
  match goal with
  | |- context [match ?x with _ => _ end] => destruct x eqn:?
  end.

Section ChecksumFacts.

Context {X : External}.

(** A construction that fails registers no callback and starts nothing. *)
Lemma NewServer_error_quiet :
  forall os cfg grpcPort httpPort,
    isOk (fst (NewServer os cfg grpcPort httpPort)) = false ->
    spawns (snd (NewServer os cfg grpcPort httpPort)) = 0%nat
    /\ ~ In OnConfigChange (snd (NewServer os cfg grpcPort httpPort)).
Proof.
  intros os cfg gp hp. unfold NewServer, onConfigChange.
  destruct (os_MkdirAll os);
    [|destruct (os_extractEmbeddedEnvoy os);
      match goal with
      | |- context [os_LookPath os ?n] => destruct (os_LookPath os n) as [?|full]
      end;
      [|destruct (negb (Checksum =? "")%string);
        [destruct (os_ReadFile os full) as [?|bs];
         [|destruct (negb (Checksum =? hex.EncodeToString (sha256.Sum bs))%string)]
        |]
       | |destruct (negb (Checksum =? "")%string);
        [destruct (os_ReadFile os full) as [?|bs];
         [|destruct (negb (Checksum =? hex.EncodeToString (sha256.Sum bs))%string)]
        |]]];
    repeat destruct_scrutinee; cbn [fst snd isOk]; intro H;
    try discriminate H;
    (split; [reflexivity|intro Hin; simpl in Hin; intuition discriminate]).
Qed.

Lemma update_no_ReadFile :
  forall srv cfg os, List.existsb isReadFile (snd (update srv cfg os)) = false.
Proof.
  intros srv cfg os.
  destruct (update_path srv cfg os); try reflexivity.
  cbn [List.app List.existsb isReadFile orb]. rewrite List.existsb_app.
  replace (List.existsb isReadFile t) with false; [destruct err; reflexivity|].
  symmetry. unfold run in H3. revert H3.
  repeat destruct_scrutinee; intro H3; injection H3 as <- <- <-;
    rewrite ?List.existsb_app; unfold releasePrevious;
    repeat destruct_scrutinee; reflexivity.
Qed.

End ChecksumFacts.

(** C6.  With a non-empty trusted checksum and a binary whose SHA-256 hex
    digest differs from it, [NewServer] returns an error (the mismatch,
    when the binary was found and read), and in the whole lifetime the
    callback is never registered and no child process is ever spawned.
    With no checksum configured, construction goes on with the log
    message only: the binary is not read, and a server is returned
    whenever the working directory could be made and the binary found. *)
Theorem NewServer_checksum :
  forall (X : External) (os : NewServerOS) (cfg : Config)
         (grpcPort httpPort : string),
    (Checksum <> "" ->
     (forall full bs,
         os_LookPath os (resolvedName os) = Ok full ->
         os_ReadFile os full = Ok bs ->
         hex.EncodeToString (sha256.Sum bs) <> Checksum) ->
     isOk (fst (NewServer os cfg grpcPort httpPort)) = false
     /\ (forall full bs,
            os_MkdirAll os = None ->
            os_LookPath os (resolvedName os) = Ok full ->
            os_ReadFile os full = Ok bs ->
            fst (NewServer os cfg grpcPort httpPort)
            = Err ("invalid envoy binary, expected " ++ Checksum ++ " but got "
                   ++ hex.EncodeToString (sha256.Sum bs))%string)
     /\ forall ops,
         spawns (lifetime os cfg grpcPort httpPort ops) = 0%nat
         /\ ~ In OnConfigChange (lifetime os cfg grpcPort httpPort ops))
    /\ (Checksum = "" ->
        forall full,
          os_MkdirAll os = None ->
          os_LookPath os (resolvedName os) = Ok full ->
          exists srv t,
            NewServer os cfg grpcPort httpPort = (Ok srv, t)
            /\ In logNoChecksum t
            /\ List.existsb isReadFile t = false).
Proof.
  intros X os cfg gp hp. split.
  - intros Hc Hbad.
    assert (Hne : negb (Checksum =? "")%string = true).
    { destruct (String.eqb_spec Checksum ""); [contradiction|reflexivity]. }
    assert (Hmis : forall bs, hex.EncodeToString (sha256.Sum bs) <> Checksum ->
                   negb (Checksum =? hex.EncodeToString (sha256.Sum bs))%string
                   = true).
    { intros bs Hd.
      destruct (String.eqb_spec Checksum (hex.EncodeToString (sha256.Sum bs)));
        [congruence|reflexivity]. }
    assert (Herr : isOk (fst (NewServer os cfg gp hp)) = false
                   /\ forall full bs,
                       os_MkdirAll os = None ->
                       os_LookPath os (resolvedName os) = Ok full ->
                       os_ReadFile os full = Ok bs ->
                       fst (NewServer os cfg gp hp)
                       = Err ("invalid envoy binary, expected " ++ Checksum
                              ++ " but got "
                              ++ hex.EncodeToString (sha256.Sum bs))%string).
    { unfold NewServer, resolvedName in *. rewrite Hne.
      destruct (os_MkdirAll os) as [e0|];
        [split; [reflexivity|intros ? ? H; discriminate H]|].
      destruct (os_extractEmbeddedEnvoy os) as [e1|path].
      - destruct (os_LookPath os "envoy") as [e2|full] eqn:Hl;
          [split; [reflexivity|intros ? ? _ H; discriminate H]|].
        destruct (os_ReadFile os full) as [e3|bs] eqn:Hr.
        + split; [reflexivity|].
          intros f b _ Hf Hb. injection Hf as <-. rewrite Hr in Hb.
          discriminate Hb.
        + rewrite (Hmis bs (Hbad full bs eq_refl Hr)).
          split; [reflexivity|].
          intros f b _ Hf Hb. injection Hf as <-. rewrite Hr in Hb.
          injection Hb as <-. reflexivity.
      - destruct (os_LookPath os path) as [e2|full] eqn:Hl;
          [split; [reflexivity|intros ? ? _ H; discriminate H]|].
        destruct (os_ReadFile os full) as [e3|bs] eqn:Hr.
        + split; [reflexivity|].
          intros f b _ Hf Hb. injection Hf as <-. rewrite Hr in Hb.
          discriminate Hb.
        + rewrite (Hmis bs (Hbad full bs eq_refl Hr)).
          split; [reflexivity|].
          intros f b _ Hf Hb. injection Hf as <-. rewrite Hr in Hb.
          injection Hb as <-. reflexivity. }
    destruct Herr as [Hfail Hmsg]. split; [exact Hfail|]. split; [exact Hmsg|].
    intro ops. pose proof (NewServer_error_quiet os cfg gp hp Hfail) as Hq.
    unfold lifetime.
    destruct (NewServer os cfg gp hp) as [[e|srv] t];
      [exact Hq|discriminate Hfail].
  - intros Hc full Hm Hl.
    unfold NewServer, resolvedName in *. rewrite Hm, Hc. cbn [String.eqb negb].
    destruct (os_extractEmbeddedEnvoy os) as [e1|path]; rewrite Hl;
      unfold onConfigChange;
      match goal with
      | |- context [update ?s cfg (os_update os)] =>
          pose proof (update_no_ReadFile s cfg (os_update os)) as P;
          destruct (update s cfg (os_update os)) as [srv1 tu]
      end;
      cbn [snd] in P; eexists; eexists; (split; [reflexivity|]);
      (split; [simpl; repeat (first [left; reflexivity | right])|]);
      rewrite !List.existsb_app, P; reflexivity.
Qed.

Lemma NewServer_checksum_witness :
  isOk (fst (NewServer
               (X := Sample.ext "e3b0c44298fc1c149afbf4c8996fb92427ae41e4649b934ca495991b7852b855")
               (Sample.newServerOS "not the envoy binary" (Sample.updOk None 100))
               Sample.cfgInfo "5443" "443")) = false
  /\ exists srv t,
      NewServer (X := Sample.ext "")
        (Sample.newServerOS "not the envoy binary" (Sample.updOk None 100))
        Sample.cfgInfo "5443" "443" = (Ok srv, t)
      /\ In logNoChecksum t
      /\ List.existsb isReadFile t = false.
Proof.
  split.
  - refine (proj1 (proj1 (NewServer_checksum
                            (Sample.ext "e3b0c44298fc1c149afbf4c8996fb92427ae41e4649b934ca495991b7852b855")
                            (Sample.newServerOS "not the envoy binary"
                               (Sample.updOk None 100))
                            Sample.cfgInfo "5443" "443") _ _)).
    + discriminate.
    + intros full bs _ Hr. injection Hr as <-. vm_compute. discriminate.
  - exact (proj2 (NewServer_checksum (Sample.ext "")
                    (Sample.newServerOS "not the envoy binary"
                       (Sample.updOk None 100))
                    Sample.cfgInfo "5443" "443")
             eq_refl "/tmp/pomerium-embedded/envoy" eq_refl eq_refl).
Defined.

(** ** The bootstrap document *)

Lemma parseUintLoop_range :
  forall bitSize s n r,
    0 <= n <= 2 ^ bitSize - 1 ->
    strconv.parseUintLoop bitSize s n = Ok r ->
    0 <= r <= 2 ^ bitSize - 1.
Proof.
  intros bitSize s. induction s as [|c t IH]; intros n r Hn H; simpl in H.
  - injection H as <-. exact Hn.
  - destruct (strconv.isDigit c); [|discriminate H].
    destruct (_ <=? n); [discriminate H|].
    destruct (_ || _)%bool eqn:Hc; [discriminate H|].
    apply orb_false_iff in Hc. destruct Hc as [_ Hc].
    apply Z.ltb_ge in Hc.
    eapply IH; [|exact H]. split; [|exact Hc].
    apply Z.mod_pos_bound. reflexivity.
Qed.

Lemma ParseUint32_range :
  forall s r, strconv.ParseUint s 32 = Ok r -> 0 <= r < 2 ^ 32.
Proof.
  intros s r H. unfold strconv.ParseUint in H.
  destruct s as [|c t]; [discriminate H|].
  apply parseUintLoop_range in H; lia.
Qed.

Section BuilderFacts.

Context {X : External}.

(** The document is built exactly when the admin address and the
    control-plane port parse. *)
Lemma bootstrap_ok :
  forall srv cfg,
    isOk (bootstrap srv cfg)
    = isOk (ParseAddress (EnvoyAdminAddress (Options_ cfg)))
      && isOk (strconv.Atoi (grpcPort srv)).
Proof.
  intros srv cfg. unfold bootstrap.
  destruct (ParseAddress _); [reflexivity|].
  destruct (strconv.Atoi _); reflexivity.
Qed.

Lemma bootstrap_clusters :
  forall srv cfg bcfg,
    bootstrap srv cfg = Ok bcfg ->
    exists port,
      strconv.Atoi (grpcPort srv) = Ok port
      /\ Clusters (StaticResources_ bcfg)
         = (controlPlaneCluster port
              :: if String.eqb (Provider (tracingOptions (options srv)))
                               DatadogTracingProviderName
                 then [datadogCluster (DatadogAddress (tracingOptions (options srv)))]
                 else []).
Proof.
  intros srv cfg bcfg H. unfold bootstrap in H.
  destruct (ParseAddress _); [discriminate H|].
  destruct (strconv.Atoi _) as [e|port]; [discriminate H|].
  exists port. split; [reflexivity|]. injection H as <-. simpl.
  destruct (String.eqb _ _); reflexivity.
Qed.

End BuilderFacts.

(** C9.  For a grpcPort that [strconv.Atoi] parses to an integer [n],
    possibly negative, [buildBootstrapConfig] never returns the
    invalid-control-plane-port error, and the port of the control-plane
    endpoint of the document is [n] modulo 2^32: the string -1 gives
    4294967295.  The invalid-control-plane-port error is returned only
    for a string [Atoi] fails on. *)
Theorem control_plane_port_is_wrapped :
  forall (X : External) (srv : Server) (cfg : Config),
    (forall n,
        strconv.Atoi (grpcPort srv) = Ok n ->
        (forall e, buildBootstrapConfig srv cfg <> Err (InvalidControlPlanePort e))
        /\ (forall e, bootstrap srv cfg <> Err (InvalidControlPlanePort e))
        /\ (forall adminAddr,
               ParseAddress (EnvoyAdminAddress (Options_ cfg)) = Ok adminAddr ->
               exists bcfg,
                 bootstrap srv cfg = Ok bcfg
                 /\ controlPlanePortOf bcfg = Some (n mod 2 ^ 32)
                 /\ 0 <= n mod 2 ^ 32 < 2 ^ 32))
    /\ (grpcPort srv = "-1" ->
        forall bcfg, bootstrap srv cfg = Ok bcfg ->
                     controlPlanePortOf bcfg = Some 4294967295)
    /\ (forall e,
           buildBootstrapConfig srv cfg = Err (InvalidControlPlanePort e) ->
           strconv.Atoi (grpcPort srv) = Err e).
Proof.
  intros X srv cfg. split; [|split].
  - intros n Hn. unfold buildBootstrapConfig, bootstrap.
    unfold Ok in Hn. rewrite Hn.
    destruct (ParseAddress _) as [e0|a]; cbv beta iota delta [Ok];
      repeat split; try discriminate.
    + intro e.
      match goal with |- context [Marshal ?b] => destruct (Marshal b) end;
        discriminate.
    + intros a' Ha. injection Ha as <-. eexists. split; [reflexivity|].
      split; [|apply Z.mod_pos_bound; lia].
      unfold controlPlanePortOf. cbn [StaticResources_ Clusters].
      destruct (String.eqb _ _); reflexivity.
  - intros Hp bcfg H. unfold bootstrap in H. rewrite Hp in H.
    destruct (ParseAddress _); [discriminate H|].
    change (strconv.Atoi "-1") with (@inr strconv.NumErr Z (-1)) in H.
    cbv iota in H. injection H as <-.
    unfold controlPlanePortOf. cbn [StaticResources_ Clusters].
    destruct (String.eqb _ _); reflexivity.
  - intros e H. unfold buildBootstrapConfig, bootstrap in H.
    destruct (ParseAddress _); [discriminate H|].
    destruct (strconv.Atoi _) as [e'|n]; cbv beta iota delta [Ok] in H.
    + injection H as <-. reflexivity.
    + match type of H with context [Marshal ?b] => destruct (Marshal b) end;
        discriminate H.
Qed.

Lemma control_plane_port_is_wrapped_witness :
  exists bcfg,
    bootstrap (X := Sample.ext "")
      (mkServer "/tmp/.pomerium-envoy" None "-1" "443" "envoy" 0 Sample.optionsInfo)
      Sample.cfgInfo = Ok bcfg
    /\ controlPlanePortOf bcfg = Some 4294967295.
Proof.
  destruct (control_plane_port_is_wrapped (Sample.ext "")
              (mkServer "/tmp/.pomerium-envoy" None "-1" "443" "envoy" 0
                 Sample.optionsInfo)
              Sample.cfgInfo) as (H1 & H2 & _).
  destruct (H1 (-1) eq_refl) as (_ & _ & H3).
  destruct (H3 _ eq_refl) as (bcfg & Hb & _).
  exists bcfg. split; [exact Hb|]. exact (H2 eq_refl bcfg Hb).
Defined.

(** C8, as the code has it.  When the tracing provider is the Datadog
    one, the static resources of the document hold exactly two clusters,
    the control-plane cluster and the collector cluster; for any other
    provider, exactly the control-plane cluster.  The collector is at
    127.0.0.1:8126 when the DatadogAddress override is empty or does not
    split into host and port; at the host and port of the override when
    it splits and its port is a decimal uint32; and at the host of the
    override with the default port 8126 when it splits but its port is
    not one.  The override never makes the build fail. *)
Theorem static_clusters_by_provider :
  forall (X : External) (srv : Server) (cfg : Config) (bcfg : Bootstrap),
    bootstrap srv cfg = Ok bcfg ->
    let tracing := tracingOptions (options srv) in
    let override := DatadogAddress tracing in
    (exists port, strconv.Atoi (grpcPort srv) = Ok port
       /\ (Provider tracing = DatadogTracingProviderName ->
           Clusters (StaticResources_ bcfg)
           = [controlPlaneCluster port; datadogCluster override]
           /\ List.length (Clusters (StaticResources_ bcfg)) = 2%nat)
       /\ (Provider tracing <> DatadogTracingProviderName ->
           Clusters (StaticResources_ bcfg) = [controlPlaneCluster port]
           /\ List.length (Clusters (StaticResources_ bcfg)) = 1%nat))
    /\ clusterAddress (datadogCluster override)
       = Some (Address_SocketAddress (datadogAddr override))
    /\ (override = "" -> datadogAddr override = mkSocketAddress "127.0.0.1" 8126)
    /\ (forall e, net.SplitHostPort override = Err e ->
                  datadogAddr override = mkSocketAddress "127.0.0.1" 8126)
    /\ (forall a p pv,
           override <> "" ->
           net.SplitHostPort override = Ok (a, p) ->
           strconv.ParseUint p 32 = Ok pv ->
           datadogAddr override = mkSocketAddress a pv /\ 0 <= pv < 2 ^ 32)
    /\ (forall a p e,
           override <> "" ->
           net.SplitHostPort override = Ok (a, p) ->
           strconv.ParseUint p 32 = Err e ->
           datadogAddr override = mkSocketAddress a 8126)
    /\ (forall tracing',
           isOk (bootstrap (set_options srv
                   (mkServerOptions (services (options srv))
                      (logLevel (options srv)) tracing')) cfg) = true).
Proof.
  intros X srv cfg bcfg H tracing override.
  split; [|split; [reflexivity|]].
  - destruct (bootstrap_clusters srv cfg bcfg H) as (port & Hp & Hc).
    exists port. split; [exact Hp|]. fold tracing override in Hc. split.
    + intro Hd. rewrite Hd, String.eqb_refl in Hc. rewrite Hc. split; reflexivity.
    + intro Hd. destruct (String.eqb_spec (Provider tracing) DatadogTracingProviderName);
        [contradiction|]. rewrite Hc. split; reflexivity.
  - repeat split.
    + intro He. unfold datadogAddr. rewrite He. reflexivity.
    + intros e He. unfold datadogAddr.
      destruct (negb _); [|reflexivity]. unfold Err in He. now rewrite He.
    + unfold datadogAddr.
      destruct (String.eqb_spec override ""); [contradiction|].
      unfold Ok in *. rewrite H1, H2. cbn.
      unfold uint32. rewrite Z.mod_small; [reflexivity|].
      apply ParseUint32_range in H2. exact H2.
    + apply ParseUint32_range in H2. lia.
    + apply ParseUint32_range in H2. lia.
    + intros a p e Hne Hs Hp. unfold datadogAddr.
      destruct (String.eqb_spec override ""); [contradiction|].
      unfold Ok, Err in *. rewrite Hs, Hp. reflexivity.
    + intro tracing'. rewrite bootstrap_ok.
      pose proof (bootstrap_ok srv cfg) as Hk. rewrite H in Hk.
      symmetry. exact Hk.
Qed.

Lemma static_clusters_by_provider_witness :
  exists bcfg,
    bootstrap (X := Sample.ext "") (Sample.datadogServer "collector:9000") Sample.cfgInfo
    = Ok bcfg
    /\ List.map Name (Clusters (StaticResources_ bcfg))
       = ["pomerium-control-plane-grpc"; "datadog-apm"]
    /\ datadogAddr "collector:9000" = mkSocketAddress "collector" 9000.
Proof.
  eexists. split; [reflexivity|].
  destruct (static_clusters_by_provider (Sample.ext "")
              (Sample.datadogServer "collector:9000") Sample.cfgInfo _ eq_refl)
    as ((port & _ & Hd & _) & _ & _ & _ & Ha & _).
  split.
  - destruct (Hd eq_refl) as [Hc _]. reflexivity.
  - destruct (Ha "collector" "9000" 9000) as [Hx _];
      [discriminate|reflexivity|reflexivity|exact Hx].
Defined.

(** C8 as stated fails on a malformed override: with the DatadogAddress
    myhost:abc, whose port is not a number, the override is not ignored
    in favour of the default: the collector cluster points at myhost,
    port 8126. *)
Lemma malformed_override_keeps_host :
  net.SplitHostPort "myhost:abc" = Ok ("myhost", "abc")
  /\ strconv.ParseUint "abc" 32 = Err strconv.ErrSyntax
  /\ (exists bcfg,
         bootstrap (X := Sample.ext "") (Sample.datadogServer "myhost:abc") Sample.cfgInfo
         = Ok bcfg
         /\ List.map clusterAddress (Clusters (StaticResources_ bcfg))
            = [Some (Address_SocketAddress (mkSocketAddress "127.0.0.1" 5443));
               Some (Address_SocketAddress (mkSocketAddress "myhost" 8126))])
  /\ datadogAddr "myhost:abc" <> mkSocketAddress "127.0.0.1" 8126.
Proof.
  repeat split.
  - eexists. split; reflexivity.
  - vm_compute. discriminate.
Qed.

(** ** The log relay *)

Lemma handleLine_eq :
  forall ln,
    handleLine ln
    = let '(name, logLevel, _) := parseLog ln in
      if String.eqb (finalMessage ln) "" then None
      else Some (mkLogRecord (levelOf logLevel) "envoy"
                   (if String.eqb name "" then "envoy" else name)
                   (finalMessage ln)).
Proof.
  intro ln. unfold handleLine, finalMessage, postProcess, levelOf.
  destruct (parseLog ln) as [[name lvl] msg]. reflexivity.
Qed.

(** *** Strings *)

Lemma lastByte_app_str1 :
  forall s c, lastByte (s ++ str1 c) = Some c.
Proof.
  induction s as [|d s IH]; intro c; [reflexivity|].
  simpl. rewrite IH. destruct (s ++ str1 c)%string eqn:E; [|reflexivity].
  destruct s; discriminate E.
Qed.

Lemma dropLast_app_str1 :
  forall s c, dropLast (s ++ str1 c) = s.
Proof.
  induction s as [|d s IH]; intro c; [reflexivity|].
  simpl. rewrite IH. destruct (s ++ str1 c)%string eqn:E; [|reflexivity].
  destruct s; discriminate E.
Qed.

Lemma append_assoc :
  forall a b c : string, ((a ++ b) ++ c = a ++ (b ++ c))%string.
Proof.
  induction a as [|x a IH]; intros b c; [reflexivity|].
  simpl. now rewrite IH.
Qed.

Lemma HasPrefix_split :
  forall p s,
    strings.HasPrefix s p = true ->
    s = (p ++ sliceFrom s (String.length p))%string.
Proof.
  induction p as [|c p IH]; intros s H.
  - destruct s; reflexivity.
  - destruct s as [|d s]; [discriminate H|].
    simpl in H. apply andb_true_iff in H. destruct H as [Hc Hp].
    apply Ascii.eqb_eq in Hc. subst d. simpl. f_equal. apply IH. exact Hp.
Qed.

Lemma Index_eq :
  forall s sep,
    strings.Index s sep
    = if strings.HasPrefix s sep then 0
      else match s with
           | EmptyString => -1
           | String _ t => if strings.Index t sep <? 0 then -1
                           else strings.Index t sep + 1
           end.
Proof. intros [|c s] sep; reflexivity. Qed.

Lemma Index_lower : forall s sep, -1 <= strings.Index s sep.
Proof.
  induction s as [|c s IH]; intro sep; rewrite Index_eq.
  - destruct (strings.HasPrefix "" sep); lia.
  - destruct (strings.HasPrefix (String c s) sep); [lia|].
    specialize (IH sep). destruct (strings.Index s sep <? 0) eqn:E; [lia|].
    apply Z.ltb_ge in E. lia.
Qed.

(** A string is cut around the first instance of the separator. *)
Lemma Index_split :
  forall s sep,
    0 <= strings.Index s sep ->
    s = (sliceTo s (Z.to_nat (strings.Index s sep)) ++ sep
           ++ sliceFrom s (Z.to_nat (strings.Index s sep) + String.length sep))%string.
Proof.
  induction s as [|c s IH]; intros sep H; rewrite Index_eq in *.
  - destruct (strings.HasPrefix "" sep) eqn:Hp; [|lia].
    apply HasPrefix_split in Hp. exact Hp.
  - destruct (strings.HasPrefix (String c s) sep) eqn:Hp.
    + apply HasPrefix_split in Hp. exact Hp.
    + destruct (strings.Index s sep <? 0) eqn:E; [lia|].
      apply Z.ltb_ge in E.
      replace (Z.to_nat (strings.Index s sep + 1))
        with (S (Z.to_nat (strings.Index s sep))) by lia.
      cbn [sliceTo sliceFrom append Nat.add]. f_equal. apply IH. exact E.
Qed.


(** *** Unquote *)


Lemma Unquote_first_byte :
  forall c t,
    Ascii.eqb c dquote = false ->
    Ascii.eqb c squote = false ->
    Ascii.eqb c bquote = false ->
    strconv.Unquote (String c t) = Err strconv.ErrSyntax.
Proof.
  intros c t H1 H2 H3. unfold strconv.Unquote.
  destruct (len (String c t) <? 2); [reflexivity|].
  destruct (lastByte (String c t)) as [l|]; [|reflexivity].
  destruct (Ascii.eqb c l); [|reflexivity].
  cbn [negb]. rewrite H3, H1, H2. reflexivity.
Qed.




(** A double-quoted string without escapes, quotes or newlines, and valid
    UTF-8, is unquoted to what is between the quotes. *)
Lemma Unquote_plain :
  forall g,
    containsByte g LF = false ->
    containsByte g backslash = false ->
    containsByte g dquote = false ->
    utf8.ValidString g = true ->
    strconv.Unquote (str1 dquote ++ g ++ str1 dquote) = Ok g.
Proof.
  intros g H1 H2 H3 H4. unfold strconv.Unquote.
  assert (Hlen : (len (str1 dquote ++ g ++ str1 dquote) <? 2) = false).
  { apply Z.ltb_ge. unfold len. cbn [append str1 String.length].
    assert (String.length (g ++ str1 dquote) >= 1)%nat.
    { clear. induction g; simpl; lia. }
    lia. }
  rewrite Hlen.
  cbn [append str1]. fold (str1 dquote).
  change (String dquote (g ++ str1 dquote))%string
    with (str1 dquote ++ (g ++ str1 dquote))%string at 1.
  rewrite <- append_assoc, lastByte_app_str1, dropLast_app_str1.
  change (Ascii.eqb dquote dquote) with true.
  change (Ascii.eqb dquote bquote) with false.
  change (Ascii.eqb dquote squote) with false.
  cbn [negb andb]. rewrite H1, H2, H3, H4. reflexivity.
Qed.

(** *** The fuel of the unquoting loop *)

Lemma sliceFrom_length :
  forall s n, String.length (sliceFrom s n) = (String.length s - n)%nat.
Proof.
  induction s as [|c s IH]; intros [|n]; simpl; auto.
Qed.

Lemma DecodeRuneInString_size :
  forall c t,
    (1 <= snd (utf8.DecodeRuneInString (String c t)) <= String.length (String c t))%nat.
Proof.
  intros c t. unfold utf8.DecodeRuneInString.
  destruct (utf8.first (byte c)) as [| |sz lo hi];
    repeat match goal with
           | |- context [if ?b then _ else _] => destruct b
           | |- context [match ?s with EmptyString => _ | String _ _ => _ end] =>
               destruct s
           end;
    cbn [snd String.length]; lia.
Qed.

Lemma hexDigits_length :
  forall n s v v' s',
    strconv.hexDigits n s v = Some (v', s') ->
    (String.length s' <= String.length s)%nat.
Proof.
  induction n as [|n IH]; intros s v v' s' H; simpl in H.
  - injection H as _ <-. lia.
  - destruct s as [|c t]; [discriminate H|].
    destruct (strconv.unhex c); [|discriminate H].
    apply IH in H. simpl. lia.
Qed.

(** [UnquoteChar] consumes at least one byte. *)
Lemma UnquoteChar_shorter :
  forall s quote v mb ss,
    strconv.UnquoteChar s quote = Ok (v, mb, ss) ->
    (String.length ss < String.length s)%nat.
Proof.
  intros s quote v mb ss H. unfold strconv.UnquoteChar in H.
  destruct s as [|c t]; [discriminate H|].
  destruct (_ && _)%bool; [discriminate H|].
  destruct (utf8.RuneSelf <=? byte c).
  { pose proof (DecodeRuneInString_size c t) as Hd.
    destruct (utf8.DecodeRuneInString (String c t)) as [r size].
    injection H as _ _ <-.
    change (match size with
            | O => String c t
            | S n' => sliceFrom t n'
            end) with (sliceFrom (String c t) size).
    rewrite sliceFrom_length. cbn [snd] in Hd. lia. }
  destruct (negb (Ascii.eqb c backslash)).
  { injection H as _ _ <-. simpl. lia. }
  destruct t as [|e s2]; [discriminate H|].
  cbn [String.length].
  repeat match type of H with
         | (if ?b then _ else _) = _ => destruct b
         | match strconv.hexDigits ?n ?s ?v with _ => _ end = _ =>
             let Hh := fresh "Hh" in
             destruct (strconv.hexDigits n s v) as [[? ?]|] eqn:Hh;
             [apply hexDigits_length in Hh|]
         | match ?s with EmptyString => _ | String _ _ => _ end = _ =>
             destruct s
         | match strconv.octDigit ?c with _ => _ end = _ =>
             destruct (strconv.octDigit c)
         end;
    try discriminate H; injection H as _ _ <-; cbn [String.length] in *; lia.
Qed.

(** The loop gives the same result with any fuel that is at least the
    length of the string: its fuel never runs out in [Unquote]. *)
Lemma unquoteLoop_fuel :
  forall f1 f2 quote s,
    (String.length s <= f1)%nat ->
    (String.length s <= f2)%nat ->
    strconv.unquoteLoop f1 quote s = strconv.unquoteLoop f2 quote s.
Proof.
  induction f1 as [|f1 IH]; intros f2 quote s H1 H2.
  - destruct s; [destruct f2; reflexivity|simpl in H1; lia].
  - destruct s as [|c t]; [destruct f2; reflexivity|].
    destruct f2 as [|f2]; [simpl in H2; lia|].
    cbn [strconv.unquoteLoop].
    destruct (strconv.UnquoteChar (String c t) quote) as [e|[[v mb] ss]] eqn:Hu;
      [reflexivity|].
    apply UnquoteChar_shorter in Hu.
    rewrite (IH f2 quote ss); [reflexivity| |]; lia.
Qed.

(** *** The file-and-line pattern *)





Lemma fileNameAndNumberRE_first_byte :
  forall c t, Ascii.eqb c "[" = false -> fileNameAndNumberRE (String c t) = None.
Proof.
  intros c t H. unfold fileNameAndNumberRE.
  destruct t; [reflexivity|]. rewrite H. reflexivity.
Qed.

Lemma reColon_first_byte :
  forall c t, Ascii.eqb c ":" = false -> reColon (String c t) = None.
Proof.
  intros c t H. unfold reColon. destruct t; [reflexivity|].
  rewrite H. reflexivity.
Qed.



Lemma fileNameAndNumberRE_config_cc :
  forall r,
    containsByte r LF = false ->
    fileNameAndNumberRE ("[config.cc:42] " ++ r) = Some ("[config.cc:42]", r).
Proof.
  intros r H. destruct r as [|d r]; [reflexivity|].
  cbn -[containsByte]. rewrite H. reflexivity.
Qed.

Lemma postProcess_plain :
  forall c t,
    Ascii.eqb c "[" = false ->
    Ascii.eqb c dquote = false ->
    Ascii.eqb c squote = false ->
    Ascii.eqb c bquote = false ->
    postProcess (String c t) = String c t.
Proof.
  intros c t H0 H1 H2 H3. unfold postProcess, ReplaceAllString.
  rewrite (fileNameAndNumberRE_first_byte c t H0).
  rewrite (Unquote_first_byte c t H1 H2 H3). reflexivity.
Qed.

Lemma parseLog_no_separator :
  forall line,
    strings.Contains line "--" = false -> parseLog line = ("", "", "").
Proof.
  intros line H. unfold strings.Contains in H. apply Z.leb_gt in H.
  unfold parseLog. cbn [strings.SplitN].
  apply Z.ltb_lt in H. rewrite H. reflexivity.
Qed.

(** *** Decoding *)

(** C7, as the code has it.  (1) The line
    [LOG_FORMAT]warning--my-component--hello world gives a record with
    component my-component and message hello world, and the same line
    with the level name warn gives that record at level warn.  (2) A line
    with no -- separator gives no record when nothing is left of it after
    processing, as for the empty line, and else a record with component
    envoy and the processed line as the message: the raw line itself
    when it does not begin with an opening bracket or a quote.  (3) For a
    message that begins with the segment [config.cc:42] and one space,
    followed by an unquoted remainder without newline, the segment is
    stripped and the remainder is read as a Go string literal between
    double quotes: when it reads as a string that is not empty, that
    string is the message emitted.  So a non-empty remainder of valid
    UTF-8 without backslash, double quote or newline is emitted as it
    is, and in the remainder of the last line below the escaped tab and
    the escaped quotes are decoded. *)
Theorem log_decoding :
  (exists r,
      handleLine "[LOG_FORMAT]warning--my-component--hello world" = Some r
      /\ name r = "my-component"
      /\ message r = "hello world")
  /\ handleLine "[LOG_FORMAT]warn--my-component--hello world"
     = Some (mkLogRecord zerolog.WarnLevel "envoy" "my-component" "hello world")
  /\ (forall line,
         strings.Contains line "--" = false ->
         (postProcess line = "" -> handleLine line = None)
         /\ (postProcess line <> "" ->
             exists r,
               handleLine line = Some r
               /\ name r = "envoy"
               /\ message r = postProcess line)
         /\ (line = "" -> handleLine line = None)
         /\ (forall c t,
                line = String c t ->
                Ascii.eqb c "[" = false ->
                Ascii.eqb c dquote = false ->
                Ascii.eqb c squote = false ->
                Ascii.eqb c bquote = false ->
                exists r,
                  handleLine line = Some r
                  /\ name r = "envoy"
                  /\ message r = line))
  /\ (forall r s,
         containsByte r LF = false ->
         strconv.Unquote (q ++ r ++ q) = Ok s ->
         s <> "" ->
         handleLine ("[LOG_FORMAT]info--main--[config.cc:42] " ++ r)
         = Some (mkLogRecord zerolog.InfoLevel "envoy" "main" s))
  /\ (forall r,
         r <> "" ->
         containsByte r LF = false ->
         containsByte r backslash = false ->
         containsByte r dquote = false ->
         utf8.ValidString r = true ->
         handleLine ("[LOG_FORMAT]info--main--[config.cc:42] " ++ r)
         = Some (mkLogRecord zerolog.InfoLevel "envoy" "main" r))
  /\ handleLine ("[LOG_FORMAT]info--main--[config.cc:42] tab\there, "
                 ++ str1 backslash ++ q ++ "quoted" ++ str1 backslash ++ q)
     = Some (mkLogRecord zerolog.InfoLevel "envoy" "main"
               ("tab" ++ str1 "009" ++ "here, " ++ q ++ "quoted" ++ q)).
Proof.
  assert (Hseg : forall r s,
             containsByte r LF = false ->
             strconv.Unquote (q ++ r ++ q) = Ok s ->
             s <> "" ->
             handleLine ("[LOG_FORMAT]info--main--[config.cc:42] " ++ r)
             = Some (mkLogRecord zerolog.InfoLevel "envoy" "main" s)).
  { intros r s H1 Hu Hs. rewrite handleLine_eq. unfold finalMessage.
    assert (Hp : parseLog ("[LOG_FORMAT]info--main--[config.cc:42] " ++ r)
                 = ("main", "info", ("[config.cc:42] " ++ r)%string))
      by reflexivity.
    rewrite Hp. cbn [append String.eqb Ascii.eqb Bool.eqb].
    change (String "[" (String "c" (String "o" (String "n" (String "f"
             (String "i" (String "g" (String "." (String "c" (String "c"
             (String ":" (String "4" (String "2" (String "]"
             (String " " r)))))))))))))))
      with ("[config.cc:42] " ++ r)%string.
    unfold postProcess, ReplaceAllString.
    rewrite (fileNameAndNumberRE_config_cc r H1).
    fold q. rewrite Hu.
    destruct s as [|c s]; [contradiction|]. reflexivity. }
  split.
  { eexists. split; [reflexivity|]. split; reflexivity. }
  split; [reflexivity|]. split; [|split; [exact Hseg|split]].
  - intros line H.
    assert (Hgen : handleLine line
                   = (if String.eqb (postProcess line) "" then None
                      else Some (mkLogRecord zerolog.NoLevel "envoy" "envoy"
                                   (postProcess line)))).
    { rewrite handleLine_eq. unfold finalMessage.
      rewrite (parseLog_no_separator line H). reflexivity. }
    split.
    { intro He. rewrite Hgen, He. reflexivity. }
    split.
    { intro Hne. rewrite Hgen.
      destruct (String.eqb_spec (postProcess line) ""); [contradiction|].
      eexists. split; [reflexivity|]. split; reflexivity. }
    split.
    + intros ->. reflexivity.
    + intros c t -> H0 H1 H2 H3. rewrite Hgen.
      rewrite (postProcess_plain c t H0 H1 H2 H3).
      eexists. split; [reflexivity|]. split; reflexivity.
  - intros r Hr H1 H2 H3 H4.
    apply (Hseg r r H1); [|exact Hr].
    apply (Unquote_plain r H1 H2 H3 H4).
  - vm_compute. reflexivity.
Qed.

Lemma log_decoding_witness :
  (exists r, handleLine "plain line" = Some r /\ message r = "plain line")
  /\ handleLine "[LOG_FORMAT]info--main--[config.cc:42] actual message"
     = Some (mkLogRecord zerolog.InfoLevel "envoy" "main" "actual message")
  /\ handleLine "[LOG_FORMAT]info--main--[config.cc:42] line\nbreak"
     = Some (mkLogRecord zerolog.InfoLevel "envoy" "main"
               ("line" ++ str1 LF ++ "break")).
Proof.
  destruct log_decoding as (_ & _ & H2 & H3 & H4 & _). split; [|split].
  - destruct (H2 "plain line" eq_refl) as (_ & _ & _ & H).
    destruct (H "p"%char "lain line" eq_refl eq_refl eq_refl eq_refl eq_refl)
      as (r & Hr & _ & Hm).
    exists r. split; assumption.
  - refine (H4 "actual message" _ eq_refl eq_refl eq_refl eq_refl).
    discriminate.
  - refine (H3 "line\nbreak" ("line" ++ str1 LF ++ "break")%string eq_refl _ _).
    + vm_compute. reflexivity.
    + discriminate.
Defined.

(** C7 as stated fails in two places.  A line with no -- separator is
    not always logged with the raw line as its message: the empty line
    gives no record, and a quoted line is logged unquoted.  And a message
    whose segment [config.cc:42] is followed by a quoted remainder is
    emitted between doubled quotes, not as the bare text. *)
Lemma log_decoding_differs :
  (strings.Contains "" "--" = false /\ handleLine "" = None)
  /\ (strings.Contains (q ++ "hello" ++ q) "--" = false
      /\ (exists r,
             handleLine (q ++ "hello" ++ q) = Some r
             /\ message r = "hello")
      /\ "hello"%string <> (q ++ "hello" ++ q)%string)
  /\ handleLine ("[LOG_FORMAT]info--main--[config.cc:42] "
                 ++ q ++ "actual message" ++ q)
     = Some (mkLogRecord zerolog.InfoLevel "envoy" "main"
               (q ++ q ++ "actual message" ++ q ++ q))
  /\ (q ++ q ++ "actual message" ++ q ++ q)%string <> "actual message"%string.
Proof.
  split; [split; reflexivity|]. split.
  { split; [reflexivity|]. split; [|vm_compute; discriminate].
    eexists. split; [vm_compute; reflexivity|]. reflexivity. }
  split; [vm_compute; reflexivity|]. vm_compute. discriminate.
Qed.





(** * Further properties of the code *)

(** ** Hand-over of the processes *)

Lemma Process_eqb_refl : forall p, Process_eqb p p = true.
Proof. intro p. apply Z.eqb_refl. Qed.

Lemma handoff_app :
  forall t1 t2 h,
    handoff h (t1 ++ t2)
    = match handoff h t1 with
      | Some h' => handoff h' t2
      | None => None
      end.
Proof.
  induction t1 as [|e t1 IH]; intros t2 h; [reflexivity|].
  cbn [app handoff]. destruct (handoffStep h e); [apply IH|reflexivity].
Qed.

Section Handoff.

Context {X : External}.

Lemma run_handoff :
  forall srv os,
    handoff (currentProcess srv, None) (snd (run srv os))
    = Some (currentProcess (fst (fst (run srv os))), None).
Proof.
  intros srv os. unfold run, currentProcess.
  destruct (runArgs_epoch srv (os_readBaseID os)) as (_ & _ & _).
  pose proof (runArgs_cmd srv (os_readBaseID os)) as Hc.
  destruct (runArgs srv (os_readBaseID os)) as [args srv1]. cbn [snd] in Hc.
  destruct (os_StderrPipe os);
    [|destruct (os_StdoutPipe os); [|destruct (os_Start os) as [e|p]]];
    cbn [fst snd]; rewrite ?Hc; try reflexivity.
  unfold releasePrevious. rewrite Hc.
  destruct (cmd srv) as [old|]; [|reflexivity].
  destruct (Process_ old) as [q|]; [|reflexivity].
  destruct (os_Release os); cbn; rewrite Process_eqb_refl; reflexivity.
Qed.

Lemma update_handoff :
  forall srv cfg os,
    handoff (currentProcess srv, None) (snd (update srv cfg os))
    = Some (currentProcess (fst (update srv cfg os)), None).
Proof.
  intros srv cfg os.
  destruct (update_path srv cfg os)
    as [e Ho|o Ho He|o e Ho He Hb|o bs e Ho He Hb Hw
       |o bs srv2 err t2 Ho He Hb Hw Hr]; try reflexivity.
  pose proof (run_handoff (set_options srv o) (os_run os)) as H.
  rewrite Hr in H. cbn [fst snd] in H.
  change (currentProcess (set_options srv o)) with (currentProcess srv) in H.
  cbn [app handoff handoffStep logWrote logStarting].
  rewrite handoff_app, H. destruct err; reflexivity.
Qed.

Lemma step_handoff :
  forall srv op,
    handoff (currentProcess srv, None) (snd (step srv op))
    = Some (currentProcess (fst (step srv op)), None).
Proof.
  intros srv [cfg os|os]; [apply update_handoff|].
  unfold step, Close.
  destruct (cmd srv) as [c|] eqn:Hc;
    [destruct (Process_ c) as [p|] eqn:Hp|];
    cbn [fst snd]; unfold currentProcess; cbn [cmd set_cmd];
    rewrite ?Hc, ?Hp; try reflexivity.
  destruct (os_Kill os); cbn; rewrite Process_eqb_refl; reflexivity.
Qed.

Lemma serve_handoff :
  forall ops srv,
    handoff (currentProcess srv, None) (snd (serve srv ops))
    = Some (currentProcess (fst (serve srv ops)), None).
Proof.
  induction ops as [|op ops IH]; intro srv; [reflexivity|].
  cbn [serve]. pose proof (step_handoff srv op) as H1.
  destruct (step srv op) as [srv1 t1]. cbn [fst snd] in H1.
  specialize (IH srv1). destruct (serve srv1 ops) as [srv2 t2].
  cbn [fst snd] in *. rewrite handoff_app, H1. exact IH.
Qed.

Lemma handoff_setup :
  forall t h, List.forallb isSetup t = true -> handoff h t = Some h.
Proof.
  induction t as [|e t IH]; intros h H; [reflexivity|].
  cbn [List.forallb] in H. apply andb_true_iff in H. destruct H as [He Ht].
  cbn [handoff]. destruct h as [cur rep].
  destruct e; try discriminate He; cbn [handoffStep]; apply IH; exact Ht.
Qed.

(** [NewServer], when it gets that far, is the first configuration
    applied to the fresh server, between the events of the setup and the
    last log line. *)
Lemma NewServer_trace :
  forall os cfg grpcPort httpPort,
    match fst (NewServer os cfg grpcPort httpPort) with
    | inl _ => List.forallb isSetup (snd (NewServer os cfg grpcPort httpPort)) = true
    | inr srv =>
        srv = fst (update (freshServer os grpcPort httpPort) cfg (os_update os))
        /\ exists pre,
            List.forallb isSetup pre = true
            /\ snd (NewServer os cfg grpcPort httpPort)
               = (pre ++ snd (update (freshServer os grpcPort httpPort) cfg
                                (os_update os))
                      ++ [Log zerolog.InfoLevel "running envoy"])%list
    end.
Proof.
  intros os cfg gp hp. unfold NewServer, onConfigChange, freshServer, resolvedName.
  destruct (os_MkdirAll os); [reflexivity|].
  destruct (os_extractEmbeddedEnvoy os);
    match goal with
    | |- context [os_LookPath os ?n] => destruct (os_LookPath os n) as [?|full]
    end; try reflexivity;
    (destruct (negb (Checksum =? "")%string);
     [destruct (os_ReadFile os full) as [?|bs];
      [reflexivity
      |destruct (negb (Checksum =? hex.EncodeToString (sha256.Sum bs))%string);
       [reflexivity|]]
     |]);
    match goal with
    | |- context [update ?s cfg (os_update os)] =>
        destruct (update s cfg (os_update os)) as [srv1 tu]
    end;
    cbn [fst snd]; (split; [reflexivity|]);
    eexists; (split; [|reflexivity]); reflexivity.
Qed.

End Handoff.

(** X1.  Whatever the configuration changes and the calls of [Close], and
    whatever the operating system answers, the events of a server follow
    the hand-over protocol: a process is started only when the one
    replaced before has been released, what is released is the process
    just replaced, what is killed is the current process, and at the end
    the one process that was started and neither released nor killed is
    that of the current handle.  The same holds of the events of
    [NewServer], from no process at all. *)
Theorem processes_follow_handoff :
  forall (X : External),
    (forall srv ops,
        handoff (currentProcess srv, None) (snd (serve srv ops))
        = Some (currentProcess (fst (serve srv ops)), None))
    /\ (forall os cfg grpcPort httpPort,
           handoff (None, None) (snd (NewServer os cfg grpcPort httpPort))
           = Some (match fst (NewServer os cfg grpcPort httpPort) with
                   | inr srv => currentProcess srv
                   | inl _ => None
                   end, None)).
Proof.
  intro X. split; [intros; apply serve_handoff|].
  intros os cfg gp hp. pose proof (NewServer_trace os cfg gp hp) as H.
  destruct (NewServer os cfg gp hp) as [[e|srv] t]; cbn [fst snd] in *.
  - apply handoff_setup. exact H.
  - destruct H as (-> & pre & Hpre & ->).
    rewrite handoff_app, (handoff_setup pre _ Hpre), handoff_app.
    pose proof (update_handoff (freshServer os gp hp) cfg (os_update os)) as Hu.
    change (currentProcess (freshServer os gp hp)) with (@None Process) in Hu.
    rewrite Hu. reflexivity.
Qed.

(** The observer does reject traces that break the protocol. *)
Example handoff_rejects :
  handoff (Some (mkProcess 1), None) [Release (mkProcess 1) None] = None
  /\ handoff (Some (mkProcess 1), None) [Kill (mkProcess 2) None] = None
  /\ handoff (Some (mkProcess 1), None)
       [Start Sample.oldCmd (Ok (mkProcess 2));
        Start Sample.oldCmd (Ok (mkProcess 3))] = None
  /\ handoff (Some (mkProcess 1), None)
       [Start Sample.oldCmd (Ok (mkProcess 2)); Release (mkProcess 2) None] = None.
Proof. repeat split. Qed.

(** ** Invariants of the server *)

Section Invariants.

Context {X : External}.

Lemma run_fields :
  forall srv os,
    let srv' := fst (fst (run srv os)) in
    wd srv' = wd srv /\ grpcPort srv' = grpcPort srv
    /\ httpPort srv' = httpPort srv /\ envoyPath srv' = envoyPath srv.
Proof.
  intros srv os. unfold run, runArgs.
  destruct (os_readBaseID os), (os_StderrPipe os), (os_StdoutPipe os),
    (os_Start os); repeat split.
Qed.

Lemma step_fields :
  forall srv op,
    let srv' := fst (step srv op) in
    wd srv' = wd srv /\ grpcPort srv' = grpcPort srv
    /\ httpPort srv' = httpPort srv /\ envoyPath srv' = envoyPath srv.
Proof.
  intros srv [cfg os|os].
  - change (step srv (ConfigChange cfg os)) with (update srv cfg os). cbv zeta.
    destruct (update_path srv cfg os)
      as [e Ho|o Ho He|o e Ho He Hb|o bs e Ho He Hb Hw
         |o bs srv2 err t2 Ho He Hb Hw Hr]; try (repeat split; fail).
    pose proof (run_fields (set_options srv o) (os_run os)) as H.
    rewrite Hr in H. exact H.
  - unfold step, Close. destruct (cmd srv) as [c|]; [|repeat split].
    destruct (Process_ c); repeat split.
Qed.

Lemma update_fields :
  forall srv cfg os,
    let srv' := fst (update srv cfg os) in
    wd srv' = wd srv /\ grpcPort srv' = grpcPort srv
    /\ httpPort srv' = httpPort srv /\ envoyPath srv' = envoyPath srv.
Proof. intros srv cfg os. exact (step_fields srv (ConfigChange cfg os)). Qed.

Lemma run_HandleHasProcess :
  forall srv os,
    HandleHasProcess srv -> HandleHasProcess (fst (fst (run srv os))).
Proof.
  intros srv os H. pose proof (runArgs_cmd srv (os_readBaseID os)) as Hc.
  unfold run. destruct (runArgs srv (os_readBaseID os)) as [args srv1].
  cbn [snd] in Hc.
  assert (H1 : HandleHasProcess srv1)
    by (intros c Hs; apply H; now rewrite <- Hc).
  destruct (os_StderrPipe os); [exact H1|].
  destruct (os_StdoutPipe os); [exact H1|].
  destruct (os_Start os); [exact H1|].
  intros c Hs. cbn in Hs. injection Hs as <-. discriminate.
Qed.

Lemma step_HandleHasProcess :
  forall srv op,
    HandleHasProcess srv -> HandleHasProcess (fst (step srv op)).
Proof.
  intros srv [cfg os|os] H.
  - change (step srv (ConfigChange cfg os)) with (update srv cfg os). cbv zeta.
    destruct (update_path srv cfg os)
      as [e Ho|o Ho He|o e Ho He Hb|o bs e Ho He Hb Hw
         |o bs srv2 err t2 Ho He Hb Hw Hr]; try exact H.
    pose proof (run_HandleHasProcess (set_options srv o) (os_run os) H) as Hr'.
    rewrite Hr in Hr'. exact Hr'.
  - unfold step, Close. destruct (cmd srv) as [c|] eqn:Hc; [|exact H].
    destruct (Process_ c); [|exact H].
    intros c' Hs. discriminate Hs.
Qed.

End Invariants.

(** X2.  The working directory, the two ports and the name of the binary
    of a server are never changed by configuration changes or by
    [Close]. *)
Theorem serve_keeps_fields :
  forall (X : External) (ops : list Op) (srv : Server),
    let srv' := fst (serve srv ops) in
    wd srv' = wd srv /\ grpcPort srv' = grpcPort srv
    /\ httpPort srv' = httpPort srv /\ envoyPath srv' = envoyPath srv.
Proof.
  intros X ops. induction ops as [|op ops IH]; intro srv; [repeat split|].
  cbn [serve]. pose proof (step_fields srv op) as H1.
  destruct (step srv op) as [srv1 t1]. cbn [fst] in H1.
  specialize (IH srv1). destruct (serve srv1 ops) as [srv2 t2].
  cbn [fst] in *. destruct H1 as (A & B & C & D), IH as (A' & B' & C' & D').
  repeat split; congruence.
Qed.

(** X3.  A handle that is current always holds a process: this is so of
    the server [NewServer] returns, and configuration changes and [Close]
    keep it so.  Hence [Close] always leaves the server without a handle,
    and a tick of the collector that follows it measures nothing. *)
Theorem handle_always_has_process :
  forall (X : External),
    (forall os cfg grpcPort httpPort srv t,
        NewServer os cfg grpcPort httpPort = (Ok srv, t) ->
        HandleHasProcess srv)
    /\ (forall ops srv,
           HandleHasProcess srv -> HandleHasProcess (fst (serve srv ops)))
    /\ (forall srv os measure,
           HandleHasProcess srv ->
           cmd (fst (fst (Close srv os))) = None
           /\ Collector.tick (fst (fst (Close srv os))) measure = []).
Proof.
  intro X. split; [|split].
  - intros os cfg gp hp srv t H.
    pose proof (NewServer_trace os cfg gp hp) as Ht. rewrite H in Ht.
    cbn [fst] in Ht. destruct Ht as (-> & _).
    apply (step_HandleHasProcess (freshServer os gp hp)
             (ConfigChange cfg (os_update os))).
    intros c Hc. discriminate Hc.
  - induction ops as [|op ops IH]; intros srv H; [exact H|].
    cbn [serve]. pose proof (step_HandleHasProcess srv op H) as H1.
    destruct (step srv op) as [srv1 t1]. cbn [fst] in H1.
    specialize (IH srv1 H1). destruct (serve srv1 ops) as [srv2 t2]. exact IH.
  - intros srv os m H. unfold Close.
    destruct (cmd srv) as [c|] eqn:Hc.
    + destruct (Process_ c) eqn:Hp; [split; reflexivity|].
      exfalso. exact (H c Hc Hp).
    + cbn [fst]. unfold Collector.tick, Collector.currentPid.
      rewrite Hc. split; reflexivity.
Qed.

Lemma handle_always_has_process_witness :
  HandleHasProcess Sample.running
  /\ cmd (fst (fst (Close Sample.running (mkCloseOS (Some "no such process")))))
     = None.
Proof.
  assert (H : HandleHasProcess Sample.running).
  { intros c Hc. injection Hc as <-. discriminate. }
  split; [exact H|].
  destruct (handle_always_has_process (Sample.ext "")) as (_ & _ & H3).
  exact (proj1 (H3 Sample.running (mkCloseOS (Some "no such process")) None H)).
Defined.

Section Counting.

Context {X : External}.

Lemma step_spawns :
  forall srv op,
    (spawns (snd (step srv op))
     <= match op with ConfigChange _ _ => 1 | CloseServer _ => 0 end)%nat.
Proof.
  intros srv [cfg os|os].
  - apply update_spawns.
  - unfold step, Close. destruct (cmd srv) as [c|]; [|cbn; lia].
    destruct (Process_ c); [|cbn; lia].
    destruct (os_Kill os); cbn; lia.
Qed.

End Counting.

(** X4.  A server starts at most one process for each configuration
    change it is notified of, and none when it is closed: the number of
    calls of [cmd.Start] in the events of any sequence of calls is at most
    the number of configuration changes among them. *)
Theorem spawns_at_most_changes :
  forall (X : External) (ops : list Op) (srv : Server),
    (spawns (snd (serve srv ops)) <= changes ops)%nat.
Proof.
  intros X ops. induction ops as [|op ops IH]; intro srv; [cbn; lia|].
  cbn [serve]. pose proof (step_spawns srv op) as H1.
  destruct (step srv op) as [srv1 t1]. cbn [snd] in H1.
  specialize (IH srv1). destruct (serve srv1 ops) as [srv2 t2].
  cbn [snd] in *. rewrite spawns_app. unfold changes in *.
  destruct op; cbn [List.filter List.length]; lia.
Qed.

(** X5.  The release of the previous process is best effort: whether it
    succeeds or fails, [run] returns the same server and the same error,
    and a failed release shows only as a warning in the log. *)
Theorem release_failure_is_only_logged :
  forall (X : External) (srv : Server) (os : RunOS) (r : option error),
    fst (run srv (withRelease os r)) = fst (run srv os)
    /\ (forall p e,
           In (Release p (Some e)) (snd (run srv os)) ->
           snd (fst (run srv os)) = None
           /\ In (Log zerolog.WarnLevel
                    "envoy: failed to release envoy process for hot-reload")
                 (snd (run srv os))).
Proof.
  intros X srv os r. split.
  - unfold run, withRelease. cbn [os_readBaseID os_StderrPipe os_StdoutPipe os_Start].
    destruct (runArgs srv (os_readBaseID os)) as [args srv1].
    destruct (os_StderrPipe os); [reflexivity|].
    destruct (os_StdoutPipe os); [reflexivity|].
    destruct (os_Start os); reflexivity.
  - intros p e Hin.
    destruct (run srv os) as [[srv' err] t] eqn:Hr. cbn [fst snd] in *.
    destruct (run_outcome _ _ _ _ _ Hr)
      as [(msg & -> & _ & Hrel & _)|(c & q & t0 & -> & _ & _ & _ & -> & Ht0)].
    + exfalso. rewrite List.forallb_forall in Hrel.
      specialize (Hrel _ Hin). discriminate Hrel.
    + split; [reflexivity|].
      apply List.in_or_app. right. right.
      apply List.in_app_or in Hin. destruct Hin as [Hin|[Hin|Hin]].
      * rewrite List.forallb_forall in Ht0. specialize (Ht0 _ Hin).
        discriminate Ht0.
      * discriminate Hin.
      * unfold releasePrevious in *.
        destruct (cmd srv) as [old|]; [|destruct Hin].
        destruct (Process_ old); [|destruct Hin].
        destruct (os_Release os) as [e'|].
        -- right. right. left. reflexivity.
        -- simpl in Hin. intuition discriminate.
Qed.

Lemma release_failure_is_only_logged_witness :
  snd (fst (run (X := Sample.ext "") Sample.running
              (mkRunOS None (Ok "/usr/local/bin/envoy") None None (Ok (mkProcess 101))
                 (Some "already released"))))
  = None.
Proof.
  destruct (release_failure_is_only_logged (Sample.ext "") Sample.running
              (mkRunOS None (Ok "/usr/local/bin/envoy") None None (Ok (mkProcess 101))
                 (Some "already released"))
              None) as [_ H].
  refine (proj1 (H (mkProcess 100) "already released" _)).
  vm_compute. do 8 right. left. reflexivity.
Defined.

(** X6.  [Close] called again on a closed server does nothing: no second
    kill is attempted, even if the first one failed, and nil is
    returned. *)
Theorem Close_twice :
  forall (srv : Server) (os1 os2 : CloseOS),
    let '(srv1, _, t1) := Close srv os1 in
    let '(srv2, err2, t2) := Close srv1 os2 in
    srv2 = srv1 /\ err2 = None /\ t2 = []
    /\ (List.length (List.filter isKill (t1 ++ t2)) <= 1)%nat.
Proof.
  intros srv os1 os2. unfold Close.
  destruct (cmd srv) as [c|] eqn:Hc.
  - destruct (Process_ c) eqn:Hp.
    + cbn [cmd set_cmd]. repeat split.
      destruct (os_Kill os1); cbn; lia.
    + rewrite Hc, Hp. repeat split. cbn. lia.
  - rewrite Hc. repeat split. cbn. lia.
Qed.

(** ** What a started process is given *)

Section Started.

Context {X : External}.

Lemma run_start :
  forall srv os c r,
    In (Start c r) (snd (run srv os)) ->
    c = mkCmd (Path (exec_Command (os_CommandLookPath os) (envoyPath srv) []))
          (envoyPath srv :: fst (runArgs srv (os_readBaseID os)))
          (wd srv) sysProcAttr None
    /\ r = os_Start os
    /\ exists post,
        snd (run srv os) = (beforeStart srv os ++ Start c r :: post)%list
        /\ List.existsb isStarted post = false
        /\ List.existsb isStart post = false.
Proof.
  intros srv os c r. unfold run, beforeStart.
  pose proof (runArgs_cmd srv (os_readBaseID os)) as Hc.
  assert (Hf : wd (snd (runArgs srv (os_readBaseID os))) = wd srv
               /\ envoyPath (snd (runArgs srv (os_readBaseID os))) = envoyPath srv).
  { unfold runArgs. destruct (os_readBaseID os); split; reflexivity. }
  destruct (runArgs srv (os_readBaseID os)) as [args srv1].
  cbn [fst snd] in *. destruct Hf as [Hw He]. rewrite Hw, He.
  destruct (os_StderrPipe os).
  { cbn. intuition discriminate. }
  destruct (os_StdoutPipe os).
  { cbn. intuition discriminate. }
  destruct (os_Start os) as [e|p];
    cbn [snd Path Args Dir SysProcAttr Process_ exec_Command].
  - intro H. cbn [app In] in H.
    destruct H as [H|[H|[H|[H|[H|[H|[H|[]]]]]]]]; try discriminate H.
    injection H as <- <-. repeat split. exists []. repeat split.
  - intro H. cbn [app In] in H.
    destruct H as [H|[H|[H|[H|[H|[H|[H|H]]]]]]]; try discriminate H.
    + injection H as <- <-. repeat split.
      exists (releasePrevious srv1 os). split; [reflexivity|].
      unfold releasePrevious. destruct (cmd srv1) as [old|]; [|split; reflexivity].
      destruct (Process_ old); [|split; reflexivity].
      destruct (os_Release os); split; reflexivity.
    + exfalso. unfold releasePrevious in H.
      destruct (cmd srv1) as [old|]; [|destruct H].
      destruct (Process_ old); [|destruct H].
      destruct (os_Release os); cbn in H; intuition discriminate.
Qed.

End Started.

(** X7.  A process is started only on the configuration just written.
    Whenever [update] calls [cmd.Start], the tracing options of the
    snapshot were valid, the bootstrap document was built from the server
    holding the new options, and its bytes were written with success to
    the configuration file of the working directory before the call; the
    command runs in that directory, names that file with -c and carries
    the log level of the new options; its path is the name of the binary
    when the name has a directory part, and what the lookup of
    [exec.Command] found when it has none and the lookup succeeded; the
    two log relays were launched before it; it is the only start of the
    call, and [update] kills nothing. *)
Theorem started_on_written_config :
  forall (X : External) (srv : Server) (cfg : Config) (os : UpdateOS)
         (c : Cmd) (r : result error Process),
    In (Start c r) (snd (update srv cfg os)) ->
    exists o confBytes pre post,
      serverOptionsOf cfg = Ok o
      /\ buildBootstrapConfig (set_options srv o) cfg = Ok confBytes
      /\ snd (update srv cfg os) = (pre ++ Start c r :: post)%list
      /\ In (WriteFile (filepath_Join (wd srv) configFileName) confBytes None) pre
      /\ List.length (List.filter isWriteFile pre) = 1%nat
      /\ List.length (List.filter isGoHandleLogs pre) = 2%nat
      /\ List.existsb isStart (pre ++ post) = false
      /\ List.existsb isKill (snd (update srv cfg os)) = false
      /\ Dir c = wd srv
      /\ (filepath_Base (envoyPath srv) <> envoyPath srv -> Path c = envoyPath srv)
      /\ (forall lp,
             filepath_Base (envoyPath srv) = envoyPath srv ->
             os_CommandLookPath (os_run os) = Ok lp ->
             Path c = lp)
      /\ List.firstn 5 (Args c)
         = [envoyPath srv; "-c"; configFileName; "--log-level"; logLevel o]
      /\ options (fst (update srv cfg os)) = o.
Proof.
  intros X srv cfg os c r Hin.
  pose proof (update_options srv cfg os) as Hopt.
  destruct (update_path srv cfg os)
    as [e Ho|o Ho He|o e Ho He Hb|o bs e Ho He Hb Hw
       |o bs srv2 err t2 Ho He Hb Hw Hr].
  - cbn in Hin. intuition discriminate.
  - cbn in Hin. intuition discriminate.
  - cbn in Hin. intuition discriminate.
  - cbn in Hin. intuition discriminate.
  - assert (Hin2 : In (Start c r) t2).
    { cbn in Hin. destruct Hin as [H|[H|[H|H]]]; try discriminate H.
      apply List.in_app_or in H. destruct H as [H|H]; [exact H|].
      destruct err; cbn in H; intuition discriminate. }
    pose proof (run_start (set_options srv o) (os_run os) c r) as Hs.
    pose proof (run_no_error_log (set_options srv o) (os_run os)) as [_ Hnk].
    rewrite Hr in Hs, Hnk. cbn [snd] in Hs, Hnk.
    destruct (Hs Hin2) as (-> & -> & post & -> & Hp1 & Hp2).
    exists o, bs,
      ([logWrote; WriteFile (filepath_Join (wd srv) configFileName) bs None;
        logStarting] ++ beforeStart (set_options srv o) (os_run os))%list,
      (post ++ match err with Some _ => [logRunFailed] | None => [] end)%list.
    split; [exact Ho|]. split; [exact Hb|].
    split. { rewrite <- !List.app_assoc. reflexivity. }
    split. { right. left. reflexivity. }
    split; [reflexivity|]. split; [reflexivity|].
    split.
    { rewrite List.existsb_app. cbn [List.existsb app beforeStart isStart orb].
      rewrite List.existsb_app, Hp2. destruct err; reflexivity. }
    split.
    { cbn [app List.existsb isKill orb]. rewrite List.existsb_app.
      rewrite List.existsb_app in Hnk. apply orb_false_iff in Hnk.
      destruct Hnk as [_ Hnk]. cbn [List.existsb] in Hnk.
      apply orb_false_iff in Hnk. destruct Hnk as [_ Hnk].
      cbn [beforeStart List.existsb isKill orb].
      rewrite List.existsb_app. cbn [List.existsb isKill orb].
      rewrite Hnk. destruct err; reflexivity. }
    split; [reflexivity|].
    split.
    { intro Hbase. cbn [Path exec_Command envoyPath set_options].
      destruct (String.eqb_spec (filepath_Base (envoyPath srv)) (envoyPath srv));
        [contradiction|reflexivity]. }
    split.
    { intros lp Hbase Hlp. cbn [Path exec_Command envoyPath set_options].
      rewrite Hbase, String.eqb_refl, Hlp. reflexivity. }
    split.
    { unfold runArgs. destruct (os_readBaseID (os_run os)); reflexivity. }
    exact (Hopt o Ho).
Qed.

Lemma started_on_written_config_witness :
  exists o confBytes pre post,
    serverOptionsOf (X := Sample.ext "") Sample.cfgWarn = Ok o
    /\ buildBootstrapConfig (X := Sample.ext "") (set_options Sample.running o)
         Sample.cfgWarn = Ok confBytes
    /\ snd (update (X := Sample.ext "") Sample.running Sample.cfgWarn
              (Sample.updOk None 101))
       = (pre ++ Start sampleStarted (Ok (mkProcess 101)) :: post)%list
    /\ In (WriteFile (filepath_Join (wd Sample.running) configFileName)
             confBytes None) pre
    /\ Path sampleStarted = "/usr/local/bin/envoy".
Proof.
  destruct (started_on_written_config (Sample.ext "") Sample.running
              Sample.cfgWarn (Sample.updOk None 101) sampleStarted
              (Ok (mkProcess 101)))
    as (o & bs & pre & post & H1 & H2 & H3 & H4 & _ & _ & _ & _ & _ & _ & H5 & _).
  - vm_compute. do 9 right. left. reflexivity.
  - exists o, bs, pre, post.
    split; [exact H1|]. split; [exact H2|]. split; [exact H3|].
    split; [exact H4|]. apply H5; reflexivity.
Defined.

(** X8.  A malformed admin address stops everything that follows it.
    The build of the bootstrap document fails with the error of
    [ParseAddress] whatever the control-plane port and the tracing options
    are, and a configuration change that carries such an address writes no
    file, starts no process and leaves the handle and the restart epoch as
    they were; when its projection differs from the current options, these
    are replaced all the same and the failure is logged as a failure to
    write the configuration. *)
Theorem malformed_admin_address :
  forall (X : External) (srv : Server) (cfg : Config) (e : string),
    ParseAddress (EnvoyAdminAddress (Options_ cfg)) = Err e ->
    buildBootstrapConfig srv cfg = Err (AdminAddressError e)
    /\ forall os,
        spawns (snd (update srv cfg os)) = 0%nat
        /\ List.existsb isWriteFile (snd (update srv cfg os)) = false
        /\ cmd (fst (update srv cfg os)) = cmd srv
        /\ restartEpoch (fst (update srv cfg os)) = restartEpoch srv
        /\ (forall o,
               serverOptionsOf cfg = Ok o ->
               cmp_Equal (options srv) o = false ->
               update srv cfg os = (set_options srv o, [logWriteFailed])).
Proof.
  intros X srv cfg e He.
  assert (Hb : forall s, buildBootstrapConfig s cfg = Err (AdminAddressError e)).
  { intro s. unfold buildBootstrapConfig, bootstrap. rewrite He. reflexivity. }
  split; [apply Hb|]. intro os. unfold update, writeConfig.
  destruct (serverOptionsOf cfg) as [e0|o]; [repeat split; intros; discriminate|].
  destruct (cmp_Equal (options srv) o) eqn:Hc.
  - repeat split. intros o' Ho' H. injection Ho' as <-. congruence.
  - rewrite (Hb (set_options srv o)). unfold Err. cbn [fst snd app].
    repeat split. intros o' Ho' _. injection Ho' as <-. reflexivity.
Qed.

Lemma malformed_admin_address_witness :
  update (X := Sample.ext "") Sample.running Sample.cfgBadAdmin
    (Sample.updOk None 101)
  = (set_options Sample.running
       (mkServerOptions "all" "warn" (mkTracingOptions "" "" [])),
     [logWriteFailed]).
Proof.
  refine (proj2 (proj2 (proj2 (proj2 (proj2
    (malformed_admin_address (Sample.ext "") Sample.running Sample.cfgBadAdmin
       "unknown address format: nowhere" _) (Sample.updOk None 101))))) _ _ _);
    reflexivity.
Defined.

(** X9.  Whether [NewServer] returns a server depends on the working
    directory, the binary and its checksum only, never on the
    configuration or on what becomes of the first process: a server is
    returned exactly when the working directory could be made, the binary
    was found and, if a checksum is built in, the binary could be read and
    its digest is the checksum.  The server returned is the fresh server
    after one configuration change; it keeps the working directory, the
    two ports and the name of the binary that was looked up, not the full
    path found; and when the first configuration has invalid tracing
    options it is returned all the same, with no process. *)
Theorem NewServer_outcome :
  forall (X : External) (os : NewServerOS) (cfg : Config)
         (gp hp : string),
    (isOk (fst (NewServer os cfg gp hp)) = true
     <-> os_MkdirAll os = None
         /\ exists full,
             os_LookPath os (resolvedName os) = Ok full
             /\ (Checksum = ""
                 \/ exists bs, os_ReadFile os full = Ok bs
                               /\ hex.EncodeToString (sha256.Sum bs) = Checksum))
    /\ (forall srv,
           fst (NewServer os cfg gp hp) = Ok srv ->
           srv = fst (update (freshServer os gp hp) cfg (os_update os))
           /\ wd srv = filepath_Join (os_TempDir os) workingDirectoryName
           /\ grpcPort srv = gp
           /\ httpPort srv = hp
           /\ envoyPath srv = resolvedName os
           /\ (forall e, serverOptionsOf cfg = Err e ->
                         srv = freshServer os gp hp
                         /\ cmd srv = None)).
Proof.
  intros X os cfg gp hp. split.
  - unfold NewServer, onConfigChange, resolvedName.
    destruct (os_MkdirAll os) as [e|].
    { cbn [fst isOk]. split; [discriminate|]. intros [H _]. discriminate H. }
    destruct (os_extractEmbeddedEnvoy os) as [e|path].
    + destruct (os_LookPath os "envoy") as [e'|full].
      { cbn [fst isOk]. split; [discriminate|]. intros (_ & f & H & _). discriminate H. }
      destruct (String.eqb_spec Checksum "") as [Hc|Hc]; cbn [negb].
      * destruct (update _ cfg (os_update os)). cbn [fst isOk].
        split; [|reflexivity]. intros _. split; [reflexivity|].
        exists full. split; [reflexivity|]. left. exact Hc.
      * destruct (os_ReadFile os full) as [e'|bs] eqn:Hr.
        { cbn [fst isOk]. split; [discriminate|].
          intros (_ & f & H & [H'|(b & H' & _)]); [contradiction|].
          injection H as <-. rewrite Hr in H'. discriminate H'. }
        destruct (String.eqb_spec Checksum (hex.EncodeToString (sha256.Sum bs)))
          as [Hd|Hd]; cbn [negb].
        -- destruct (update _ cfg (os_update os)). cbn [fst isOk].
           split; [|reflexivity]. intros _. split; [reflexivity|].
           exists full. split; [reflexivity|]. right. exists bs. split; [exact Hr|symmetry; exact Hd].
        -- cbn [fst isOk]. split; [discriminate|].
           intros (_ & f & H & [H'|(b & H' & H'')]); [contradiction|].
           injection H as <-. rewrite Hr in H'. injection H' as <-. congruence.
    + destruct (os_LookPath os path) as [e'|full].
      { cbn [fst isOk]. split; [discriminate|]. intros (_ & f & H & _). discriminate H. }
      destruct (String.eqb_spec Checksum "") as [Hc|Hc]; cbn [negb].
      * destruct (update _ cfg (os_update os)). cbn [fst isOk].
        split; [|reflexivity]. intros _. split; [reflexivity|].
        exists full. split; [reflexivity|]. left. exact Hc.
      * destruct (os_ReadFile os full) as [e'|bs] eqn:Hr.
        { cbn [fst isOk]. split; [discriminate|].
          intros (_ & f & H & [H'|(b & H' & _)]); [contradiction|].
          injection H as <-. rewrite Hr in H'. discriminate H'. }
        destruct (String.eqb_spec Checksum (hex.EncodeToString (sha256.Sum bs)))
          as [Hd|Hd]; cbn [negb].
        -- destruct (update _ cfg (os_update os)). cbn [fst isOk].
           split; [|reflexivity]. intros _. split; [reflexivity|].
           exists full. split; [reflexivity|]. right. exists bs. split; [exact Hr|symmetry; exact Hd].
        -- cbn [fst isOk]. split; [discriminate|].
           intros (_ & f & H & [H'|(b & H' & H'')]); [contradiction|].
           injection H as <-. rewrite Hr in H'. injection H' as <-. congruence.
  - intros srv H. pose proof (NewServer_trace os cfg gp hp) as Ht.
    rewrite H in Ht. destruct Ht as [Hs _].
    pose proof (update_fields (freshServer os gp hp) cfg (os_update os))
      as (A & B & C & D).
    rewrite <- Hs in A, B, C, D.
    split; [exact Hs|]. split; [exact A|]. split; [exact B|].
    split; [exact C|]. split; [exact D|].
    intros e He. rewrite Hs. unfold update. rewrite He. split; reflexivity.
Qed.

Lemma NewServer_outcome_witness :
  fst (NewServer (X := Sample.ext "")
         (Sample.newServerOS "binary" (Sample.updOk None 101))
         Sample.cfgBadTracing "5443" "443")
  = Ok (freshServer (Sample.newServerOS "binary" (Sample.updOk None 101))
          "5443" "443")
  /\ cmd (freshServer (Sample.newServerOS "binary" (Sample.updOk None 101))
            "5443" "443") = None.
Proof.
  assert (H : fst (NewServer (X := Sample.ext "")
                     (Sample.newServerOS "binary" (Sample.updOk None 101))
                     Sample.cfgBadTracing "5443" "443")
              = Ok (freshServer (Sample.newServerOS "binary" (Sample.updOk None 101))
                      "5443" "443"))
    by (vm_compute; reflexivity).
  split; [exact H|].
  destruct (proj2 (NewServer_outcome (Sample.ext "")
                     (Sample.newServerOS "binary" (Sample.updOk None 101))
                     Sample.cfgBadTracing "5443" "443") _ H)
    as (_ & _ & _ & _ & _ & H6).
  exact (proj2 (H6 "config: provider nope unknown" eq_refl)).
Defined.

(** ** The bootstrap document *)

Lemma uint32_range : forall z, 0 <= uint32 z < 2 ^ 32.
Proof. intro z. unfold uint32. apply Z.mod_pos_bound. lia. Qed.

Lemma datadogAddr_port_range :
  forall override, 0 <= sa_PortValue (datadogAddr override) < 2 ^ 32.
Proof.
  intro o. unfold datadogAddr.
  destruct (negb (o =? "")%string); [|cbn; lia].
  destruct (net.SplitHostPort o) as [e|[a p]]; [cbn; lia|].
  destruct (strconv.ParseUint p 32); cbn [sa_PortValue]; [lia|].
  apply uint32_range.
Qed.

(** X10.  Every bootstrap document that is built is well formed: the
    cluster the ADS configuration names is one of its static clusters;
    the static clusters have distinct names; each has a five-second
    connect timeout, a load assignment under its own name and exactly one
    endpoint, a socket address whose port fits a uint32; HTTP/2 is set on
    the control-plane cluster and on no other; the node is the proxy, and
    the admin fields are those of the configuration. *)
Theorem bootstrap_well_formed :
  forall (X : External) (srv : Server) (cfg : Config) (bcfg : Bootstrap),
    bootstrap srv cfg = Ok bcfg ->
    let clusters := Clusters (StaticResources_ bcfg) in
    adsClusters bcfg = ["pomerium-control-plane-grpc"]
    /\ (forall n, In n (adsClusters bcfg) -> In n (List.map Name clusters))
    /\ NoDup (List.map Name clusters)
    /\ (forall c, In c clusters -> wellFormedCluster c)
    /\ (forall c, In c clusters ->
                  Http2ProtocolOptions c
                  = String.eqb (Name c) "pomerium-control-plane-grpc")
    /\ Node_ bcfg = mkNode "proxy" "proxy"
    /\ AccessLogPath (Admin_ bcfg) = EnvoyAdminAccessLogPath (Options_ cfg)
    /\ ProfilePath (Admin_ bcfg) = EnvoyAdminProfilePath (Options_ cfg)
    /\ ParseAddress (EnvoyAdminAddress (Options_ cfg)) = Ok (Address_ (Admin_ bcfg))
    /\ StatsTags (StatsConfig_ bcfg)
       = [mkTagSpecifier "service" (ServiceName (services (options srv)))].
Proof.
  intros X srv cfg bcfg H. unfold bootstrap in H.
  destruct (ParseAddress (EnvoyAdminAddress (Options_ cfg))) as [e|adminAddr];
    [discriminate H|].
  destruct (strconv.Atoi (grpcPort srv)) as [e|port]; [discriminate H|].
  unfold Ok in H. injection H as <-. cbn zeta.
  cbn [StaticResources_ Clusters adsClusters DynamicResources_ dynamicCfg
       AdsConfig GrpcServices List.map Node_ Admin_ AccessLogPath ProfilePath
       Address_ StatsConfig_ buildStatsConfig StatsTags nodeCfg].
  assert (Hcp : wellFormedCluster (controlPlaneCluster port)).
  { split; [reflexivity|]. split; [reflexivity|].
    eexists. split; [reflexivity|]. apply uint32_range. }
  assert (Hdd : forall o, wellFormedCluster (datadogCluster o)).
  { intro o. split; [reflexivity|]. split; [reflexivity|].
    eexists. split; [reflexivity|]. apply datadogAddr_port_range. }
  destruct (Provider (tracingOptions (options srv)) =? DatadogTracingProviderName)%string.
  - cbn [app List.map Name controlPlaneCluster datadogCluster staticCluster].
    split; [reflexivity|]. split.
    { intros n [<-|[]]. left. reflexivity. }
    split.
    { constructor; [|constructor; [intros []|constructor]].
      intros [Hn|[]]. discriminate Hn. }
    split.
    { intros c [<-|[<-|[]]]; [exact Hcp|apply Hdd]. }
    split.
    { intros c [<-|[<-|[]]]; reflexivity. }
    repeat split.
  - cbn [List.map Name controlPlaneCluster staticCluster].
    split; [reflexivity|]. split.
    { intros n [<-|[]]. left. reflexivity. }
    split.
    { constructor; [intros []|constructor]. }
    split.
    { intros c [<-|[]]. exact Hcp. }
    split.
    { intros c [<-|[]]. reflexivity. }
    repeat split.
Qed.

Lemma bootstrap_well_formed_witness :
  exists bcfg,
    bootstrap (X := Sample.ext "") (Sample.datadogServer "collector:9000")
      Sample.cfgInfo = Ok bcfg
    /\ NoDup (List.map Name (Clusters (StaticResources_ bcfg)))
    /\ List.length (Clusters (StaticResources_ bcfg)) = 2%nat.
Proof.
  eexists. split; [vm_compute; reflexivity|]. split; [|reflexivity].
  refine (proj1 (proj2 (proj2
    (bootstrap_well_formed (Sample.ext "") (Sample.datadogServer "collector:9000")
       Sample.cfgInfo _ _)))).
  vm_compute. reflexivity.
Defined.

(** X11.  The bootstrap document depends on the server through its
    control-plane port, its services and its tracing options only, and on
    the configuration through its three admin fields only: the HTTP port,
    the working directory, the handle, the restart epoch, the name of the
    binary and the log level have no part in it. *)
Theorem bootstrap_inputs :
  forall (X : External) (srv srv' : Server) (cfg cfg' : Config),
    grpcPort srv = grpcPort srv' ->
    services (options srv) = services (options srv') ->
    tracingOptions (options srv) = tracingOptions (options srv') ->
    EnvoyAdminAddress (Options_ cfg) = EnvoyAdminAddress (Options_ cfg') ->
    EnvoyAdminAccessLogPath (Options_ cfg) = EnvoyAdminAccessLogPath (Options_ cfg') ->
    EnvoyAdminProfilePath (Options_ cfg) = EnvoyAdminProfilePath (Options_ cfg') ->
    bootstrap srv cfg = bootstrap srv' cfg'
    /\ buildBootstrapConfig srv cfg = buildBootstrapConfig srv' cfg'.
Proof.
  intros X srv srv' cfg cfg' Hg Hs Ht Ha Hl Hp.
  assert (H : bootstrap srv cfg = bootstrap srv' cfg').
  { unfold bootstrap, buildStatsConfig. rewrite Hg, Hs, Ht, Ha, Hl, Hp.
    reflexivity. }
  split; [exact H|]. unfold buildBootstrapConfig. rewrite H. reflexivity.
Qed.

Lemma bootstrap_inputs_witness :
  buildBootstrapConfig (X := Sample.ext "") Sample.running Sample.cfgInfo
  = buildBootstrapConfig (X := Sample.ext "")
      (mkServer "/elsewhere" None "5443" "8443" "/usr/bin/envoy" 7
         (mkServerOptions "all" "trace" (mkTracingOptions "" "" [])))
      Sample.cfgWarn.
Proof.
  apply (bootstrap_inputs (Sample.ext "")); reflexivity.
Defined.

(** ** The log format and [parseLog] *)

Lemma sliceTo_app :
  forall a x, sliceTo (a ++ x) (String.length a) = a.
Proof.
  induction a as [|c a IH]; intro x; [destruct x; reflexivity|].
  cbn [append String.length sliceTo]. now rewrite IH.
Qed.

Lemma sliceFrom_app :
  forall a x n, sliceFrom (a ++ x) (String.length a + n) = sliceFrom x n.
Proof.
  induction a as [|c a IH]; intros x n; [reflexivity|].
  cbn [append String.length sliceFrom Nat.add]. apply IH.
Qed.

Lemma sliceFrom_sep :
  forall x, sliceFrom ("--" ++ x) (String.length "--") = x.
Proof. intros []; reflexivity. Qed.

Lemma HasPrefix_nil : forall s, strings.HasPrefix s "" = true.
Proof. intros []; reflexivity. Qed.

(** Whether the separator starts at a byte is seen on that byte and the
    next one. *)
Lemma HasPrefix_sep_app :
  forall c u x,
    strings.HasPrefix (String c (u ++ String "-" x)) "--"
    = strings.HasPrefix (String c (u ++ "-")) "--".
Proof.
  intros c [|d u] x; cbn [append strings.HasPrefix];
    rewrite !HasPrefix_nil; reflexivity.
Qed.

Lemma noSeparator_cons :
  forall c a,
    noSeparator (String c a) = true ->
    strings.HasPrefix (String c (a ++ "-")) "--" = false
    /\ noSeparator a = true.
Proof.
  intros c a H. unfold noSeparator, strings.Contains in *.
  cbn [append] in H. rewrite Index_eq in H.
  destruct (strings.HasPrefix (String c (a ++ "-")) "--"); [discriminate H|].
  split; [reflexivity|].
  destruct (strings.Index (a ++ "-") "--" <? 0) eqn:E.
  - apply Z.ltb_lt in E. apply negb_true_iff. apply Z.leb_gt. exact E.
  - apply Z.ltb_ge in E. exfalso.
    apply negb_true_iff in H. apply Z.leb_gt in H. lia.
Qed.

(** The first separator after a part that cannot be mistaken for one *)
Lemma Index_sep :
  forall a b,
    noSeparator a = true ->
    strings.Index (a ++ "--" ++ b) "--" = Z.of_nat (String.length a).
Proof.
  induction a as [|c a IH]; intros b H.
  { rewrite Index_eq. cbn [append strings.HasPrefix].
    rewrite HasPrefix_nil. reflexivity. }
  apply noSeparator_cons in H. destruct H as [Hp Ha].
  cbn [append String.length]. rewrite Index_eq.
  change ("--" ++ b)%string with (String "-" (String "-" b)).
  rewrite HasPrefix_sep_app, Hp.
  change (String "-" (String "-" b)) with ("--" ++ b)%string.
  rewrite (IH b Ha).
  destruct (Z.of_nat (String.length a) <? 0) eqn:E; [apply Z.ltb_lt in E; lia|].
  lia.
Qed.

Lemma noSeparator_sliceTo :
  forall s,
    0 <= strings.Index s "--" ->
    noSeparator (sliceTo s (Z.to_nat (strings.Index s "--"))) = true.
Proof.
  induction s as [|c s IH]; intro H; rewrite Index_eq in H |- *.
  - destruct (strings.HasPrefix "" "--"); reflexivity.
  - destruct (strings.HasPrefix (String c s) "--") eqn:Hp; [reflexivity|].
    destruct (strings.Index s "--" <? 0) eqn:E; [lia|].
    apply Z.ltb_ge in E. specialize (IH E).
    pose proof (Index_split s "--" E) as Hs.
    replace (Z.to_nat (strings.Index s "--" + 1))
      with (S (Z.to_nat (strings.Index s "--"))) by lia.
    cbn [sliceTo].
    remember (sliceTo s (Z.to_nat (strings.Index s "--"))) as u eqn:Hu.
    rewrite Hs in Hp.
    change ("--" ++ sliceFrom s (Z.to_nat (strings.Index s "--") + String.length "--"))%string
      with (String "-" (String "-"
              (sliceFrom s (Z.to_nat (strings.Index s "--") + String.length "--"))))
      in Hp.
    rewrite HasPrefix_sep_app in Hp.
    unfold noSeparator, strings.Contains in *. cbn [append].
    rewrite Index_eq, Hp.
    apply negb_true_iff in IH. apply Z.leb_gt in IH.
    destruct (strings.Index (u ++ "-") "--" <? 0) eqn:E2; [reflexivity|].
    apply Z.ltb_ge in E2. lia.
Qed.

Lemma SplitN3_sep :
  forall p0 p1 p2,
    noSeparator p0 = true ->
    noSeparator p1 = true ->
    strings.SplitN (p0 ++ "--" ++ p1 ++ "--" ++ p2) "--" 3 = [p0; p1; p2].
Proof.
  intros p0 p1 p2 H0 H1. cbn [strings.SplitN].
  rewrite (Index_sep p0 (p1 ++ "--" ++ p2) H0).
  destruct (Z.of_nat (String.length p0) <? 0) eqn:E; [apply Z.ltb_lt in E; lia|].
  rewrite Nat2Z.id, sliceTo_app, sliceFrom_app.
  rewrite sliceFrom_sep.
  rewrite (Index_sep p1 p2 H1).
  destruct (Z.of_nat (String.length p1) <? 0) eqn:E1; [apply Z.ltb_lt in E1; lia|].
  rewrite Nat2Z.id, sliceTo_app, sliceFrom_app, sliceFrom_sep. reflexivity.
Qed.

Lemma SplitN3_parts :
  forall line p0 p1 p2,
    strings.SplitN line "--" 3 = [p0; p1; p2] ->
    line = (p0 ++ "--" ++ p1 ++ "--" ++ p2)%string
    /\ noSeparator p0 = true /\ noSeparator p1 = true.
Proof.
  intros line p0 p1 p2 H. cbn [strings.SplitN] in H.
  pose proof (Index_split line "--") as L1.
  pose proof (noSeparator_sliceTo line) as N1.
  remember (sliceFrom line (Z.to_nat (strings.Index line "--") + String.length "--"))
    as rest eqn:Hrest.
  pose proof (Index_split rest "--") as L2.
  pose proof (noSeparator_sliceTo rest) as N2.
  destruct (strings.Index line "--" <? 0) eqn:E1; [discriminate H|].
  apply Z.ltb_ge in E1. injection H as H0 H.
  destruct (strings.Index rest "--" <? 0) eqn:E2; [discriminate H|].
  apply Z.ltb_ge in E2. injection H as H1 H2.
  specialize (L1 E1). specialize (L2 E2). specialize (N1 E1). specialize (N2 E2).
  change (String.length "--") with 2%nat in *.
  rewrite H0 in L1, N1. rewrite H1 in L2, N2. rewrite H2 in L2.
  split; [|split; assumption]. rewrite L1, L2. reflexivity.
Qed.

Lemma HasPrefix_app :
  forall p s, strings.HasPrefix (p ++ s) p = true.
Proof.
  induction p as [|c p IH]; intro s; [destruct s; reflexivity|].
  cbn [append strings.HasPrefix]. rewrite Ascii.eqb_refl. apply IH.
Qed.

Lemma TrimPrefix_app :
  forall p s, strings.TrimPrefix (p ++ s) p = s.
Proof.
  intros p s. unfold strings.TrimPrefix. rewrite HasPrefix_app.
  rewrite <- (Nat.add_0_r (String.length p)), sliceFrom_app.
  destruct s; reflexivity.
Qed.

Lemma noSeparator_tagged :
  forall lvl, noSeparator lvl = true -> noSeparator ("[LOG_FORMAT]" ++ lvl) = true.
Proof.
  intros lvl H. unfold noSeparator, strings.Contains in *.
  assert (G : forall c s, Ascii.eqb c "-" = false ->
                          strings.Index (String c s) "--" = 
                          if strings.Index s "--" <? 0 then -1
                          else strings.Index s "--" + 1).
  { intros c s Hc. rewrite Index_eq. cbn [strings.HasPrefix]. rewrite Hc.
    reflexivity. }
  apply negb_true_iff in H. apply Z.leb_gt in H.
  apply negb_true_iff. apply Z.leb_gt.
  cbn [append]. rewrite !G by reflexivity.
  apply Z.ltb_lt in H. rewrite H. cbn. lia.
Qed.

(** X12.  [parseLog] reads back what the log format passed to the child
    prints.  For a level and a logger name that cannot be mistaken for
    the separator (no two hyphens in a row, no hyphen at the end) and any
    message, the line printed under [LOG_FORMAT]%l--%n--%v parses to that
    name, level and message, and when the message is plain (not empty, not
    starting with a bracket or a quote) the record emitted carries the
    message as it is, the name (envoy when it is empty) and the level
    zerolog parses from the level field, debug when it parses none: of the
    level names of the child, warning, critical and off are logged at
    debug. *)
Theorem parseLog_formatLine :
  forall (lvl nm msg : string),
    noSeparator lvl = true ->
    noSeparator nm = true ->
    parseLog (formatLine lvl nm msg) = (nm, lvl, msg)
    /\ (forall c t,
           msg = String c t ->
           Ascii.eqb c "[" = false ->
           Ascii.eqb c dquote = false ->
           Ascii.eqb c squote = false ->
           Ascii.eqb c bquote = false ->
           handleLine (formatLine lvl nm msg)
           = Some (mkLogRecord (levelOf lvl) "envoy"
                     (if String.eqb nm "" then "envoy" else nm) msg))
    /\ List.map levelOf
         ["trace"; "debug"; "info"; "warning"; "error"; "critical"; "off"]
       = [zerolog.TraceLevel; zerolog.DebugLevel; zerolog.InfoLevel;
          zerolog.DebugLevel; zerolog.ErrorLevel; zerolog.DebugLevel;
          zerolog.DebugLevel].
Proof.
  intros lvl nm msg Hl Hn.
  assert (P : parseLog (formatLine lvl nm msg) = (nm, lvl, msg)).
  { unfold parseLog, formatLine.
    replace ("[LOG_FORMAT]" ++ lvl ++ "--" ++ nm ++ "--" ++ msg)%string
      with (("[LOG_FORMAT]" ++ lvl) ++ "--" ++ nm ++ "--" ++ msg)%string
      by (rewrite append_assoc; reflexivity).
    rewrite (SplitN3_sep _ nm msg (noSeparator_tagged lvl Hl) Hn).
    rewrite TrimPrefix_app. reflexivity. }
  split; [exact P|]. split; [|reflexivity].
  intros c t -> H1 H2 H3 H4. rewrite handleLine_eq.
  unfold finalMessage. rewrite P.
  change (String c t =? "")%string with false. cbv iota.
  rewrite (postProcess_plain c t H1 H2 H3 H4). reflexivity.
Qed.

Lemma parseLog_formatLine_witness :
  handleLine (formatLine "critical" "http2" "connection reset")
  = Some (mkLogRecord zerolog.DebugLevel "envoy" "http2" "connection reset").
Proof.
  exact (proj1 (proj2 (parseLog_formatLine "critical" "http2" "connection reset"
                         eq_refl eq_refl))
           "c"%char "onnection reset" eq_refl eq_refl eq_refl eq_refl eq_refl).
Defined.

Lemma HasPrefix_tag_app :
  forall p0 rest,
    strings.HasPrefix (p0 ++ "--" ++ rest) "[LOG_FORMAT]" = true ->
    strings.HasPrefix p0 "[LOG_FORMAT]" = true.
Proof.
  intros p0 rest H.
  do 12 (destruct p0 as [|? p0];
         [cbn in H; repeat rewrite ?andb_false_r in H; try discriminate H
         |cbn [append strings.HasPrefix] in H |- *;
          apply andb_true_iff in H; destruct H as [-> H]; cbn [andb]]).
  apply HasPrefix_nil.
Qed.

(** X13.  What [parseLog] returns determines the line.  When the line
    splits into three parts, it is the first part, the separator, the
    name, the separator and the message, and neither the first part nor
    the name can be mistaken for the separator; when the line begins with
    the tag [LOG_FORMAT] besides, it is the very line the log format
    prints for the level, the name and the message returned.  When the
    line does not split into three parts, the three results are empty. *)
Theorem parseLog_determines_line :
  forall (line : string),
    (forall p0 p1 p2,
        strings.SplitN line "--" 3 = [p0; p1; p2] ->
        parseLog line = (p1, strings.TrimPrefix p0 "[LOG_FORMAT]", p2)
        /\ line = (p0 ++ "--" ++ p1 ++ "--" ++ p2)%string
        /\ noSeparator p0 = true
        /\ noSeparator p1 = true
        /\ (strings.HasPrefix line "[LOG_FORMAT]" = true ->
            line = formatLine (strings.TrimPrefix p0 "[LOG_FORMAT]") p1 p2
            /\ noSeparator (strings.TrimPrefix p0 "[LOG_FORMAT]") = true))
    /\ (List.length (strings.SplitN line "--" 3) <> 3%nat ->
        parseLog line = ("", "", "")).
Proof.
  intro line. split.
  - intros p0 p1 p2 H. destruct (SplitN3_parts line p0 p1 p2 H) as (L & N0 & N1).
    split; [unfold parseLog; rewrite H; reflexivity|].
    split; [exact L|]. split; [exact N0|]. split; [exact N1|].
    intro Hp. rewrite L in Hp. apply HasPrefix_tag_app in Hp.
    pose proof (HasPrefix_split _ _ Hp) as Hs.
    unfold strings.TrimPrefix. rewrite Hp.
    change (String.length "[LOG_FORMAT]") with 12%nat in *.
    split.
    + unfold formatLine. rewrite L at 1. rewrite Hs at 1.
      rewrite append_assoc. reflexivity.
    + rewrite Hs in N0. clear - N0.
      remember (sliceFrom p0 12) as l. clear Heql.
      unfold noSeparator, strings.Contains in *.
      apply negb_true_iff in N0. apply Z.leb_gt in N0.
      apply negb_true_iff. apply Z.leb_gt.
      cbn [append] in N0.
      do 12 (rewrite Index_eq in N0; cbn [strings.HasPrefix Ascii.eqb Bool.eqb andb] in N0;
             destruct (strings.Index _ "--" <? 0) eqn:E in N0;
             [clear N0; apply Z.ltb_lt in E; rename E into N0
             |apply Z.ltb_ge in E; pose proof (Index_lower l "--"); lia]).
      exact N0.
  - intro H. unfold parseLog.
    destruct (strings.SplitN line "--" 3) as [|a [|b [|c [|d r]]]];
      try reflexivity.
    exfalso. apply H. reflexivity.
Qed.

Lemma parseLog_determines_line_witness :
  "[LOG_FORMAT]info--main--starting"%string
  = formatLine "info" "main" "starting".
Proof.
  exact (proj1 (proj2 (proj2 (proj2 (proj2
    (proj1 (parseLog_determines_line "[LOG_FORMAT]info--main--starting")
       "[LOG_FORMAT]info" "main" "starting" eq_refl)))) eq_refl)).
Defined.

(** ** The relay loop *)

Lemma handleLogs_cons :
  forall r reads,
    handleLogs (r :: reads)
    = match r with
      | ReadEOF _ | ReadClosed => []
      | _ => (relayed r ++ handleLogs reads)%list
      end.
Proof.
  intros [ln|p| |e] reads; cbn [handleLogs relayed app]; try reflexivity.
  destruct (handleLine _); reflexivity.
Qed.

Lemma handleLogs_relayed :
  forall reads, handleLogs reads = List.flat_map relayed (untilEnd reads).
Proof.
  induction reads as [|r reads IH]; [reflexivity|].
  rewrite handleLogs_cons.
  destruct r; cbn [untilEnd List.flat_map]; try reflexivity;
    rewrite IH; reflexivity.
Qed.

Lemma emitted_app :
  forall a b, emitted (a ++ b) = (emitted a ++ emitted b)%list.
Proof. intros a b. unfold emitted. apply List.flat_map_app. Qed.

Lemma TrimRight_cut :
  forall t cut, allBytes (containsByte cut) t = true -> strings.TrimRight t cut = "".
Proof.
  induction t as [|c t IH]; intros cut H; [reflexivity|].
  cbn [allBytes] in H. apply andb_true_iff in H. destruct H as [Hc Ht].
  cbn [strings.TrimRight]. rewrite (IH cut Ht), Hc. reflexivity.
Qed.

Lemma TrimRight_app_cut :
  forall s t cut,
    allBytes (containsByte cut) t = true ->
    strings.TrimRight (s ++ t) cut = strings.TrimRight s cut.
Proof.
  induction s as [|c s IH]; intros t cut H.
  - cbn [append]. rewrite (TrimRight_cut t cut H). reflexivity.
  - cbn [append strings.TrimRight]. rewrite (IH t cut H). reflexivity.
Qed.

Lemma TrimRight_id :
  forall s cut,
    (forall c, lastByte s = Some c -> containsByte cut c = false) ->
    strings.TrimRight s cut = s.
Proof.
  induction s as [|c s IH]; intros cut H; [reflexivity|].
  cbn [strings.TrimRight]. destruct s as [|d s].
  - cbn [strings.TrimRight]. rewrite (H c eq_refl). reflexivity.
  - rewrite (IH cut); [reflexivity|]. intros x Hx. apply H. exact Hx.
Qed.

Lemma TrimRight_last :
  forall s cut c,
    lastByte (strings.TrimRight s cut) = Some c -> containsByte cut c = false.
Proof.
  induction s as [|d s IH]; intros cut c H; [discriminate H|].
  cbn [strings.TrimRight] in H.
  destruct (strings.TrimRight s cut) as [|e t] eqn:E.
  - destruct (containsByte cut d) eqn:Hd; [discriminate H|].
    injection H as <-. exact Hd.
  - apply (IH cut c). rewrite E. exact H.
Qed.

(** X14.  Every record the relay emits comes from a line that was read
    before the end of the stream, and carries the service envoy, a name
    that is not empty and a message that is not empty; the message never
    ends with a carriage return or a newline unless unquoting put it
    there: when the line is taken as it is, its last byte is neither. *)
Theorem handleLogs_records :
  forall (reads : list Read) (r : LogRecord),
    In (Emit r) (handleLogs reads) ->
    service r = "envoy"
    /\ name r <> ""
    /\ message r <> ""
    /\ exists ln,
        In (ReadLine ln) (untilEnd reads)
        /\ handleLine (strings.TrimRight ln lineEnd) = Some r
        /\ (message r = strings.TrimRight ln lineEnd ->
            forall c, lastByte (message r) = Some c ->
                      Ascii.eqb c CR = false /\ Ascii.eqb c LF = false).
Proof.
  intros reads r H. rewrite handleLogs_relayed in H.
  apply List.in_flat_map in H. destruct H as (rd & Hrd & Hin).
  destruct rd as [ln|p| |e]; cbn [relayed] in Hin;
    try (cbn in Hin; intuition discriminate).
  fold lineEnd in Hin.
  destruct (handleLine (strings.TrimRight ln lineEnd)) as [r'|] eqn:Hl;
    [|destruct Hin].
  destruct Hin as [Hin|[]]. injection Hin as ->.
  pose proof Hl as Hl'. rewrite handleLine_eq in Hl'.
  destruct (parseLog (strings.TrimRight ln lineEnd)) as [[nm lv] ms].
  destruct (finalMessage (strings.TrimRight ln lineEnd) =? "")%string eqn:Hm;
    [discriminate Hl'|].
  injection Hl' as <-. cbn [service name message].
  split; [reflexivity|]. split.
  { destruct (nm =? "")%string eqn:Hn; [discriminate|].
    apply String.eqb_neq. exact Hn. }
  split; [apply String.eqb_neq; exact Hm|].
  exists ln. split; [exact Hrd|]. split; [exact Hl|].
  intros Heq c Hc. rewrite Heq in Hc. apply TrimRight_last in Hc.
  cbn [lineEnd str1 containsByte] in Hc.
  apply orb_false_iff in Hc. destruct Hc as [H1 Hc].
  apply orb_false_iff in Hc. destruct Hc as [H2 _].
  rewrite Ascii.eqb_sym in H1. rewrite Ascii.eqb_sym in H2. split; assumption.
Qed.

Lemma handleLogs_records_witness :
  service (mkLogRecord zerolog.InfoLevel "envoy" "main" "starting") = "envoy"
  /\ name (mkLogRecord zerolog.InfoLevel "envoy" "main" "starting") <> "".
Proof.
  destruct (handleLogs_records
              [ReadFailed "interrupted";
               ReadLine ("[LOG_FORMAT]info--main--starting" ++ lineEnd);
               ReadEOF "[LOG_FORMAT]info--main--cut"]
              (mkLogRecord zerolog.InfoLevel "envoy" "main" "starting"))
    as (H1 & H2 & _).
  - vm_compute. do 2 right. left. reflexivity.
  - split; assumption.
Defined.

(** X15.  The relay stops at the end of the stream and at nothing else.
    What it does is what it does with each read before the first end of
    stream or closed pipe, in order; what was read without a newline when
    the stream ended is dropped, with everything after it; a read that
    fails is logged and slept on, and changes nothing to the records
    emitted for the other reads. *)
Theorem handleLogs_stops_at_end :
  forall (reads : list Read),
    handleLogs reads = List.flat_map relayed (untilEnd reads)
    /\ (forall rest partial,
           handleLogs (reads ++ ReadEOF partial :: rest) = handleLogs reads)
    /\ (forall rest, handleLogs (reads ++ ReadClosed :: rest) = handleLogs reads)
    /\ emitted (handleLogs reads)
       = emitted (handleLogs (List.filter (fun r => negb (isReadFailed r)) reads))
    /\ List.length (List.filter (fun o => match o with FailedToRead _ => true
                                                  | _ => false end)
                      (handleLogs reads))
       = List.length (List.filter isReadFailed (untilEnd reads))
    /\ (List.length (emitted (handleLogs reads))
        <= List.length (List.filter isReadLine (untilEnd reads)))%nat.
Proof.
  intro reads. split; [apply handleLogs_relayed|].
  split.
  { intros rest p. induction reads as [|r reads IH]; [reflexivity|].
    cbn [app]. rewrite !handleLogs_cons. destruct r; try reflexivity;
      rewrite IH; reflexivity. }
  split.
  { intros rest. induction reads as [|r reads IH]; [reflexivity|].
    cbn [app]. rewrite !handleLogs_cons. destruct r; try reflexivity;
      rewrite IH; reflexivity. }
  split.
  { induction reads as [|r reads IH]; [reflexivity|].
    destruct r as [ln|p| |e]; cbn [List.filter isReadFailed negb];
      rewrite ?handleLogs_cons; try reflexivity.
    - rewrite !emitted_app, IH. reflexivity.
    - rewrite emitted_app, IH. reflexivity. }
  split.
  { induction reads as [|r reads IH]; [reflexivity|].
    rewrite handleLogs_cons.
    destruct r as [ln|p| |e]; cbn [untilEnd]; try reflexivity.
    - rewrite List.filter_app, List.length_app.
      cbn [List.filter isReadFailed relayed].
      destruct (handleLine _); cbn [List.filter List.length]; rewrite IH;
        reflexivity.
    - cbn [relayed app List.filter isReadFailed List.length].
      rewrite IH. reflexivity. }
  induction reads as [|r reads IH]; [cbn; lia|].
  rewrite handleLogs_cons.
  destruct r as [ln|p| |e]; cbn [untilEnd]; try (cbn; lia).
  - rewrite emitted_app, List.length_app.
    cbn [List.filter isReadLine List.length relayed].
    destruct (handleLine _); cbn; lia.
  - rewrite emitted_app, List.length_app.
    cbn [List.filter isReadLine relayed emitted List.flat_map app List.length].
    lia.
Qed.

(** X16.  The line terminator is no part of the line: any run of carriage
    returns and newlines at the end of what was read is removed before
    the line is parsed, so that a line ended by a carriage return and a
    newline is relayed as the same line ended by a newline alone, and a
    line whose last byte is neither is relayed as it is. *)
Theorem line_terminators :
  forall (ln t : string),
    allBytes (containsByte lineEnd) t = true ->
    relayed (ReadLine (ln ++ t)) = relayed (ReadLine ln)
    /\ ((forall c, lastByte ln = Some c -> containsByte lineEnd c = false) ->
        relayed (ReadLine (ln ++ t)) = relayLine ln).
Proof.
  intros ln t Ht. unfold relayed, relayLine. fold lineEnd.
  rewrite (TrimRight_app_cut ln t lineEnd Ht). split; [reflexivity|].
  intro H. rewrite (TrimRight_id ln lineEnd H). reflexivity.
Qed.

Lemma line_terminators_witness :
  relayed (ReadLine ("[LOG_FORMAT]info--main--starting" ++ lineEnd))
  = relayLine "[LOG_FORMAT]info--main--starting".
Proof.
  refine (proj2 (line_terminators "[LOG_FORMAT]info--main--starting" lineEnd
                   eq_refl) _).
  intros c H. injection H as <-. reflexivity.
Defined.

(** ** The file-and-line pattern *)

Lemma isDigit_inClass :
  forall c, strconv.isDigit c = true -> inClass c = true /\ Ascii.eqb c ":" = false.
Proof.
  intros c H. unfold strconv.isDigit in H. unfold inClass.
  assert (E : Ascii.eqb c ":" = false).
  { destruct (Ascii.eqb_spec c ":") as [->|]; [discriminate H|reflexivity]. }
  split; [|exact E].
  apply andb_true_iff in H. destruct H as [H1 H2].
  change (byte "0") with 48. change (byte "9") with 57.
  rewrite H1, H2. cbn [andb orb]. rewrite !orb_true_r. reflexivity.
Qed.

Lemma isSpace_not_inClass :
  forall w, isSpace w = true -> inClass w = false /\ Ascii.eqb w ":" = false.
Proof.
  intros w H. unfold isSpace in H. unfold inClass.
  assert (B : byte w <= 32).
  { repeat (apply orb_true_iff in H; destruct H as [H|H]);
      apply Z.eqb_eq in H; lia. }
  assert (E1 : Ascii.eqb w ":" = false).
  { destruct (Ascii.eqb_spec w ":") as [->|]; [|reflexivity].
    exfalso. vm_compute in B. apply B. reflexivity. }
  assert (E2 : Ascii.eqb w "." = false).
  { destruct (Ascii.eqb_spec w ".") as [->|]; [|reflexivity].
    exfalso. vm_compute in B. apply B. reflexivity. }
  split; [|exact E1]. rewrite E2.
  change (byte "a") with 97. change (byte "A") with 65.
  change (byte "0") with 48. change (byte "/") with 47.
  replace (97 <=? byte w) with false by (symmetry; apply Z.leb_gt; lia).
  replace (65 <=? byte w) with false by (symmetry; apply Z.leb_gt; lia).
  replace (48 <=? byte w) with false by (symmetry; apply Z.leb_gt; lia).
  replace (47 <=? byte w) with false by (symmetry; apply Z.leb_gt; lia).
  reflexivity.
Qed.

Lemma allBytes_app :
  forall p a b, allBytes p (a ++ b) = allBytes p a && allBytes p b.
Proof.
  induction a as [|c a IH]; intro b; [reflexivity|].
  cbn [append allBytes]. rewrite IH, andb_assoc. reflexivity.
Qed.

Lemma reDigits_sound :
  forall s g1 g2,
    reDigits s = Some (g1, g2) ->
    exists ds w,
      allBytes strconv.isDigit ds = true
      /\ isSpace w = true
      /\ containsByte g2 LF = false
      /\ g1 = (ds ++ "]")%string
      /\ s = (g1 ++ String w g2)%string.
Proof.
  induction s as [|c t IH]; intros g1 g2 H; [discriminate H|].
  cbn [reDigits] in H. destruct (strconv.isDigit c) eqn:Hd.
  - destruct (reDigits t) as [[h1 h2]|]; [|discriminate H].
    injection H as <- <-.
    destruct (IH _ _ eq_refl) as (ds & w & A & B & C & -> & ->).
    exists (String c ds), w. cbn [allBytes]. rewrite Hd, A.
    repeat split; assumption.
  - destruct (Ascii.eqb_spec c "]"); [|discriminate H]. subst c.
    destruct t as [|w r]; [discriminate H|].
    destruct (isSpace w) eqn:Hw; [|discriminate H].
    destruct (containsByte r LF) eqn:Hr; [discriminate H|].
    injection H as <- <-. exists "", w. repeat split; assumption.
Qed.

Lemma reDigits_complete :
  forall ds w g2,
    allBytes strconv.isDigit ds = true ->
    isSpace w = true ->
    containsByte g2 LF = false ->
    reDigits (ds ++ "]" ++ String w g2) = Some ((ds ++ "]")%string, g2).
Proof.
  induction ds as [|d ds IH]; intros w g2 Hd Hw Hg.
  - cbn [append reDigits]. change (strconv.isDigit "]") with false.
    cbn [Ascii.eqb Bool.eqb]. rewrite Hw, Hg. reflexivity.
  - cbn [allBytes] in Hd. apply andb_true_iff in Hd. destruct Hd as [H1 H2].
    cbn [append reDigits]. rewrite H1.
    change (String "]" (String w g2)) with ("]" ++ String w g2)%string.
    rewrite (IH w g2 H2 Hw Hg). reflexivity.
Qed.

Lemma reColon_sound :
  forall s g1 g2,
    reColon s = Some (g1, g2) ->
    exists ds w,
      ds <> ""
      /\ allBytes strconv.isDigit ds = true
      /\ isSpace w = true
      /\ containsByte g2 LF = false
      /\ g1 = (":" ++ ds ++ "]")%string
      /\ s = (g1 ++ String w g2)%string.
Proof.
  intros s g1 g2 H. unfold reColon in H.
  destruct s as [|c [|d t]]; try discriminate H.
  destruct (Ascii.eqb_spec c ":"); [|discriminate H]. subst c.
  destruct (strconv.isDigit d) eqn:Hd; [|discriminate H]. cbn [andb] in H.
  destruct (reDigits t) as [[h1 h2]|] eqn:Hr; [|discriminate H].
  injection H as <- <-.
  destruct (reDigits_sound _ _ _ Hr) as (ds & w & A & B & C & -> & ->).
  exists (String d ds), w. cbn [allBytes]. rewrite Hd, A.
  repeat split; try assumption. discriminate.
Qed.

Lemma reClass_sound :
  forall s g1 g2,
    reClass s = Some (g1, g2) ->
    exists cls ds w,
      allBytes inClass cls = true
      /\ ds <> ""
      /\ allBytes strconv.isDigit ds = true
      /\ isSpace w = true
      /\ containsByte g2 LF = false
      /\ g1 = (cls ++ ":" ++ ds ++ "]")%string
      /\ s = (g1 ++ String w g2)%string.
Proof.
  induction s as [|c t IH]; intros g1 g2 H; [discriminate H|].
  cbn [reClass] in H.
  assert (Hc : reColon (String c t) = Some (g1, g2) ->
               exists cls ds w,
                 allBytes inClass cls = true /\ ds <> ""
                 /\ allBytes strconv.isDigit ds = true /\ isSpace w = true
                 /\ containsByte g2 LF = false
                 /\ g1 = (cls ++ ":" ++ ds ++ "]")%string
                 /\ String c t = (g1 ++ String w g2)%string).
  { intro Hc. destruct (reColon_sound _ _ _ Hc) as (ds & w & A & B & C & D & E & F).
    exists "", ds, w. repeat split; assumption. }
  destruct (inClass c) eqn:Hi; [|exact (Hc H)].
  destruct (reClass t) as [[h1 h2]|]; [|exact (Hc H)].
  injection H as <- <-.
  destruct (IH _ _ eq_refl) as (cls & ds & w & A & B & C & D & E & -> & ->).
  exists (String c cls), ds, w. cbn [allBytes]. rewrite Hi, A.
  repeat split; assumption.
Qed.

(** The bracket expression cannot run over a byte that is neither of it
    nor a colon, unless a colon comes first. *)
Lemma reClass_none :
  forall u w r,
    containsByte u ":" = false ->
    inClass w = false ->
    Ascii.eqb w ":" = false ->
    reClass (u ++ String w r) = None.
Proof.
  induction u as [|c u IH]; intros w r Hu Hw Hc.
  - cbn [append reClass]. rewrite Hw. apply reColon_first_byte. exact Hc.
  - cbn [containsByte] in Hu. apply orb_false_iff in Hu. destruct Hu as [H1 H2].
    cbn [append reClass]. rewrite (IH w r H2 Hw Hc), (reColon_first_byte _ _ H1).
    destruct (inClass c); reflexivity.
Qed.

Lemma digits_no_colon :
  forall ds, allBytes strconv.isDigit ds = true -> containsByte (ds ++ "]") ":" = false.
Proof.
  induction ds as [|d ds IH]; intro H; [reflexivity|].
  cbn [allBytes] in H. apply andb_true_iff in H. destruct H as [H1 H2].
  cbn [append containsByte]. rewrite (IH H2).
  rewrite (proj2 (isDigit_inClass d H1)). reflexivity.
Qed.

Lemma reClass_cons :
  forall c t,
    reClass (String c t)
    = if inClass c then
        match reClass t with
        | Some (g1, g2) => Some (String c g1, g2)
        | None => reColon (String c t)
        end
      else reColon (String c t).
Proof. reflexivity. Qed.

Lemma reClass_complete :
  forall cls d ds w g2,
    allBytes inClass cls = true ->
    allBytes strconv.isDigit (String d ds) = true ->
    isSpace w = true ->
    containsByte g2 LF = false ->
    reClass (cls ++ ":" ++ String d ds ++ "]" ++ String w g2)
    = Some ((cls ++ ":" ++ String d ds ++ "]")%string, g2).
Proof.
  induction cls as [|c cls IH]; intros d ds w g2 Hc Hd Hw Hg.
  - cbn [append]. rewrite reClass_cons. change (inClass ":") with true. cbv iota.
    destruct (isSpace_not_inClass w Hw) as [W1 W2].
    pose proof (reClass_none (String d ds ++ "]") w g2 (digits_no_colon _ Hd) W1 W2)
      as Hn.
    rewrite append_assoc in Hn. cbn [append] in Hn. rewrite Hn.
    unfold reColon. cbn [allBytes] in Hd. apply andb_true_iff in Hd.
    destruct Hd as [H1 H2]. rewrite H1. cbn [Ascii.eqb Bool.eqb andb].
    change (String "]" (String w g2)) with ("]" ++ String w g2)%string.
    rewrite (reDigits_complete ds w g2 H2 Hw Hg). reflexivity.
  - cbn [allBytes] in Hc. apply andb_true_iff in Hc. destruct Hc as [H1 H2].
    cbn [append]. rewrite reClass_cons, H1.
    pose proof (IH d ds w g2 H2 Hd Hw Hg) as E. cbn [append] in E.
    rewrite E. reflexivity.
Qed.

(** X17.  The matcher of [fileNameAndNumberRE] finds exactly what the
    pattern describes: it returns the groups [g1] and [g2] for a string
    if and only if the string is an opening bracket, one or more bytes of
    the bracket expression, a colon, one or more digits and a closing
    bracket, which make [g1], then one white-space byte, then [g2], which
    holds no newline; and it finds nothing exactly when the string has no
    such reading.  The groups are then unique, whatever colons, digits
    and brackets the bracket expression itself runs over. *)
Theorem fileNameAndNumberRE_matches :
  forall (s : string),
    (forall g1 g2,
        fileNameAndNumberRE s = Some (g1, g2) <-> MatchesFileNameAndNumber s g1 g2)
    /\ (fileNameAndNumberRE s = None
        <-> forall g1 g2, ~ MatchesFileNameAndNumber s g1 g2)
    /\ (forall g1 g2 h1 h2,
           MatchesFileNameAndNumber s g1 g2 ->
           MatchesFileNameAndNumber s h1 h2 ->
           g1 = h1 /\ g2 = h2).
Proof.
  intro s.
  assert (Hiff : forall g1 g2,
             fileNameAndNumberRE s = Some (g1, g2)
             <-> MatchesFileNameAndNumber s g1 g2).
  { intros g1 g2. split.
    - intro H. unfold fileNameAndNumberRE in H.
      destruct s as [|o [|c t]]; try discriminate H.
      destruct (Ascii.eqb_spec o "["); [|discriminate H]. subst o.
      destruct (inClass c) eqn:Hc; [|discriminate H]. cbn [andb] in H.
      destruct (reClass t) as [[h1 h2]|] eqn:Hr; [|discriminate H].
      injection H as <- <-.
      destruct (reClass_sound _ _ _ Hr)
        as (cls & ds & w & A & B & C & D & E & -> & ->).
      exists (String c cls), ds, w. cbn [allBytes]. rewrite Hc, A.
      repeat split; try assumption. discriminate.
    - intros (cls & ds & w & A & B & C & D & E & F & -> & ->).
      destruct cls as [|c cls]; [contradiction|].
      destruct ds as [|d ds]; [contradiction|].
      cbn [allBytes] in B. apply andb_true_iff in B. destruct B as [B1 B2].
      cbn [append fileNameAndNumberRE]. rewrite B1.
      cbn [Ascii.eqb Bool.eqb andb].
      pose proof (reClass_complete cls d ds w g2 B2 D E F) as R.
      cbn [append] in R.
      replace ((cls ++ String ":" (String d (ds ++ "]"))) ++ String w g2)%string
        with (cls ++ String ":" (String d (ds ++ String "]" (String w g2))))%string.
      + rewrite R. reflexivity.
      + rewrite append_assoc. cbn [append]. rewrite append_assoc. reflexivity. }
  split; [exact Hiff|]. split.
  - split.
    + intros H g1 g2 M. apply Hiff in M. rewrite H in M. discriminate M.
    + intro H. destruct (fileNameAndNumberRE s) as [[g1 g2]|] eqn:E; [|reflexivity].
      exfalso. apply (H g1 g2). apply Hiff. reflexivity.
  - intros g1 g2 h1 h2 M1 M2. apply Hiff in M1. apply Hiff in M2.
    rewrite M1 in M2. injection M2 as -> ->. split; reflexivity.
Qed.

Lemma fileNameAndNumberRE_matches_witness :
  MatchesFileNameAndNumber "[a:1:2] x" "[a:1:2]" "x"
  /\ (forall h1 h2,
         MatchesFileNameAndNumber "[a:1:2] x" h1 h2 -> "[a:1:2]"%string = h1).
Proof.
  assert (M : MatchesFileNameAndNumber "[a:1:2] x" "[a:1:2]" "x")
    by (apply (proj1 (fileNameAndNumberRE_matches "[a:1:2] x")); reflexivity).
  split; [exact M|]. intros h1 h2 H.
  exact (proj1 (proj2 (proj2 (fileNameAndNumberRE_matches "[a:1:2] x"))
                  "[a:1:2]" "x" h1 h2 M H)).
Defined.

(** ** The process metrics collector *)

Lemma measured_app :
  forall a b,
    Collector.measured (a ++ b) = (Collector.measured a ++ Collector.measured b)%list.
Proof. intros a b. unfold Collector.measured. apply List.flat_map_app. Qed.

Lemma tick_measured :
  forall srv m,
    Collector.measured (Collector.tick srv m)
    = if 0 <? Collector.currentPid srv then [Collector.currentPid srv] else [].
Proof.
  intros srv m. unfold Collector.tick.
  destruct (0 <? Collector.currentPid srv); [|reflexivity].
  destruct m; reflexivity.
Qed.

Lemma tick_errors :
  forall srv m,
    List.length (List.filter isLogError (Collector.tick srv m))
    = if (0 <? Collector.currentPid srv)
         && match m with Some _ => true | None => false end
      then 1%nat else 0%nat.
Proof.
  intros srv m. unfold Collector.tick.
  destruct (0 <? Collector.currentPid srv); [|reflexivity].
  destruct m; reflexivity.
Qed.

(** X18.  The collector measures the current process and nothing else.
    Off linux it does nothing.  On linux it measures, tick after tick and
    in order, the process of the handle the tick finds, skipping the
    ticks that find no handle, a handle without a process or a pid that
    is not positive; neither a failure to register the views nor a
    failure of a measure stops it or changes what is measured later, and
    each is logged once. *)
Theorem collector_measures_current_process :
  forall (register : option error) (ticks : list (Server * option error)),
    (forall GOOS, GOOS <> "linux" ->
                  Collector.runProcessCollector GOOS register ticks = [])
    /\ Collector.measured (Collector.runProcessCollector "linux" register ticks)
       = List.filter (fun pid => 0 <? pid)
           (List.map (fun t => Collector.currentPid (fst t)) ticks)
    /\ List.length (List.filter isLogError
                      (Collector.runProcessCollector "linux" register ticks))
       = ((match register with Some _ => 1 | None => 0 end)
          + failedMeasures ticks)%nat
    /\ (forall srv c p m,
           cmd srv = Some c -> Process_ c = Some p -> 0 < Pid p ->
           Collector.measured (Collector.tick srv m) = [Pid p]).
Proof.
  intros register ticks. split.
  { intros GOOS H. unfold Collector.runProcessCollector.
    destruct (String.eqb_spec GOOS "linux"); [contradiction|reflexivity]. }
  split.
  { unfold Collector.runProcessCollector. cbn [String.eqb Ascii.eqb Bool.eqb negb].
    match goal with
    | |- Collector.measured (?a :: ?b :: ?r) = _ =>
        change (Collector.measured (a :: b :: r)) with (Collector.measured r)
    end.
    rewrite measured_app.
    replace (Collector.measured match register with
                                | Some _ => [Collector.LogError
                                    "failed to register envoy process metric views"]
                                | None => []
                                end) with (@nil Z) by (destruct register; reflexivity).
    cbn [app]. induction ticks as [|[srv m] ticks IH]; [reflexivity|].
    cbn [List.flat_map List.map List.filter fst snd].
    rewrite measured_app, tick_measured, IH.
    destruct (0 <? Collector.currentPid srv); reflexivity. }
  split.
  { unfold Collector.runProcessCollector. cbn [String.eqb Ascii.eqb Bool.eqb negb].
    cbn [List.filter isLogError]. rewrite List.filter_app, List.length_app.
    f_equal; [destruct register; reflexivity|].
    unfold failedMeasures.
    induction ticks as [|[srv m] ticks IH]; [reflexivity|].
    cbn [List.flat_map List.filter fst snd].
    rewrite List.filter_app, List.length_app, tick_errors, IH.
    destruct ((0 <? Collector.currentPid srv)
              && match m with Some _ => true | None => false end); reflexivity. }
  intros srv c p m Hc Hp Hpid. rewrite tick_measured.
  unfold Collector.currentPid. rewrite Hc, Hp.
  destruct (0 <? Pid p) eqn:E; [reflexivity|]. apply Z.ltb_ge in E. exfalso. lia.
Qed.

Lemma collector_measures_current_process_witness :
  Collector.runProcessCollector "darwin" None [(Sample.running, None)] = []
  /\ Collector.measured (Collector.tick Sample.running (Some "no such process"))
     = [100].
Proof.
  destruct (collector_measures_current_process None [(Sample.running, None)])
    as (H1 & _ & _ & H4).
  split.
  - apply H1. discriminate.
  - apply (H4 Sample.running Sample.oldCmd (mkProcess 100)); reflexivity.
Defined.
